(** * jetson_clocks.hpp: power-state controls of NVIDIA Jetson boards

    A shallow embedding of the header-only library [jetson_clocks.hpp] and
    the properties of its public operations.

    The repository carries two generations of the header:

    - the exception-throwing header ([void] setters that throw
      [JetsonClocksException], support for tegra186, tegra194 and tegra210),
      embedded in [Module Signal];
    - the boolean header ([bool] setters that print to [std::cout] and
      return a success flag, support for tegra186 and tegra210),
      embedded in [Module BestEffort].

    Both share the same file primitives, embedded first. *)

From stdpp Require Import base tactics option list sorting strings pretty gmap.
From Stdlib Require Import ZArith Lia Ascii String.

#[local] Open Scope string_scope.
#[local] Open Scope Z_scope.

(** ** The machine the library runs on *)

(** A file.  [readable] says whether opening it for reading succeeds
    ([std::ifstream] is [good()]), [writable] whether [fopen(name, "w")]
    succeeds.  Files behave as regular files do: opening one for writing
    truncates it to zero length, and data written to it is what it holds
    afterwards. *)
Record file := File {
  contents : string;
  readable : bool;
  writable : bool
}.

(** What [fstatat] reports in [st_mode] for a directory entry. *)
Inductive kind := KDir | KReg | KOther.

(** A directory entry: a node of its own kind, or a symbolic link together
    with the kind of the node the link finally resolves to ([None] for a
    dangling link). *)
Inductive node :=
  | Plain (k : kind)
  | Link (resolves : option kind).

(** The observable effects of a call, in the order they happen. *)
Inductive event :=
  | OpenW (name : string)          (* fopen(name, "w") succeeded *)
  | Write (name data : string)     (* data sent to an std::ofstream on name *)
  | Print (text : string).         (* text sent to std::cout *)

#[global] Instance event_eq_dec : EqDecision event.
Proof. solve_decision. Defined.

Record system := System {
  euid : Z;                                   (* geteuid() *)
  files : gmap string file;
  dirs : gmap string (list (string * node));  (* readdir order, with . and .. *)
  trace : list event
}.

Definition is_write (e : event) : bool :=
  match e with Write _ _ => true | _ => false end.

(** The file-system writes among the effects of a call. *)
Definition writes (t : list event) : list event := filter is_write t.

(** ** Exceptions and the monad of operations *)

Inductive exn :=
  | JetsonClocksException (message : string)
  | invalid_argument        (* std::invalid_argument, from std::stoi *)
  | out_of_range.           (* std::out_of_range, from std::stoi *)

Inductive outcome (A : Type) :=
  | Return (a : A)
  | Throw (e : exn).
Arguments Return {A} a.
Arguments Throw {A} e.

Definition M (A : Type) : Type := system → outcome A * system.

Definition ret {A} (a : A) : M A := λ s, (Return a, s).

Definition bind {A B} (c : M A) (k : A → M B) : M B := λ s,
  match c s with
  | (Return a, s') => k a s'
  | (Throw e, s') => (Throw e, s')
  end.

Definition throw {A} (e : exn) : M A := λ s, (Throw e, s).

Definition lift {A} (o : outcome A) : M A := λ s, (o, s).

Notation "'do' x <- c ; k" := (bind c (λ x, k))
  (at level 10, x name, c at level 100, k at level 200).
Notation "c ;; k" := (bind c (λ _, k))
  (at level 100, k at level 200, right associativity).

Definition emit (e : event) : M unit := λ s,
  (Return tt, System (euid s) (files s) (dirs s) (trace s ++ [e])).

(** [std::cout << ...] *)
Definition print (text : string) : M unit := emit (Print text).

(** ** Integer types of the target (LP64) *)

Definition INT_MIN : Z := -2147483648.
Definition INT_MAX : Z := 2147483647.
Definition LONG_MIN : Z := -9223372036854775808.
Definition LONG_MAX : Z := 9223372036854775807.

(** Conversion of an [int] to [unsigned char]. *)
Definition to_uchar (v : Z) : Z := v `mod` 256.

(** [to_string(value)]: the decimal rendering [os << value]. *)
Definition to_string (value : Z) : string := pretty value.

(** ** Parsing *)

Definition digit (c : ascii) : option Z := Z.of_nat <$> Ascii.is_nat c.

Fixpoint skip_space (s : string) : string :=
  match s with
  | String c rest => if Ascii.is_space c then skip_space rest else s
  | EmptyString => s
  end.

(** The longest run of decimal digits at the head of [s], as a number;
    [None] when [s] does not start with a digit. *)
Fixpoint digits (acc : option Z) (s : string) : option Z :=
  match s with
  | String c rest =>
      match digit c with
      | Some d => digits (Some (10 * default 0 acc + d)) rest
      | None => acc
      end
  | EmptyString => acc
  end.

(** [strtol(s, &end, 10)] without its range check: leading white space, an
    optional sign, decimal digits; [None] when no conversion is possible. *)
Definition strtol (s : string) : option Z :=
  match skip_space s with
  | String "-" rest => Z.opp <$> digits None rest
  | String "+" rest => digits None rest
  | rest => digits None rest
  end.

(** [std::stoi(str)] *)
Definition stoi (str : string) : outcome Z :=
  match strtol str with
  | None => Throw invalid_argument
  | Some v =>
      if bool_decide (INT_MIN ≤ v ≤ INT_MAX) then Return v
      else Throw out_of_range
  end.

(** The extraction loop
    [while (iss >> s) speeds.push_back(s);] over a [long int s]. *)
Inductive scan :=
  | Skipping
  | Number (neg : bool) (value : option Z).

Definition extracted (neg : bool) (value : option Z) : option Z :=
  v ← value;
  let r := if neg then - v else v in
  if bool_decide (LONG_MIN ≤ r ≤ LONG_MAX) then Some r else None.

Fixpoint extract_longs (st : scan) (s : string) : list Z :=
  match s with
  | EmptyString =>
      match st with
      | Skipping => []
      | Number neg value => option_list (extracted neg value)
      end
  | String c rest =>
      let start :=
        if Ascii.is_space c then extract_longs Skipping rest
        else if bool_decide (c = "+"%char) then extract_longs (Number false None) rest
        else if bool_decide (c = "-"%char) then extract_longs (Number true None) rest
        else match digit c with
             | Some d => extract_longs (Number false (Some d)) rest
             | None => []
             end in
      match st with
      | Skipping => start
      | Number neg value =>
          match digit c with
          | Some d => extract_longs (Number neg (Some (10 * default 0 value + d))) rest
          | None =>
              match extracted neg value with
              | Some v => v :: start
              | None => []
              end
          end
      end
  end.

Definition parse_longs (s : string) : list Z := extract_longs Skipping s.

(** [std::sort(first, last, std::less<>())] on integers, where the sorted
    vector does not depend on the sorting algorithm. *)
Definition sort (l : list Z) : list Z := merge_sort Z.le l.

(** [std::find(v.begin(), v.end(), x) != v.end()] *)
Definition found {A} `{EqDecision A} (x : A) (v : list A) : bool :=
  bool_decide (x ∈ v).

(** ** File primitives (identical in both headers) *)

Definition running_as_root : M bool := λ s,
  (Return (bool_decide (euid s = 0)), s).

(** Whether [std::ifstream f(name)] is [good()] in [s]. *)
Definition opens (s : system) (name : string) : bool :=
  from_option readable false (files s !! name).

(** Whether [fopen(name, "w")] succeeds in [s]. *)
Definition opens_w (s : system) (name : string) : bool :=
  from_option writable false (files s !! name).

(** What [buffer << t.rdbuf()] collects from [name] in [s]: the whole file,
    nothing when it cannot be opened. *)
Definition slurp (s : system) (name : string) : string :=
  match files s !! name with
  | Some f => if readable f then contents f else ""
  | None => ""
  end.

Definition file_exists (name : string) : M bool := λ s,
  (Return (opens s name), s).

(** The files after [name] was truncated to zero length. *)
Definition truncated (name : string) (fs : gmap string file) : gmap string file :=
  alter (λ f, File "" (readable f) (writable f)) name fs.

(** [fopen(name, "w") != NULL]: mode [w] truncates the file it opens. *)
Definition fopen_w (name : string) : M bool := λ s,
  if opens_w s name
  then (Return true,
        System (euid s) (truncated name (files s)) (dirs s) (trace s ++ [OpenW name]))
  else (Return false, s).

Definition file_writable (name : string) : M bool :=
  do e <- file_exists name;
  if negb e then ret false else fopen_w name.

Definition read_file (name : string) : M string := λ s,
  (Return (slurp s name), s).

(** [std::ofstream out(name); out << str;] *)
Definition ofstream_put (name str : string) : M unit := λ s,
  (Return tt,
   System (euid s)
          (alter (λ f, File str (readable f) (writable f)) name (files s))
          (dirs s)
          (trace s ++ [Write name str])).

Definition write_file (name str : string) : M bool :=
  do w <- file_writable name;
  if negb w then ret false
  else ofstream_put name str;; ret true.

Fixpoint strip_newline (input : string) : string :=
  match input with
  | String c rest =>
      if bool_decide (c = "010"%char) then strip_newline rest
      else String c (strip_newline rest)
  | EmptyString => EmptyString
  end.

(** [fstatat(dirfd, name, &st, 0)]: flag 0 follows symbolic links; the call
    fails on a dangling link. *)
Definition fstatat (n : node) : option kind :=
  match n with
  | Plain k => Some k
  | Link resolves => resolves
  end.

Definition S_ISDIR (k : kind) : bool :=
  match k with KDir => true | _ => false end.

(** The [while ((dent = readdir(srcdir)) != NULL)] loop of [list_subdirs]. *)
Fixpoint readdir_loop (entries : list (string * node)) : list string :=
  match entries with
  | [] => []
  | (d_name, n) :: rest =>
      if bool_decide (d_name = ".") || bool_decide (d_name = "..")
      then readdir_loop rest
      else match fstatat n with
           | None => readdir_loop rest
           | Some st =>
               if S_ISDIR st then d_name :: readdir_loop rest
               else readdir_loop rest
           end
  end.

Definition list_subdirs (path : string) : M (list string) := λ s,
  (Return (match dirs s !! path with
           | None => []
           | Some entries => readdir_loop entries
           end), s).

(** [str.find(pat)], with [None] for [std::string::npos]. *)
Fixpoint find (str pat : string) : option nat :=
  if String.prefix pat str then Some 0%nat
  else match str with
       | String _ rest => S <$> find rest pat
       | EmptyString => None
       end.

(** [std::regex_match(str, reg)] for the regular expression of [get_cpu_ids]
    (any characters, then cpu, then one of 0-9): the whole of [str] is a run
    of characters other than line terminators, then [cpu], then one decimal
    digit. *)
Definition line_terminator (c : ascii) : bool :=
  bool_decide (c = "010"%char) || bool_decide (c = "013"%char).

Definition regex_match_cpu (str : string) : bool :=
  match list_ascii_of_string (String.rev str) with
  | d :: "u"%char :: "p"%char :: "c"%char :: before =>
      bool_decide (is_Some (digit d)) && forallb (λ c, negb (line_terminator c)) before
  | _ => false
  end.

(** [dir[dir.size() - 1] - '0'] *)
Definition last_char_minus_0 (dir : string) : Z :=
  match list_ascii_of_string (String.rev dir) with
  | c :: _ => Z.of_nat (nat_of_ascii c) - 48
  | [] => 0
  end.

(** The body shared by both headers' [get_cpu_ids] after the root check. *)
Definition cpu_ids_of_subdirs (all_subdirs : list string) : list Z :=
  let cpu_subdirs := filter (λ str, regex_match_cpu str = true) all_subdirs in
  sort (last_char_minus_0 <$> cpu_subdirs).

Definition endl : string := String "010"%char "".

(** * The exception-throwing header *)

Module Signal.

Definition get_soc_family : M string :=
  do primary <- file_exists "/sys/devices/soc0/family";
  if primary then read_file "/sys/devices/soc0/family"
  else
    do secondary <- file_exists "/proc/device-tree/compatible";
    if secondary then
      do compat_file <- read_file "/proc/device-tree/compatible";
      if bool_decide (is_Some (find compat_file "nvidia,tegra210")) then ret "tegra210"
      else if bool_decide (is_Some (find compat_file "nvidia,tegra186")) then ret "tegra186"
      else if bool_decide (is_Some (find compat_file "nvidia,tegra194")) then ret "tegra194"
      else ret ""
    else throw (JetsonClocksException "SOC family cannot be found.").

Definition get_machine : M string :=
  do primary <- file_exists "/sys/devices/soc0/family";
  if primary then
    do m <- file_exists "/sys/devices/soc0/machine";
    if m then read_file "/sys/devices/soc0/machine" else ret ""
  else
    do model <- file_exists "/proc/device-tree/model";
    if model then read_file "/proc/device-tree/model"
    else throw (JetsonClocksException "machine type cannot be found.").

(** The choice of [path] in [set_fan_speed] and [get_fan_speed]. *)
Definition fan_path : M string :=
  do w1 <- file_writable "/sys/kernel/debug/tegra_fan/target_pwm";
  if w1 then ret "/sys/kernel/debug/tegra_fan/target_pwm"
  else
    do w2 <- file_writable "/sys/devices/pwm-fan/target_pwm";
    if w2 then ret "/sys/devices/pwm-fan/target_pwm"
    else throw (JetsonClocksException "fan speed file not found.").

Definition set_fan_speed (speed : Z) : M unit :=
  do root <- running_as_root;
  if negb root then
    throw (JetsonClocksException "fan speed can not be set without root permissions.")
  else
    do machine <- get_machine;
    if bool_decide (machine = "jetson-tk1") then ret tt
    else
      do path <- fan_path;
      let speed_string := to_string speed in
      write_file path speed_string;; ret tt.

Definition get_fan_speed : M Z :=
  do root <- running_as_root;
  if negb root then
    throw (JetsonClocksException "fan speed cannot be read without root permissions.")
  else
    do machine <- get_machine;
    if bool_decide (machine = "jetson-tk1") then ret 255
    else
      do path <- fan_path;
      do text <- read_file path;
      do v <- lift (stoi text);
      ret (to_uchar v).

(** The if-chain that assigns [GPU_AVAILABLE_FREQS]. *)
Definition GPU_AVAILABLE_FREQS (soc_family : string) : M string :=
  if bool_decide (soc_family = "tegra186") then
    ret "/sys/devices/17000000.gp10b/devfreq/17000000.gp10b/available_frequencies"
  else if bool_decide (soc_family = "tegra210") then
    ret "/sys/devices/57000000.gpu/devfreq/57000000.gpu/available_frequencies"
  else if bool_decide (soc_family = "tegra194") then
    ret "/sys/devices/17000000.gv11b/devfreq/17000000.gv11b/available_frequencies"
  else
    throw (JetsonClocksException
      ("cannot read gpu available freqs with unsupported SOC family " +:+
       soc_family +:+ ".")).

Definition get_gpu_available_freqs : M (list Z) :=
  do root <- running_as_root;
  if negb root then
    throw (JetsonClocksException "cannot read gpu available freqs without root permissions.")
  else
    do soc_family <- get_soc_family;
    do path <- GPU_AVAILABLE_FREQS soc_family;
    do speedstr <- read_file path;
    let speeds := parse_longs speedstr in
    ret (sort speeds).

(** The if-chain that assigns [GPU_MIN_FREQ], [GPU_MAX_FREQ] and
    [GPU_RAIL_GATE] in [set_gpu_freq_range]. *)
Definition GPU_RANGE_PATHS (soc_family : string) : M (string * string * string) :=
  if bool_decide (soc_family = "tegra186") then
    ret ("/sys/devices/17000000.gp10b/devfreq/17000000.gp10b/min_freq",
         "/sys/devices/17000000.gp10b/devfreq/17000000.gp10b/max_freq",
         "/sys/devices/17000000.gp10b/devfreq/17000000.gp10b/device/railgate_enable")
  else if bool_decide (soc_family = "tegra210") then
    ret ("/sys/devices/57000000.gpu/devfreq/57000000.gpu/min_freq",
         "/sys/devices/57000000.gpu/devfreq/57000000.gpu/max_freq",
         "/sys/devices/57000000.gpu/devfreq/57000000.gpu/device/railgate_enable")
  else if bool_decide (soc_family = "tegra194") then
    ret ("/sys/devices/17000000.gv11b/devfreq/17000000.gv11b/min_freq",
         "/sys/devices/17000000.gv11b/devfreq/17000000.gv11b/max_freq",
         "/sys/devices/17000000.gv11b/devfreq/17000000.gv11b/device/railgate_enable")
  else
    throw (JetsonClocksException
      ("cannot gpu frequency range with unsupported SOC family " +:+
       soc_family +:+ ".")).

Definition set_gpu_freq_range (min_freq max_freq : Z) : M unit :=
  do root <- running_as_root;
  if negb root then
    throw (JetsonClocksException "cannot set gpu freq range without root permissions.")
  else
    do available_freqs <- get_gpu_available_freqs;
    if negb (found min_freq available_freqs) then
      throw (JetsonClocksException "selected gpu minimum frequency is not available.")
    else if negb (found max_freq available_freqs) then
      throw (JetsonClocksException "selected gpu maximum frequency is not available.")
    else
      do soc_family <- get_soc_family;
      do paths <- GPU_RANGE_PATHS soc_family;
      let '(GPU_MIN_FREQ, GPU_MAX_FREQ, GPU_RAIL_GATE) := paths in
      write_file GPU_MIN_FREQ (to_string min_freq);;
      write_file GPU_MAX_FREQ (to_string max_freq);;
      write_file GPU_RAIL_GATE "0";;
      ret tt.

(** The if-chain that assigns [PATH] in [get_gpu_cur_freq],
    [get_gpu_min_freq] and [get_gpu_max_freq]; [leaf] is [cur_freq],
    [min_freq] or [max_freq] and [what] the words of the message. *)
Definition GPU_FREQ_PATH (leaf what soc_family : string) : M string :=
  if bool_decide (soc_family = "tegra186") then ret ""          (* TODO *)
  else if bool_decide (soc_family = "tegra210") then ret ""     (* TODO *)
  else if bool_decide (soc_family = "tegra194") then
    ret ("/sys/devices/17000000.gv11b/devfreq/17000000.gv11b/" +:+ leaf)
  else
    throw (JetsonClocksException
      ("cannot get " +:+ what +:+ " with unsupported SOC family " +:+
       soc_family +:+ ".")).

Definition get_gpu_freq (leaf what what_missing denied : string) : M Z :=
  do root <- running_as_root;
  if negb root then throw (JetsonClocksException denied)
  else
    do soc_family <- get_soc_family;
    do PATH <- GPU_FREQ_PATH leaf what soc_family;
    do e <- file_exists PATH;
    if negb e then
      throw (JetsonClocksException
        ("cannot get " +:+ what_missing +:+ " because " +:+ PATH +:+ " does not exist."))
    else
      do text <- read_file PATH;
      lift (stoi text).

Definition get_gpu_cur_freq : M Z :=
  get_gpu_freq "cur_freq" "current gpu frequency" "current gpu freq."
    "cannot get gpu current freq. without root permissions.".

Definition get_gpu_min_freq : M Z :=
  get_gpu_freq "min_freq" "gpu min frequency" "min gpu freq."
    "cannot get gpu min freq. without root permissions.".

Definition get_gpu_max_freq : M Z :=
  get_gpu_freq "max_freq" "gpu max frequency" "max gpu freq."
    "cannot get gpu max freq. without root permissions.".

Definition get_gpu_current_usage : M Z :=
  do soc_family <- get_soc_family;
  if bool_decide (soc_family = "tegra210") then
    do text <- read_file "/sys/devices/gpu.0/load";
    lift (stoi text)
  else
    throw (JetsonClocksException "cannot get current GPU usage. SOC family unsupported.").

(** The if-chain of [get_emc_available_freqs] that assigns [EMC_MIN_FREQ]
    and [EMC_MAX_FREQ], with the iso-cap override of the first branch. *)
Definition EMC_RANGE_PATHS (soc_family : string) : M (string * string) :=
  if bool_decide (soc_family = "tegra186") || bool_decide (soc_family = "tegra194") then
    let EMC_ISO_CAP := "/sys/kernel/nvpmodel_emc_cap/emc_iso_cap" in
    let EMC_MIN_FREQ := "/sys/kernel/debug/bpmp/debug/clk/emc/min_rate" in
    let EMC_MAX_FREQ := "/sys/kernel/debug/bpmp/debug/clk/emc/max_rate" in
    do cap_text <- read_file EMC_ISO_CAP;
    do emc_cap <- lift (stoi cap_text);
    do fmax_text <- read_file EMC_MAX_FREQ;
    do emc_fmax <- lift (stoi fmax_text);
    if bool_decide (emc_cap > 0) && bool_decide (emc_cap < emc_fmax)
    then ret (EMC_MIN_FREQ, EMC_ISO_CAP)
    else ret (EMC_MIN_FREQ, EMC_MAX_FREQ)
  else if bool_decide (soc_family = "tegra210") then
    ret ("/sys/kernel/debug/tegra_bwmgr/emc_min_rate",
         "/sys/kernel/debug/tegra_bwmgr/emc_max_rate")
  else
    throw (JetsonClocksException
      "cannot get emc available frequencies. SOC family unsupported.").

Definition get_emc_available_freqs : M (list Z) :=
  do root <- running_as_root;
  if negb root then
    throw (JetsonClocksException "cannot read EMC available freqs without root permissions.")
  else
    do soc_family <- get_soc_family;
    do paths <- EMC_RANGE_PATHS soc_family;
    let '(EMC_MIN_FREQ, EMC_MAX_FREQ) := paths in
    do min_text <- read_file EMC_MIN_FREQ;
    do min_freq <- lift (stoi min_text);
    do max_text <- read_file EMC_MAX_FREQ;
    do max_freq <- lift (stoi max_text);
    ret [min_freq; max_freq].

(** The if-chain of [get_emc_freq] that assigns [EMC_UPDATE_FREQ]; its first
    test compares with the literal [tagra194]. *)
Definition EMC_GET_PATH (soc_family : string) : M string :=
  if bool_decide (soc_family = "tegra186") || bool_decide (soc_family = "tagra194") then
    ret "/sys/kernel/debug/bpmp/debug/clk/emc/rate"
  else if bool_decide (soc_family = "tegra210") then
    ret "/sys/kernel/debug/clk/override.emc/clk_update_rate"
  else
    throw (JetsonClocksException "cannot get emc frequency. SOC family unsupported.").

Definition get_emc_freq : M Z :=
  do root <- running_as_root;
  if negb root then
    throw (JetsonClocksException "cannot read EMC freq without root permissions.")
  else
    do soc_family <- get_soc_family;
    do EMC_UPDATE_FREQ <- EMC_GET_PATH soc_family;
    do text <- read_file EMC_UPDATE_FREQ;
    lift (stoi text).

(** The if-chain of [set_emc_freq] that assigns [EMC_UPDATE_FREQ] and
    [EMC_FREQ_OVERRIDE]. *)
Definition EMC_SET_PATHS (soc_family : string) : M (string * string) :=
  if bool_decide (soc_family = "tegra186") || bool_decide (soc_family = "tegra194") then
    ret ("/sys/kernel/debug/bpmp/debug/clk/emc/rate",
         "/sys/kernel/debug/bpmp/debug/clk/emc/mrq_rate_locked")
  else if bool_decide (soc_family = "tegra210") then
    ret ("/sys/kernel/debug/clk/override.emc/clk_update_rate",
         "/sys/kernel/debug/clk/override.emc/clk_state")
  else
    throw (JetsonClocksException
      ("cannot set emc frequency with unsupported soc_family" +:+ soc_family +:+ ".")).

Definition set_emc_freq (freq : Z) : M unit :=
  do root <- running_as_root;
  if negb root then
    throw (JetsonClocksException "cannot set EMC freq without root permissions.")
  else
    do emc_freqs <- get_emc_available_freqs;
    let min_freq := emc_freqs !!! 0%nat in
    let max_freq := emc_freqs !!! (List.length emc_freqs - 1)%nat in
    if bool_decide (freq < min_freq) || bool_decide (freq > max_freq) then
      throw (JetsonClocksException "emc frequency not in acceptable range.")
    else
      do soc_family <- get_soc_family;
      do paths <- EMC_SET_PATHS soc_family;
      let '(EMC_UPDATE_FREQ, EMC_FREQ_OVERRIDE) := paths in
      write_file EMC_UPDATE_FREQ (to_string freq);;
      write_file EMC_FREQ_OVERRIDE "1";;
      ret tt.

Definition get_cpu_ids : M (list Z) :=
  do root <- running_as_root;
  if negb root then
    throw (JetsonClocksException "cannot look up CPU ids without root permissions.")
  else
    do all_subdirs <- list_subdirs "/sys/devices/system/cpu/";
    ret (cpu_ids_of_subdirs all_subdirs).

Definition get_cpu_available_freqs (cpu_id : Z) : M (list Z) :=
  do root <- running_as_root;
  if negb root then
    throw (JetsonClocksException
      "cannot look up CPU available frequencies without root permissions.")
  else
    let path := "/sys/devices/system/cpu/cpu" +:+ to_string cpu_id +:+
                "/cpufreq/scaling_available_frequencies" in
    do e <- file_exists path;
    if negb e then
      throw (JetsonClocksException
        ("cannot get cpu available frequencies because " +:+ path +:+ " does not exist."))
    else
      do speedstr <- read_file path;
      let speeds := parse_longs speedstr in
      ret (sort speeds).

Definition get_cpu_available_governors (cpu_id : Z) : M (list string) :=
  do root <- running_as_root;
  if negb root then
    throw (JetsonClocksException
      "cannot look up CPU available governors without root permissions.")
  else
    let path := "/sys/devices/system/cpu/cpu" +:+ to_string cpu_id +:+
                "/cpufreq/scaling_available_governors" in
    do e <- file_exists path;
    if negb e then
      throw (JetsonClocksException
        ("cannot look up CPU available governors because " +:+ path +:+ " does not exist."))
    else
      do text <- read_file path;
      let govstr := strip_newline text in
      ret (String.words govstr).

Definition get_cpu_governor (cpu_id : Z) : M string :=
  do root <- running_as_root;
  if negb root then
    throw (JetsonClocksException "cannot get cpu governor without root permissions.")
  else
    let path := "/sys/devices/system/cpu/cpu" +:+ to_string cpu_id +:+
                "/cpufreq/scaling_governor" in
    do e <- file_exists path;
    if negb e then
      throw (JetsonClocksException
        ("cannot get cpu governor because " +:+ path +:+ " does not exist."))
    else
      do text <- read_file path;
      ret (strip_newline text).

(** The common shape of [get_cpu_min_freq], [get_cpu_max_freq] and
    [get_cpu_cur_freq], which differ in the file they read and in their two
    messages. *)
Definition get_cpu_freq (leaf what denied : string) (cpu_id : Z) : M Z :=
  do root <- running_as_root;
  if negb root then throw (JetsonClocksException denied)
  else
    let path := "/sys/devices/system/cpu/cpu" +:+ to_string cpu_id +:+ leaf in
    do e <- file_exists path;
    if negb e then
      throw (JetsonClocksException
        ("cannot get " +:+ what +:+ " because " +:+ path +:+ " does not exist."))
    else
      do text <- read_file path;
      lift (stoi text).

Definition get_cpu_min_freq : Z → M Z :=
  get_cpu_freq "/cpufreq/scaling_min_freq" "min. freq."
    "cannot get cpu min. freq. without root permissions.".

Definition get_cpu_max_freq : Z → M Z :=
  get_cpu_freq "/cpufreq/scaling_max_freq" "max. freq."
    "cannot get cpu max. freq. without root permissions.".

Definition get_cpu_cur_freq : Z → M Z :=
  get_cpu_freq "/cpufreq/scaling_cur_freq" "current cpu freq."
    "cannot get cpu current freq. without root permissions.".

(** The writes that precede the target write in the three per-CPU setters. *)
Definition disable_throttling : M unit :=
  write_file "/sys/module/qos/parameters/enable" "0";;
  do soc_family <- get_soc_family;
  if bool_decide (soc_family = "tegra186") then
    write_file "/sys/kernel/debug/tegra_cpufreq/M_CLUSTER/cc3/enable" "0";;
    write_file "/sys/kernel/debug/tegra_cpufreq/B_CLUSTER/cc3/enable" "0";;
    ret tt
  else ret tt.

Definition set_cpu_min_freq (cpu_id min_freq : Z) : M unit :=
  do root <- running_as_root;
  if negb root then
    throw (JetsonClocksException "cannot set CPU min. freq. without root permissions.")
  else
    let path := "/sys/devices/system/cpu/cpu" +:+ to_string cpu_id +:+
                "/cpufreq/scaling_min_freq" in
    do w <- file_writable path;
    if negb w then
      throw (JetsonClocksException
        ("cannot set cpu" +:+ to_string cpu_id +:+ " min. freq. because " +:+
         path +:+ " is not writable."))
    else
      do available_freqs <- get_cpu_available_freqs cpu_id;
      if negb (found min_freq available_freqs) then
        throw (JetsonClocksException
          (to_string min_freq +:+ " is not an available min. freq."))
      else
        disable_throttling;;
        write_file path (to_string min_freq);;
        ret tt.

Definition set_cpu_max_freq (cpu_id max_freq : Z) : M unit :=
  do root <- running_as_root;
  if negb root then
    throw (JetsonClocksException "cannot set CPU max. freq. without root permissions.")
  else
    let path := "/sys/devices/system/cpu/cpu" +:+ to_string cpu_id +:+
                "/cpufreq/scaling_max_freq" in
    do w <- file_writable path;
    if negb w then
      throw (JetsonClocksException
        ("cannot set cpu" +:+ to_string cpu_id +:+ " max. freq. because " +:+
         path +:+ " is not writable."))
    else
      do available_freqs <- get_cpu_available_freqs cpu_id;
      if negb (found max_freq available_freqs) then
        throw (JetsonClocksException
          (to_string max_freq +:+ " is not an available max. freq."))
      else
        disable_throttling;;
        write_file path (to_string max_freq);;
        ret tt.

Definition set_cpu_governor (cpu_id : Z) (governor : string) : M unit :=
  do root <- running_as_root;
  if negb root then
    throw (JetsonClocksException "cannot set CPU governor without root permissions.")
  else
    let path := "/sys/devices/system/cpu/cpu" +:+ to_string cpu_id +:+
                "/cpufreq/scaling_governor" in
    do e <- file_exists path;
    if negb e then
      throw (JetsonClocksException
        ("cannot set cpu" +:+ to_string cpu_id +:+ " governor because " +:+
         path +:+ " is not writable."))
    else
      do available_govs <- get_cpu_available_governors cpu_id;
      if negb (found governor available_govs) then
        throw (JetsonClocksException (governor +:+ " is not an available governor."))
      else
        disable_throttling;;
        write_file path governor;;
        ret tt.

End Signal.

(** * The boolean header *)

Module BestEffort.

(** [for (const auto &s : v) std::cout << ...;] *)
Fixpoint print_each {A} (f : A → string) (v : list A) : M unit :=
  match v with
  | [] => ret tt
  | x :: rest => print (f x);; print_each f rest
  end.

Definition get_soc_family : M string :=
  do primary <- file_exists "/sys/devices/soc0/family";
  if primary then read_file "/sys/devices/soc0/family"
  else
    do secondary <- file_exists "/proc/device-tree/compatible";
    if secondary then
      do compat_file <- read_file "/proc/device-tree/compatible";
      if bool_decide (is_Some (find compat_file "nvidia,tegra210")) then ret "tegra210"
      else if bool_decide (is_Some (find compat_file "nvidia,tegra186")) then ret "tegra186"
      else ret ""
    else ret "".

Definition get_machine : M string :=
  do primary <- file_exists "/sys/devices/soc0/family";
  if primary then
    do m <- file_exists "/sys/devices/soc0/machine";
    if m then read_file "/sys/devices/soc0/machine" else ret ""
  else
    do model <- file_exists "/proc/device-tree/model";
    if model then read_file "/proc/device-tree/model" else ret "".

Definition set_fan_speed (speed : Z) : M bool :=
  do root <- running_as_root;
  if negb root then
    print ("Error: Cannot change fan speed without running as root." +:+ endl);;
    ret false
  else
    do machine <- get_machine;
    if bool_decide (machine = "jetson-tk1") then ret true
    else
      do w <- file_writable "/sys/kernel/debug/tegra_fan/target_pwm";
      if negb w then
        print ("Can't access Fan!" +:+ endl);; ret false
      else
        let speed_string := to_string speed in
        write_file "/sys/kernel/debug/tegra_fan/target_pwm" speed_string.

Definition get_fan_speed : M Z :=
  do root <- running_as_root;
  if negb root then
    print ("Error: Cannot read fan speed without running as root." +:+ endl);;
    ret 0
  else
    do machine <- get_machine;
    if bool_decide (machine = "jetson-tk1") then ret 255
    else
      do e <- file_exists "/sys/kernel/debug/tegra_fan/target_pwm";
      if negb e then
        print ("Can't access Fan!" +:+ endl);; ret 0
      else
        do text <- read_file "/sys/kernel/debug/tegra_fan/target_pwm";
        do v <- lift (stoi text);
        ret (to_uchar v).

(** The if-chain that assigns [GPU_AVAILABLE_FREQS]; [None] is its last
    branch. *)
Definition GPU_AVAILABLE_FREQS (soc_family : string) : option string :=
  if bool_decide (soc_family = "tegra186") then
    Some "/sys/devices/17000000.gp10b/devfreq/17000000.gp10b/available_frequencies"
  else if bool_decide (soc_family = "tegra210") then
    Some "/sys/devices/57000000.gpu/devfreq/57000000.gpu/available_frequencies"
  else None.

Definition get_gpu_available_freqs : M (list Z) :=
  do root <- running_as_root;
  if negb root then
    print ("Error: Cannot look up gpu available freqs without running as root." +:+ endl);;
    ret []
  else
    do soc_family <- get_soc_family;
    match GPU_AVAILABLE_FREQS soc_family with
    | None =>
        print ("Error: unsupported SOC " +:+ soc_family +:+ endl);; ret []
    | Some path =>
        do speedstr <- read_file path;
        let speeds := parse_longs speedstr in
        ret (sort speeds)
    end.

(** The if-chain that assigns [GPU_MIN_FREQ], [GPU_MAX_FREQ] and
    [GPU_RAIL_GATE]. *)
Definition GPU_RANGE_PATHS (soc_family : string) : option (string * string * string) :=
  if bool_decide (soc_family = "tegra186") then
    Some ("/sys/devices/17000000.gp10b/devfreq/17000000.gp10b/min_freq",
          "/sys/devices/17000000.gp10b/devfreq/17000000.gp10b/max_freq",
          "/sys/devices/17000000.gp10b/devfreq/17000000.gp10b/device/railgate_enable")
  else if bool_decide (soc_family = "tegra210") then
    Some ("/sys/devices/57000000.gpu/devfreq/57000000.gpu/min_freq",
          "/sys/devices/57000000.gpu/devfreq/57000000.gpu/max_freq",
          "/sys/devices/57000000.gpu/devfreq/57000000.gpu/device/railgate_enable")
  else None.

Definition set_gpu_freq_range (min_freq max_freq : Z) : M bool :=
  do root <- running_as_root;
  if negb root then
    print ("Error: Cannot set GPU freq range without running as root." +:+ endl);;
    ret false
  else
    do available_freqs <- get_gpu_available_freqs;
    if negb (found min_freq available_freqs) then
      print ("Error: Selected gpu minimum frequency is not available. Options are: " +:+ endl);;
      print_each (λ s, to_string s +:+ endl) available_freqs;;
      ret false
    else if negb (found max_freq available_freqs) then
      print ("Error: Selected gpu maximum frequency is not available. Options are: " +:+ endl);;
      print_each (λ s, to_string s +:+ endl) available_freqs;;
      ret false
    else
      do soc_family <- get_soc_family;
      match GPU_RANGE_PATHS soc_family with
      | None =>
          print ("Error: unsupported SOC " +:+ soc_family +:+ endl);; ret false
      | Some (GPU_MIN_FREQ, GPU_MAX_FREQ, GPU_RAIL_GATE) =>
          let success := true in
          do w1 <- write_file GPU_MIN_FREQ (to_string min_freq);
          let success := success && w1 in
          do w2 <- write_file GPU_MAX_FREQ (to_string max_freq);
          let success := success && w2 in
          do w3 <- write_file GPU_RAIL_GATE "0";
          let success := success && w3 in
          ret success
      end.

Definition get_emc_available_freq_range : M (Z * Z) :=
  do root <- running_as_root;
  if negb root then
    print ("Error: Cannot look up EMC freqs without running as root." +:+ endl);;
    ret (0, 0)
  else
    do soc_family <- get_soc_family;
    let read_range (EMC_MIN_FREQ EMC_MAX_FREQ : string) : M (Z * Z) :=
      do min_text <- read_file EMC_MIN_FREQ;
      do min_freq <- lift (stoi min_text);
      do max_text <- read_file EMC_MAX_FREQ;
      do max_freq <- lift (stoi max_text);
      ret (min_freq, max_freq) in
    if bool_decide (soc_family = "tegra186") then
      let EMC_ISO_CAP := "/sys/kernel/nvpmodel_emc_cap/emc_iso_cap" in
      let EMC_MIN_FREQ := "/sys/kernel/debug/bpmp/debug/clk/emc/min_rate" in
      let EMC_MAX_FREQ := "/sys/kernel/debug/bpmp/debug/clk/emc/max_rate" in
      do cap_text <- read_file EMC_ISO_CAP;
      do emc_cap <- lift (stoi cap_text);
      do fmax_text <- read_file EMC_MAX_FREQ;
      do emc_fmax <- lift (stoi fmax_text);
      if bool_decide (emc_cap > 0) && bool_decide (emc_cap < emc_fmax)
      then read_range EMC_MIN_FREQ EMC_ISO_CAP
      else read_range EMC_MIN_FREQ EMC_MAX_FREQ
    else if bool_decide (soc_family = "tegra210") then
      read_range "/sys/kernel/debug/tegra_bwmgr/min_rate"
                 "/sys/kernel/debug/tegra_bwmgr/max_rate"
    else
      print ("Error: unsupported SOC " +:+ soc_family +:+ endl);;
      ret (0, 0).

(** The if-chain that assigns [EMC_UPDATE_FREQ] and [EMC_FREQ_OVERRIDE], in
    [get_emc_freq] and in [set_emc_freq]. *)
Definition EMC_PATHS (soc_family : string) : option (string * string) :=
  if bool_decide (soc_family = "tegra186") then
    Some ("/sys/kernel/debug/bpmp/debug/clk/emc/rate",
          "/sys/kernel/debug/bpmp/debug/clk/emc/mrq_rate_locked")
  else if bool_decide (soc_family = "tegra210") then
    Some ("/sys/kernel/debug/clk/override.emc/clk_update_rate",
          "/sys/kernel/debug/clk/override.emc/clk_state")
  else None.

Definition get_emc_freq : M Z :=
  do root <- running_as_root;
  if negb root then
    print ("Error: Cannot read EMC freq without running as root." +:+ endl);;
    ret 0
  else
    do soc_family <- get_soc_family;
    match EMC_PATHS soc_family with
    | None =>
        print ("Error: unsupported SOC " +:+ soc_family +:+ endl);; ret 0
    | Some (EMC_UPDATE_FREQ, _) =>
        do text <- read_file EMC_UPDATE_FREQ;
        lift (stoi text)
    end.

(** The two writes of [set_emc_freq]; the value is the flag [success] that
    the setter accumulates. *)
Definition emc_writes (EMC_UPDATE_FREQ EMC_FREQ_OVERRIDE : string) (freq : Z) : M bool :=
  let success := true in
  do w1 <- write_file EMC_UPDATE_FREQ (to_string freq);
  let success := success && w1 in
  do w2 <- write_file EMC_FREQ_OVERRIDE "1";
  let success := success && w2 in
  ret success.

Definition set_emc_freq (freq : Z) : M bool :=
  do root <- running_as_root;
  if negb root then
    print ("Error: Cannot change EMC freq without running as root." +:+ endl);;
    ret false
  else
    do range <- get_emc_available_freq_range;
    let '(min_freq, max_freq) := range in
    if bool_decide (freq < min_freq) || bool_decide (freq > max_freq) then
      print ("Error: EMC freq must be in the range [" +:+ to_string min_freq +:+ ", " +:+
             to_string max_freq +:+ "]" +:+ endl);;
      ret false
    else
      do soc_family <- get_soc_family;
      match EMC_PATHS soc_family with
      | None =>
          print ("Error: unsupported SOC " +:+ soc_family +:+ endl);; ret false
      | Some (EMC_UPDATE_FREQ, EMC_FREQ_OVERRIDE) =>
          do success <- emc_writes EMC_UPDATE_FREQ EMC_FREQ_OVERRIDE freq;
          ret true
      end.

Definition get_cpu_ids : M (list Z) :=
  do root <- running_as_root;
  if negb root then
    print ("Error: Cannot look up CPU ids without running as root." +:+ endl);;
    ret []
  else
    do all_subdirs <- list_subdirs "/sys/devices/system/cpu/";
    ret (cpu_ids_of_subdirs all_subdirs).

Definition get_cpu_available_freqs (cpu_id : Z) : M (list Z) :=
  do root <- running_as_root;
  if negb root then
    print ("Error: Cannot get CPU available frequencies without running as root." +:+ endl);;
    ret []
  else
    let path := "/sys/devices/system/cpu/cpu" +:+ to_string cpu_id +:+
                "/cpufreq/scaling_available_frequencies" in
    do e <- file_exists path;
    if negb e then
      print ("Error: Cannot get cpu" +:+ to_string cpu_id +:+
             " available frequencies because " +:+ path +:+ " does not exist.");;
      ret []
    else
      do speedstr <- read_file path;
      let speeds := parse_longs speedstr in
      if bool_decide (List.length speeds = 0%nat) then
        print ("Error: cpu" +:+ to_string cpu_id +:+
               " available frequencies not found." +:+ endl);;
        ret []
      else ret (sort speeds).

Definition get_cpu_available_governors (cpu_id : Z) : M (list string) :=
  do root <- running_as_root;
  if negb root then
    print ("Error: Cannot get CPU available governors without running as root." +:+ endl);;
    ret []
  else
    let path := "/sys/devices/system/cpu/cpu" +:+ to_string cpu_id +:+
                "/cpufreq/scaling_available_governors" in
    do e <- file_exists path;
    if negb e then
      print ("Error: Cannot get cpu" +:+ to_string cpu_id +:+
             " available governors because " +:+ path +:+ " does not exist.");;
      ret []
    else
      do text <- read_file path;
      let govstr := strip_newline text in
      ret (String.words govstr).

Definition get_cpu_governor (cpu_id : Z) : M string :=
  do root <- running_as_root;
  if negb root then
    print ("Error: Cannot get CPU governor without running as root." +:+ endl);;
    ret ""
  else
    let path := "/sys/devices/system/cpu/cpu" +:+ to_string cpu_id +:+
                "/cpufreq/scaling_governor" in
    do e <- file_exists path;
    if negb e then
      print ("Error: Cannot get cpu" +:+ to_string cpu_id +:+ " governor because " +:+
             path +:+ " does not exist.");;
      ret ""
    else
      do text <- read_file path;
      ret (strip_newline text).

(** The common shape of [get_cpu_min_freq], [get_cpu_max_freq] and
    [get_cpu_cur_freq], which differ in the file they read and in the word
    ([min.], [max.] or [cur.]) of their messages. *)
Definition get_cpu_freq (leaf which : string) (cpu_id : Z) : M Z :=
  do root <- running_as_root;
  if negb root then
    print ("Error: Cannot get CPU " +:+ which +:+ " freq. without running as root." +:+ endl);;
    ret 0
  else
    let path := "/sys/devices/system/cpu/cpu" +:+ to_string cpu_id +:+ leaf in
    do e <- file_exists path;
    if negb e then
      print ("Error: Cannot get cpu" +:+ to_string cpu_id +:+ " " +:+ which +:+
             " freq. because " +:+ path +:+ " does not exist.");;
      ret 0
    else
      do text <- read_file path;
      lift (stoi text).

Definition get_cpu_min_freq : Z → M Z := get_cpu_freq "/cpufreq/scaling_min_freq" "min.".
Definition get_cpu_max_freq : Z → M Z := get_cpu_freq "/cpufreq/scaling_max_freq" "max.".
Definition get_cpu_cur_freq : Z → M Z := get_cpu_freq "/cpufreq/scaling_cur_freq" "cur.".

(** The writes of the three per-CPU setters: the QoS and cluster-idle files,
    then the target [path]; the value is the flag [success] that the setter
    accumulates. *)
Definition cpu_writes (path value : string) : M bool :=
  let success := true in
  do w1 <- write_file "/sys/module/qos/parameters/enable" "0";
  let success := success && w1 in
  do soc_family <- get_soc_family;
  do success <-
    (if bool_decide (soc_family = "tegra186") then
       do w2 <- write_file "/sys/kernel/debug/tegra_cpufreq/M_CLUSTER/cc3/enable" "0";
       let success := success && w2 in
       do w3 <- write_file "/sys/kernel/debug/tegra_cpufreq/B_CLUSTER/cc3/enable" "0";
       let success := success && w3 in
       ret success
     else ret success);
  do w4 <- write_file path value;
  let success := success && w4 in
  ret success.

Definition set_cpu_min_freq (cpu_id min_freq : Z) : M bool :=
  do root <- running_as_root;
  if negb root then
    print ("Error: Cannot set CPU min. freq. without running as root." +:+ endl);;
    ret false
  else
    let path := "/sys/devices/system/cpu/cpu" +:+ to_string cpu_id +:+
                "/cpufreq/scaling_min_freq" in
    do w <- file_writable path;
    if negb w then
      print ("Error: Cannot set cpu" +:+ to_string cpu_id +:+ " min. freq. because " +:+
             path +:+ " is not writable." +:+ endl);;
      ret false
    else
      do available_freqs <- get_cpu_available_freqs cpu_id;
      if bool_decide (List.length available_freqs = 0%nat) then
        print ("Error: cpu" +:+ to_string cpu_id +:+ " available freqs not found." +:+ endl);;
        ret false
      else if negb (found min_freq available_freqs) then
        print ("Error: " +:+ to_string min_freq +:+ " is not an available cpu frequency." +:+
               endl +:+ "Options are: ");;
        print_each (λ f, to_string f +:+ " ") available_freqs;;
        print endl;;
        ret false
      else
        do success <- cpu_writes path (to_string min_freq);
        ret true.

Definition set_cpu_max_freq (cpu_id max_freq : Z) : M bool :=
  do root <- running_as_root;
  if negb root then
    print ("Error: Cannot set CPU max. freq. without running as root." +:+ endl);;
    ret false
  else
    let path := "/sys/devices/system/cpu/cpu" +:+ to_string cpu_id +:+
                "/cpufreq/scaling_max_freq" in
    do w <- file_writable path;
    if negb w then
      print ("Error: Cannot set cpu" +:+ to_string cpu_id +:+ " max. freq. because " +:+
             path +:+ " is not writable." +:+ endl);;
      ret false
    else
      do available_freqs <- get_cpu_available_freqs cpu_id;
      if bool_decide (List.length available_freqs = 0%nat) then
        print ("Error: cpu" +:+ to_string cpu_id +:+ " available freqs not found." +:+ endl);;
        ret false
      else if negb (found max_freq available_freqs) then
        print ("Error: " +:+ to_string max_freq +:+ " is not an available cpu frequency." +:+
               endl +:+ "Options are: ");;
        print_each (λ f, to_string f +:+ " ") available_freqs;;
        print endl;;
        ret false
      else
        do success <- cpu_writes path (to_string max_freq);
        ret true.

Definition set_cpu_governor (cpu_id : Z) (governor : string) : M bool :=
  do root <- running_as_root;
  if negb root then
    print ("Error: Cannot set CPU max. freq. without running as root." +:+ endl);;
    ret false
  else
    let path := "/sys/devices/system/cpu/cpu" +:+ to_string cpu_id +:+
                "/cpufreq/scaling_governor" in
    do e <- file_exists path;
    if negb e then
      print ("Error: Cannot set cpu" +:+ to_string cpu_id +:+ " governor because " +:+
             path +:+ " does not exist." +:+ endl);;
      ret false
    else
      do available_govs <- get_cpu_available_governors cpu_id;
      if bool_decide (List.length available_govs = 0%nat) then
        print ("Error: cpu" +:+ to_string cpu_id +:+ " available governors not found." +:+ endl);;
        ret false
      else if negb (found governor available_govs) then
        print ("Error: " +:+ governor +:+ " is not an available governor." +:+
               endl +:+ "Options are: ");;
        print_each (λ g, g +:+ " ") available_govs;;
        print endl;;
        ret false
      else
        do success <- cpu_writes path governor;
        ret true.

End BestEffort.

(** * Vocabulary of the statements *)

(** The path of [scaling_available_frequencies] of a CPU. *)
Definition cpu_available_frequencies (cpu_id : Z) : string :=
  "/sys/devices/system/cpu/cpu" +:+ to_string cpu_id +:+
  "/cpufreq/scaling_available_frequencies".

(** The paths of the per-CPU control files. *)
Definition cpu_min_freq_path (cpu_id : Z) : string :=
  "/sys/devices/system/cpu/cpu" +:+ to_string cpu_id +:+ "/cpufreq/scaling_min_freq".
Definition cpu_max_freq_path (cpu_id : Z) : string :=
  "/sys/devices/system/cpu/cpu" +:+ to_string cpu_id +:+ "/cpufreq/scaling_max_freq".
Definition cpu_governor_path (cpu_id : Z) : string :=
  "/sys/devices/system/cpu/cpu" +:+ to_string cpu_id +:+ "/cpufreq/scaling_governor".
Definition cpu_available_governors (cpu_id : Z) : string :=
  "/sys/devices/system/cpu/cpu" +:+ to_string cpu_id +:+
  "/cpufreq/scaling_available_governors".

(** The families with a path table in the exception-throwing header. *)
Definition supported (family : string) : Prop :=
  family = "tegra186" ∨ family = "tegra194" ∨ family = "tegra210".

(** The outcome of an operation that throws [JetsonClocksException(message)]
    and leaves [s] as it was. *)
Definition thrown {A} (s : system) (message : string) : outcome A * system :=
  (Throw (JetsonClocksException message), s).

(** [s] after [text] went to [std::cout]. *)
Definition printed (s : system) (text : string) : system :=
  System (euid s) (files s) (dirs s) (trace s ++ [Print text]).

(** [s] after a successful [fopen(name, "w")]: the file is empty. *)
Definition opened (s : system) (name : string) : system :=
  System (euid s) (truncated name (files s)) (dirs s) (trace s ++ [OpenW name]).

(** [s] after a successful [write_file(name, str)]: the open for writing,
    then the data. *)
Definition wrote (s : system) (name str : string) : system :=
  System (euid s)
         (alter (λ f, File str (readable f) (writable f)) name (files s))
         (dirs s)
         (trace s ++ [OpenW name; Write name str]).

(** Whether [write_file(name, ...)] succeeds in [s]: the file can be opened
    for reading and for writing. *)
Definition can_write (s : system) (name : string) : bool :=
  opens s name && opens_w s name.

(** [s] after [write_file(name, str)], successful or not. *)
Definition attempt (s : system) (name str : string) : system :=
  if can_write s name then wrote s name str else s.

(** [s] after [file_writable(name)]: the file was opened for writing, and
    so truncated, when that can be done. *)
Definition probe (s : system) (name : string) : system :=
  if can_write s name then opened s name else s.

(** Between [s] and [s'] text was printed at most: no file was opened for
    writing, truncated or written. *)
Definition quiet (s s' : system) : Prop :=
  euid s' = euid s ∧ files s' = files s ∧ dirs s' = dirs s ∧
  writes (trace s') = writes (trace s).

(** Whether the last character of a string is a newline. *)
Fixpoint ends_with_newline (str : string) : bool :=
  match str with
  | EmptyString => false
  | String c EmptyString => bool_decide (c = "010"%char)
  | String _ rest => ends_with_newline rest
  end.

(** Integers written in decimal with one space between them. *)
Definition render (l : list Z) : string := String.concat " " (to_string <$> l).

(** The range of [long int]. *)
Definition is_long (z : Z) : Prop := LONG_MIN ≤ z ≤ LONG_MAX.

(** * Requests to the setters *)

Inductive request :=
  | GpuFreqRange (min_freq max_freq : Z)
  | EmcFreq (freq : Z)
  | CpuMinFreq (cpu_id min_freq : Z)
  | CpuMaxFreq (cpu_id max_freq : Z)
  | CpuGovernor (cpu_id : Z) (governor : string).


Definition best_effort_set (r : request) : M bool :=
  match r with
  | GpuFreqRange min_freq max_freq => BestEffort.set_gpu_freq_range min_freq max_freq
  | EmcFreq freq => BestEffort.set_emc_freq freq
  | CpuMinFreq cpu_id min_freq => BestEffort.set_cpu_min_freq cpu_id min_freq
  | CpuMaxFreq cpu_id max_freq => BestEffort.set_cpu_max_freq cpu_id max_freq
  | CpuGovernor cpu_id governor => BestEffort.set_cpu_governor cpu_id governor
  end.


Definition best_effort_unavailable (r : request) (s : system) : Prop :=
  match r with
  | GpuFreqRange min_freq max_freq =>
      ∃ avail, fst (BestEffort.get_gpu_available_freqs s) = Return avail ∧
               (min_freq ∉ avail ∨ max_freq ∉ avail)
  | EmcFreq freq =>
      ∃ lo hi, fst (BestEffort.get_emc_available_freq_range s) = Return (lo, hi) ∧
               (freq < lo ∨ hi < freq)
  | CpuMinFreq cpu_id freq | CpuMaxFreq cpu_id freq =>
      ∃ avail, fst (BestEffort.get_cpu_available_freqs cpu_id s) = Return avail ∧ freq ∉ avail
  | CpuGovernor cpu_id governor =>
      ∃ avail, fst (BestEffort.get_cpu_available_governors cpu_id s) = Return avail ∧
               governor ∉ avail
  end.


(** The system in which a setter called by root looks at the requested
    value.  The per-CPU frequency setters have by then tested their target
    with [file_writable], whose [fopen(path, "w")] truncates the file when it
    succeeds; the other setters have opened nothing. *)
Definition probed (r : request) (s : system) : system :=
  if bool_decide (euid s = 0) then
    match r with
    | CpuMinFreq cpu_id _ => probe s (cpu_min_freq_path cpu_id)
    | CpuMaxFreq cpu_id _ => probe s (cpu_max_freq_path cpu_id)
    | GpuFreqRange _ _ | EmcFreq _ | CpuGovernor _ _ => s
    end
  else s.



(** * Boards used in the examples *)

(** A machine with no identification file at all, run as root. *)
Definition blank : system := System 0 ∅ ∅ [].

(** The board of scenario A: the compatible string names tegra194 and the
    GPU advertises [100 900 500]. *)
Definition xavier : system :=
  System 0
    {[ "/proc/device-tree/compatible" := File "nvidia,p2972-0000nvidia,tegra194" true false;
       "/sys/devices/17000000.gv11b/devfreq/17000000.gv11b/available_frequencies" :=
         File "100 900 500" true false;
       "/sys/devices/system/cpu/cpu0/cpufreq/scaling_available_frequencies" :=
         File "2265600 115200 1190400" true false ]}
    ∅ [].

(** A Jetson Nano whose primary identification file ends with a newline. *)
Definition nano : system :=
  System 0
    {[ "/sys/devices/soc0/family" := File ("tegra210" +:+ endl) true false;
       "/sys/devices/57000000.gpu/devfreq/57000000.gpu/available_frequencies" :=
         File "76800000 153600000 921600000" true false ]}
    ∅ [].

(** A Jetson Nano used by an ordinary user (effective user id 1000). *)
Definition nano_guest : system :=
  System 1000
    {[ "/sys/devices/soc0/family" := File "tegra210" true false;
       "/sys/devices/gpu.0/load" := File "42" true false ]}
    ∅ [].

(** A Jetson TK1 with a fan file that reports 0 and accepts writes. *)
Definition tk1 : system :=
  System 0
    {[ "/proc/device-tree/model" := File "jetson-tk1" true false;
       "/sys/kernel/debug/tegra_fan/target_pwm" := File "0" true true ]}
    ∅ [].

(** The board of scenario B: iso-cap 300 below a nominal maximum of 900. *)
Definition tx2_capped : system :=
  System 0
    {[ "/sys/devices/soc0/family" := File "tegra186" true false;
       "/sys/kernel/nvpmodel_emc_cap/emc_iso_cap" := File "300" true false;
       "/sys/kernel/debug/bpmp/debug/clk/emc/min_rate" := File "40" true false;
       "/sys/kernel/debug/bpmp/debug/clk/emc/max_rate" := File "900" true false ]}
    ∅ [].


(** The same TX2 with a writable [scaling_min_freq]. *)
Definition tx2 : system :=
  System 0
    {[ "/sys/devices/soc0/family" := File "tegra186" true false;
       "/sys/devices/system/cpu/cpu0/cpufreq/scaling_available_frequencies" :=
         File "345600 2035200" true false;
       "/sys/devices/system/cpu/cpu0/cpufreq/scaling_min_freq" :=
         File "345600" true true ]}
    ∅ [].

(** A CPU directory with two parent entries, a directory, a plain file, a
    link to a directory, a dangling link and a link to a plain file. *)
Definition cpu_directory : list (string * node) :=
  [ (".", Plain KDir); ("..", Plain KDir); ("cpu0", Plain KDir);
    ("online", Plain KReg); ("cpu1", Link (Some KDir));
    ("stale", Link None); ("uevent", Link (Some KReg)) ].

Definition listing_system : system :=
  System 0 ∅ {[ "/sys/devices/system/cpu/" := cpu_directory ]} [].

(** * Vocabulary of the further properties *)

(** The characters of a string. *)
Definition chars (str : string) : list ascii := list_ascii_of_string str.

Definition is_newline (c : ascii) : Prop := c = "010"%char.

(** A governor name as a reader of the file sees it: not empty, no white
    space. *)
Definition is_word (str : string) : Prop :=
  str ≠ "" ∧ Forall (λ c, Ascii.is_space c = false) (chars str).

(** A board whose cpu0 lists two governors, one per line, and whose
    [scaling_governor] exists. *)
Definition governed : system :=
  System 0
    {[ "/sys/devices/soc0/family" := File "tegra210" true false;
       "/sys/devices/system/cpu/cpu0/cpufreq/scaling_available_governors" :=
         File ("schedutil" +:+ endl +:+ "performance" +:+ endl) true false;
       "/sys/devices/system/cpu/cpu0/cpufreq/scaling_governor" :=
         File ("schedutil" +:+ endl) true true ]}
    ∅ [].

(** * The operations that test for root *)

Inductive operation :=
  | SetFanSpeed (speed : Z)
  | GetFanSpeed
  | GetGpuAvailableFreqs
  | SetGpuFreqRange (min_freq max_freq : Z)
  | GetGpuCurFreq
  | GetGpuMinFreq
  | GetGpuMaxFreq
  | GetEmcAvailableFreqs
  | GetEmcFreq
  | SetEmcFreq (freq : Z)
  | GetCpuIds
  | GetCpuAvailableFreqs (cpu_id : Z)
  | GetCpuAvailableGovernors (cpu_id : Z)
  | GetCpuGovernor (cpu_id : Z)
  | GetCpuMinFreq (cpu_id : Z)
  | GetCpuMaxFreq (cpu_id : Z)
  | GetCpuCurFreq (cpu_id : Z)
  | SetCpuMinFreq (cpu_id min_freq : Z)
  | SetCpuMaxFreq (cpu_id max_freq : Z)
  | SetCpuGovernor (cpu_id : Z) (governor : string).

(** What an operation returns, whatever its C++ type. *)
Inductive value :=
  | VVoid
  | VBool (b : bool)
  | VInt (z : Z)
  | VInts (v : list Z)
  | VPair (lo hi : Z)
  | VString (str : string)
  | VStrings (v : list string).

Definition returning {A} (inject : A → value) (c : M A) : M value :=
  do a <- c; ret (inject a).

Definition signal_call (o : operation) : M value :=
  match o with
  | SetFanSpeed speed => returning (λ _, VVoid) (Signal.set_fan_speed speed)
  | GetFanSpeed => returning VInt Signal.get_fan_speed
  | GetGpuAvailableFreqs => returning VInts Signal.get_gpu_available_freqs
  | SetGpuFreqRange a b => returning (λ _, VVoid) (Signal.set_gpu_freq_range a b)
  | GetGpuCurFreq => returning VInt Signal.get_gpu_cur_freq
  | GetGpuMinFreq => returning VInt Signal.get_gpu_min_freq
  | GetGpuMaxFreq => returning VInt Signal.get_gpu_max_freq
  | GetEmcAvailableFreqs => returning VInts Signal.get_emc_available_freqs
  | GetEmcFreq => returning VInt Signal.get_emc_freq
  | SetEmcFreq freq => returning (λ _, VVoid) (Signal.set_emc_freq freq)
  | GetCpuIds => returning VInts Signal.get_cpu_ids
  | GetCpuAvailableFreqs cpu_id => returning VInts (Signal.get_cpu_available_freqs cpu_id)
  | GetCpuAvailableGovernors cpu_id =>
      returning VStrings (Signal.get_cpu_available_governors cpu_id)
  | GetCpuGovernor cpu_id => returning VString (Signal.get_cpu_governor cpu_id)
  | GetCpuMinFreq cpu_id => returning VInt (Signal.get_cpu_min_freq cpu_id)
  | GetCpuMaxFreq cpu_id => returning VInt (Signal.get_cpu_max_freq cpu_id)
  | GetCpuCurFreq cpu_id => returning VInt (Signal.get_cpu_cur_freq cpu_id)
  | SetCpuMinFreq cpu_id freq => returning (λ _, VVoid) (Signal.set_cpu_min_freq cpu_id freq)
  | SetCpuMaxFreq cpu_id freq => returning (λ _, VVoid) (Signal.set_cpu_max_freq cpu_id freq)
  | SetCpuGovernor cpu_id governor =>
      returning (λ _, VVoid) (Signal.set_cpu_governor cpu_id governor)
  end.

(** The boolean header has no getter of the GPU current, minimum or maximum
    frequency. *)
Definition best_effort_call (o : operation) : option (M value) :=
  match o with
  | SetFanSpeed speed => Some (returning VBool (BestEffort.set_fan_speed speed))
  | GetFanSpeed => Some (returning VInt BestEffort.get_fan_speed)
  | GetGpuAvailableFreqs => Some (returning VInts BestEffort.get_gpu_available_freqs)
  | SetGpuFreqRange a b => Some (returning VBool (BestEffort.set_gpu_freq_range a b))
  | GetGpuCurFreq | GetGpuMinFreq | GetGpuMaxFreq => None
  | GetEmcAvailableFreqs =>
      Some (returning (λ r, VPair (fst r) (snd r)) BestEffort.get_emc_available_freq_range)
  | GetEmcFreq => Some (returning VInt BestEffort.get_emc_freq)
  | SetEmcFreq freq => Some (returning VBool (BestEffort.set_emc_freq freq))
  | GetCpuIds => Some (returning VInts BestEffort.get_cpu_ids)
  | GetCpuAvailableFreqs cpu_id =>
      Some (returning VInts (BestEffort.get_cpu_available_freqs cpu_id))
  | GetCpuAvailableGovernors cpu_id =>
      Some (returning VStrings (BestEffort.get_cpu_available_governors cpu_id))
  | GetCpuGovernor cpu_id => Some (returning VString (BestEffort.get_cpu_governor cpu_id))
  | GetCpuMinFreq cpu_id => Some (returning VInt (BestEffort.get_cpu_min_freq cpu_id))
  | GetCpuMaxFreq cpu_id => Some (returning VInt (BestEffort.get_cpu_max_freq cpu_id))
  | GetCpuCurFreq cpu_id => Some (returning VInt (BestEffort.get_cpu_cur_freq cpu_id))
  | SetCpuMinFreq cpu_id freq =>
      Some (returning VBool (BestEffort.set_cpu_min_freq cpu_id freq))
  | SetCpuMaxFreq cpu_id freq =>
      Some (returning VBool (BestEffort.set_cpu_max_freq cpu_id freq))
  | SetCpuGovernor cpu_id governor =>
      Some (returning VBool (BestEffort.set_cpu_governor cpu_id governor))
  end.

(** The value by which an operation of the boolean header reports that it
    did nothing: [false], 0, the pair (0, 0), an empty vector or string. *)
Definition is_empty_value (v : value) : Prop :=
  match v with
  | VVoid => True
  | VBool b => b = false
  | VInt z => z = 0
  | VInts l => l = []
  | VPair lo hi => lo = 0 ∧ hi = 0
  | VString str => str = ""
  | VStrings l => l = []
  end.

(** * The fan files *)

Definition tegra_fan : string := "/sys/kernel/debug/tegra_fan/target_pwm".
Definition pwm_fan : string := "/sys/devices/pwm-fan/target_pwm".

(** The range of [int]. *)
Definition is_int (z : Z) : Prop := INT_MIN ≤ z ≤ INT_MAX.

(** A string at which a decimal number ends: it does not start with a
    digit. *)
Definition no_digit_ahead (rest : string) : Prop :=
  match rest with
  | String c _ => digit c = None
  | EmptyString => True
  end.

(** A board with both fan files, which only the second accepts writes to. *)
Definition two_fans : system :=
  System 0
    {[ "/sys/devices/soc0/family" := File "tegra210" true false;
       "/sys/devices/soc0/machine" := File ("jetson-nano" +:+ endl) true false;
       "/sys/kernel/debug/tegra_fan/target_pwm" := File ("300" +:+ endl) true false;
       "/sys/devices/pwm-fan/target_pwm" := File ("80" +:+ endl) true true ]}
    ∅ [].

(** A board without a machine name whose first fan file accepts writes. *)
Definition one_fan : system :=
  System 0
    {[ "/sys/devices/soc0/family" := File "tegra210" true false;
       "/sys/kernel/debug/tegra_fan/target_pwm" := File ("0" +:+ endl) true true ]}
    ∅ [].

(** A board whose device tree names a TK1 but which has a family file and no
    machine file. *)
Definition named_in_device_tree : system :=
  System 0
    {[ "/sys/devices/soc0/family" := File "tegra124" true false;
       "/proc/device-tree/model" := File "jetson-tk1" true false;
       "/sys/kernel/debug/tegra_fan/target_pwm" := File "0" true true ]}
    ∅ [].

(** * The control files of the setters *)

(** The devfreq node of the GPU of a supported family. *)
Definition gpu_node (family : string) : string :=
  if bool_decide (family = "tegra186") then
    "/sys/devices/17000000.gp10b/devfreq/17000000.gp10b"
  else if bool_decide (family = "tegra210") then
    "/sys/devices/57000000.gpu/devfreq/57000000.gpu"
  else "/sys/devices/17000000.gv11b/devfreq/17000000.gv11b".

(** The rate and override files of the EMC of a supported family. *)
Definition emc_rate (family : string) : string :=
  if bool_decide (family = "tegra210")
  then "/sys/kernel/debug/clk/override.emc/clk_update_rate"
  else "/sys/kernel/debug/bpmp/debug/clk/emc/rate".

Definition emc_override (family : string) : string :=
  if bool_decide (family = "tegra210")
  then "/sys/kernel/debug/clk/override.emc/clk_state"
  else "/sys/kernel/debug/bpmp/debug/clk/emc/mrq_rate_locked".

Definition qos : string := "/sys/module/qos/parameters/enable".
Definition m_cluster : string := "/sys/kernel/debug/tegra_cpufreq/M_CLUSTER/cc3/enable".
Definition b_cluster : string := "/sys/kernel/debug/tegra_cpufreq/B_CLUSTER/cc3/enable".

(** The files that identify the board. *)
Definition identification : list string :=
  [ "/sys/devices/soc0/family"; "/proc/device-tree/compatible" ].

(** The system after the writes that the per-CPU setters make before they
    write their target: the QoS file, then on tegra186 the two cluster
    files; each write is attempted whether or not the one before it
    succeeded. *)
Definition unthrottled (family : string) (s : system) : system :=
  let s1 := attempt s qos "0" in
  if bool_decide (family = "tegra186")
  then attempt (attempt s1 m_cluster "0") b_cluster "0"
  else s1.

(** A Jetson Nano whose GPU accepts a new minimum and maximum frequency but
    whose rail-gate file is read-only. *)
Definition nano_gpu : system :=
  System 0
    {[ "/sys/devices/soc0/family" := File "tegra210" true false;
       "/sys/devices/57000000.gpu/devfreq/57000000.gpu/available_frequencies" :=
         File ("76800000 153600000 921600000" +:+ endl) true false;
       "/sys/devices/57000000.gpu/devfreq/57000000.gpu/min_freq" :=
         File ("76800000" +:+ endl) true true;
       "/sys/devices/57000000.gpu/devfreq/57000000.gpu/max_freq" :=
         File ("921600000" +:+ endl) true true;
       "/sys/devices/57000000.gpu/devfreq/57000000.gpu/device/railgate_enable" :=
         File ("1" +:+ endl) true false ]}
    ∅ [].

(** A TX2 with an EMC range of 40 to 900, an iso-cap of 300, a writable
    rate file and no override file. *)
Definition tx2_emc : system :=
  System 0
    {[ "/sys/devices/soc0/family" := File "tegra186" true false;
       "/sys/kernel/nvpmodel_emc_cap/emc_iso_cap" := File ("300" +:+ endl) true false;
       "/sys/kernel/debug/bpmp/debug/clk/emc/min_rate" := File ("40" +:+ endl) true false;
       "/sys/kernel/debug/bpmp/debug/clk/emc/max_rate" := File ("900" +:+ endl) true false;
       "/sys/kernel/debug/bpmp/debug/clk/emc/rate" := File ("40" +:+ endl) true true ]}
    ∅ [].

(** A TX2 whose cpu0 accepts a new minimum frequency and a new governor, and
    whose QoS file and first cluster file accept writes. *)
Definition tx2_cpu : system :=
  System 0
    {[ "/sys/devices/soc0/family" := File "tegra186" true false;
       "/sys/module/qos/parameters/enable" := File ("1" +:+ endl) true true;
       "/sys/kernel/debug/tegra_cpufreq/M_CLUSTER/cc3/enable" := File ("1" +:+ endl) true true;
       "/sys/devices/system/cpu/cpu0/cpufreq/scaling_available_frequencies" :=
         File ("345600 2035200" +:+ endl) true false;
       "/sys/devices/system/cpu/cpu0/cpufreq/scaling_min_freq" :=
         File ("345600" +:+ endl) true true;
       "/sys/devices/system/cpu/cpu0/cpufreq/scaling_available_governors" :=
         File ("schedutil performance" +:+ endl) true false;
       "/sys/devices/system/cpu/cpu0/cpufreq/scaling_governor" :=
         File ("schedutil" +:+ endl) true true ]}
    ∅ [].

(** A TX2 whose primary identification file ends
    with a newline; its QoS file, its first cluster-idle file and the
    governor of cpu0 accept writes. *)
Definition tx2_newline : system :=
  System 0
    {[ "/sys/devices/soc0/family" := File ("tegra186" +:+ endl) true false;
       "/sys/module/qos/parameters/enable" := File ("1" +:+ endl) true true;
       "/sys/kernel/debug/tegra_cpufreq/M_CLUSTER/cc3/enable" := File ("1" +:+ endl) true true;
       "/sys/devices/system/cpu/cpu0/cpufreq/scaling_available_governors" :=
         File ("schedutil performance" +:+ endl) true false;
       "/sys/devices/system/cpu/cpu0/cpufreq/scaling_governor" :=
         File ("schedutil" +:+ endl) true true ]}
    ∅ [].

(** A board with no identification file whose cpu0 accepts a new minimum
    frequency. *)
Definition unidentified : system :=
  System 0
    {[ "/sys/module/qos/parameters/enable" := File ("1" +:+ endl) true true;
       "/sys/devices/system/cpu/cpu0/cpufreq/scaling_available_frequencies" :=
         File ("345600 2035200" +:+ endl) true false;
       "/sys/devices/system/cpu/cpu0/cpufreq/scaling_min_freq" :=
         File ("345600" +:+ endl) true true ]}
    ∅ [].

(** The paths of the per-CPU frequency files that are only read. *)
Definition cpu_cur_freq_path (cpu_id : Z) : string :=
  "/sys/devices/system/cpu/cpu" +:+ to_string cpu_id +:+ "/cpufreq/scaling_cur_freq".

(** A board whose cpu0 reports a current frequency followed by a newline, an
    empty minimum and a maximum beyond the range of [int]. *)
Definition odd_readings : system :=
  System 0
    {[ "/sys/devices/system/cpu/cpu0/cpufreq/scaling_cur_freq" :=
         File ("1190400" +:+ endl) true false;
       "/sys/devices/system/cpu/cpu0/cpufreq/scaling_min_freq" := File "" true false;
       "/sys/devices/system/cpu/cpu0/cpufreq/scaling_max_freq" :=
         File ("4000000000" +:+ endl) true false ]}
    ∅ [].

(** A Xavier whose GPU accepts a new minimum and maximum frequency and whose
    EMC accepts a new rate. *)
Definition xavier_gpu : system :=
  System 0
    {[ "/sys/devices/soc0/family" := File "tegra194" true false;
       "/sys/devices/17000000.gv11b/devfreq/17000000.gv11b/available_frequencies" :=
         File ("114750000 675750000 1377000000" +:+ endl) true false;
       "/sys/devices/17000000.gv11b/devfreq/17000000.gv11b/min_freq" :=
         File ("114750000" +:+ endl) true true;
       "/sys/devices/17000000.gv11b/devfreq/17000000.gv11b/max_freq" :=
         File ("1377000000" +:+ endl) true true;
       "/sys/kernel/nvpmodel_emc_cap/emc_iso_cap" := File ("0" +:+ endl) true false;
       "/sys/kernel/debug/bpmp/debug/clk/emc/min_rate" := File ("204000000" +:+ endl) true false;
       "/sys/kernel/debug/bpmp/debug/clk/emc/max_rate" :=
         File ("2133000000" +:+ endl) true false;
       "/sys/kernel/debug/bpmp/debug/clk/emc/rate" := File ("204000000" +:+ endl) true true ]}
    ∅ [].

(** * Evaluation of the monad *)

Lemma bind_Return {A B} (c : M A) (k : A → M B) s a s' :
  c s = (Return a, s') → bind c k s = k a s'.
Proof. unfold bind. by intros ->. Qed.

Lemma bind_Throw {A B} (c : M A) (k : A → M B) s e s' :
  c s = (Throw e, s') → bind c k s = (Throw e, s').
Proof. unfold bind. by intros ->. Qed.

Lemma root_true s : euid s = 0 → running_as_root s = (Return true, s).
Proof. unfold running_as_root. intros ->. reflexivity. Qed.

Lemma root_false s : euid s ≠ 0 → running_as_root s = (Return false, s).
Proof.
  unfold running_as_root. intros H. by rewrite bool_decide_eq_false_2.
Qed.

(** Reading the board identity changes nothing. *)
Lemma get_soc_family_reads_signal s : snd (Signal.get_soc_family s) = s.
Proof.
  unfold Signal.get_soc_family, bind, file_exists, read_file, ret, throw.
  repeat (case_match; simplify_eq/=); done.
Qed.

Lemma get_soc_family_reads_best_effort s : snd (BestEffort.get_soc_family s) = s.
Proof.
  unfold BestEffort.get_soc_family, bind, file_exists, read_file, ret.
  repeat (case_match; simplify_eq/=); done.
Qed.

Lemma get_soc_family_returns_best_effort s :
  ∃ family, BestEffort.get_soc_family s = (Return family, s).
Proof.
  unfold BestEffort.get_soc_family, bind, file_exists, read_file, ret.
  repeat (case_match; simplify_eq/=); eauto.
Qed.

Lemma family_eval_signal s family :
  fst (Signal.get_soc_family s) = Return family →
  Signal.get_soc_family s = (Return family, s).
Proof.
  intros H. pose proof (get_soc_family_reads_signal s) as Hs.
  destruct (Signal.get_soc_family s); simpl in *; congruence.
Qed.

Lemma family_eval_best_effort s family :
  fst (BestEffort.get_soc_family s) = Return family →
  BestEffort.get_soc_family s = (Return family, s).
Proof.
  intros H. pose proof (get_soc_family_reads_best_effort s) as Hs.
  destruct (BestEffort.get_soc_family s); simpl in *; congruence.
Qed.

(** * Opening a file for writing *)

Lemma opens_opened (s : system) (name any : string) :
  opens (opened s name) any = opens s any ∧
  opens_w (opened s name) any = opens_w s any.
Proof.
  unfold opens, opens_w, opened, truncated. simpl.
  destruct (decide (name = any)) as [-> | Hne].
  - rewrite lookup_alter_eq. by destruct (files s !! any).
  - by rewrite lookup_alter_ne.
Qed.

Lemma slurp_opened_other (s : system) (name other : string) :
  other ≠ name → slurp (opened s name) other = slurp s other.
Proof.
  intros Hne. unfold slurp, opened, truncated. simpl. by rewrite lookup_alter_ne.
Qed.

Lemma slurp_opened_same (s : system) (name : string) : slurp (opened s name) name = "".
Proof.
  unfold slurp, opened, truncated. simpl. rewrite lookup_alter_eq.
  destruct (files s !! name) as [f|]; simpl; [|done]. by destruct (readable f).
Qed.

(** Data written to a file replaces what the file held, truncated or not. *)
Lemma write_truncated (name str : string) (fs : gmap string file) :
  alter (λ f, File str (readable f) (writable f)) name (truncated name fs) =
  alter (λ f, File str (readable f) (writable f)) name fs.
Proof. unfold truncated. by rewrite alter_alter_eq. Qed.

(** ** The files of a CPU are told apart by their last component *)

Lemma append_inv_head (p a b : string) : p +:+ a = p +:+ b → a = b.
Proof. induction p as [|c p IH]; simpl; [done|]. intros [= H]. by apply IH. Qed.

Lemma cpu_path_inj (cpu_id : Z) (leaf leaf' : string) :
  "/sys/devices/system/cpu/cpu" +:+ to_string cpu_id +:+ leaf =
  "/sys/devices/system/cpu/cpu" +:+ to_string cpu_id +:+ leaf' →
  leaf = leaf'.
Proof. intros H. by do 2 apply append_inv_head in H. Qed.

Lemma available_frequencies_is_no_target (cpu_id : Z) :
  cpu_available_frequencies cpu_id ≠ cpu_min_freq_path cpu_id ∧
  cpu_available_frequencies cpu_id ≠ cpu_max_freq_path cpu_id.
Proof. split; intros H; apply cpu_path_inj in H; discriminate H. Qed.

(** The identification files are no file of a CPU. *)
Lemma identification_is_no_cpu_file (cpu_id : Z) (leaf : string) :
  "/sys/devices/soc0/family" ≠ "/sys/devices/system/cpu/cpu" +:+ to_string cpu_id +:+ leaf ∧
  "/proc/device-tree/compatible" ≠ "/sys/devices/system/cpu/cpu" +:+ to_string cpu_id +:+ leaf.
Proof. split; intros H; simpl in H; discriminate H. Qed.

(** * The extraction loop reads back what [to_string] writes *)

Lemma small_digit (d : N) :
  (d < 10)%N →
  digit (pretty_N_char d) = Some (Z.of_N d) ∧
  Ascii.is_space (pretty_N_char d) = false ∧
  pretty_N_char d ≠ "+"%char ∧ pretty_N_char d ≠ "-"%char.
Proof.
  intros Hd.
  assert (d = 0 ∨ d = 1 ∨ d = 2 ∨ d = 3 ∨ d = 4 ∨ d = 5 ∨ d = 6 ∨ d = 7 ∨ d = 8 ∨ d = 9)%N
    as Hcases by lia.
  repeat destruct Hcases as [-> | Hcases]; try subst d; by compute.
Qed.

(** From a state that has read no digit yet, or only zeros, the digits of
    [x] bring the loop to the value [x]. *)
Lemma extract_pretty_N_go (x : N) :
  (0 < x)%N →
  ∀ neg value s, default 0 value = 0 →
    extract_longs (Number neg value) (pretty_N_go x s) =
    extract_longs (Number neg (Some (Z.of_N x))) s.
Proof.
  induction (N.lt_wf_0 x) as [x _ IH]. intros Hpos neg value s Hzero.
  rewrite pretty_N_go_step by done.
  destruct (small_digit (x `mod` 10)) as (Hd & _); [by apply N.mod_lt|].
  destruct (decide (x `div` 10 = 0)%N) as [Hsmall | Hbig].
  - rewrite Hsmall, pretty_N_go_0. simpl. rewrite Hd, Hzero.
    apply N.div_small_iff in Hsmall; [|done].
    rewrite N.mod_small by done. reflexivity.
  - assert (0 < x `div` 10)%N as Hq by (by apply N.neq_0_lt_0).
    rewrite (IH (x `div` 10)%N); [| by apply N.div_lt | done | done].
    simpl. rewrite Hd. do 3 f_equal.
    pose proof (N.div_mod x 10 ltac:(done)) as E.
    apply (f_equal Z.of_N) in E. rewrite N2Z.inj_add, N2Z.inj_mul in E.
    simpl in E. lia.
Qed.

Lemma pretty_N_go_head (x : N) :
  (0 < x)%N →
  ∀ s, ∃ d rest, (d < 10)%N ∧ pretty_N_go x s = String (pretty_N_char d) rest.
Proof.
  induction (N.lt_wf_0 x) as [x _ IH]. intros Hpos s.
  rewrite pretty_N_go_step by done.
  destruct (decide (x `div` 10 = 0)%N) as [Hsmall | Hbig].
  - rewrite Hsmall, pretty_N_go_0. eexists _, _. split; [|done]. by apply N.mod_lt.
  - apply IH; [by apply N.div_lt | by apply N.neq_0_lt_0].
Qed.

Lemma pretty_N_go_app (x : N) (s rest : string) :
  pretty_N_go x s +:+ rest = pretty_N_go x (s +:+ rest).
Proof.
  revert s. induction (N.lt_wf_0 x) as [x _ IH]. intros s.
  destruct (decide (x = 0)%N) as [-> | Hpos]; [by rewrite !pretty_N_go_0|].
  assert (0 < x)%N as Hx by (by apply N.neq_0_lt_0).
  rewrite !(pretty_N_go_step x) by done.
  rewrite IH by (by apply N.div_lt). reflexivity.
Qed.

(** The loop, started between two numbers on the rendering of [z] followed
    by [rest], is where it would be after the digits of [z]. *)
Lemma extract_to_string (z : Z) (rest : string) :
  extract_longs Skipping (to_string z +:+ rest) =
  extract_longs (Number (bool_decide (z < 0)) (Some (Z.abs z))) rest.
Proof.
  unfold to_string, pretty, pretty_Z.
  destruct z as [|p|p].
  - reflexivity.
  - unfold pretty, pretty_positive, pretty, pretty_N.
    destruct (decide (N.pos p = 0%N)) as [E|_]; [discriminate E|].
    rewrite pretty_N_go_app.
    destruct (pretty_N_go_head (N.pos p) eq_refl ("" +:+ rest)) as (d & tail & Hd & Hhead).
    destruct (small_digit d Hd) as (Hdigit & Hspace & Hplus & Hminus).
    transitivity (extract_longs (Number false None) (pretty_N_go (N.pos p) ("" +:+ rest))).
    + rewrite Hhead. simpl. rewrite Hspace, Hdigit.
      by rewrite !bool_decide_eq_false_2 by done.
    + by rewrite extract_pretty_N_go.
  - unfold pretty, pretty_positive, pretty, pretty_N.
    destruct (decide (N.pos p = 0%N)) as [E|_]; [discriminate E|].
    change (("-" +:+ pretty_N_go (N.pos p) "") +:+ rest) with
      (String "-" (pretty_N_go (N.pos p) "" +:+ rest)).
    rewrite pretty_N_go_app.
    change (extract_longs Skipping (String "-" (pretty_N_go (N.pos p) ("" +:+ rest)))) with
      (extract_longs (Number true None) (pretty_N_go (N.pos p) ("" +:+ rest))).
    by rewrite extract_pretty_N_go.
Qed.

Lemma extracted_abs (z : Z) :
  is_long z → extracted (bool_decide (z < 0)) (Some (Z.abs z)) = Some z.
Proof.
  unfold is_long, extracted, LONG_MIN, LONG_MAX. intros Hz. simpl.
  assert ((if bool_decide (z < 0) then - Z.abs z else Z.abs z) = z) as ->.
  { case_bool_decide; lia. }
  by rewrite bool_decide_eq_true_2.
Qed.

Lemma append_empty (s : string) : s +:+ "" = s.
Proof.
  induction s as [|c s IH]; [reflexivity|].
  change (String c s +:+ "") with (String c (s +:+ "")). by rewrite IH.
Qed.

(** The extraction loop reads a rendered list back. *)
Lemma parse_longs_render (l : list Z) :
  Forall is_long l → parse_longs (render l) = l.
Proof.
  unfold parse_longs, render. induction 1 as [|z l Hz Hl IH]; [reflexivity|].
  destruct l as [|z' l].
  - change (String.concat " " (to_string <$> [z])) with (to_string z).
    rewrite <- (append_empty (to_string z)), extract_to_string.
    change (extract_longs (Number (bool_decide (z < 0)) (Some (Z.abs z))) "") with
      (option_list (extracted (bool_decide (z < 0)) (Some (Z.abs z)))).
    by rewrite extracted_abs.
  - change (String.concat " " (to_string <$> z :: z' :: l)) with
      (to_string z +:+ String " " (String.concat " " (to_string <$> z' :: l))).
    rewrite extract_to_string.
    change (extract_longs (Number (bool_decide (z < 0)) (Some (Z.abs z)))
              (String " " (String.concat " " (to_string <$> z' :: l)))) with
      (match extracted (bool_decide (z < 0)) (Some (Z.abs z)) with
       | Some v => v :: extract_longs Skipping (String.concat " " (to_string <$> z' :: l))
       | None => []
       end).
    by rewrite extracted_abs, IH.
Qed.

(** * Sorting *)

Lemma sort_Sorted (l : list Z) : Sorted Z.le (sort l).
Proof. apply (Sorted_merge_sort Z.le). Qed.

Lemma sort_Permutation (l : list Z) : sort l ≡ₚ l.
Proof. apply (merge_sort_Permutation Z.le). Qed.

(** C7.  Whatever the available-frequencies file holds, the GPU getter
    returns the integers that the extraction loop reads from it, sorted in
    ascending order; so does the per-CPU getter once its file exists.  This
    holds in both headers (the boolean header resolves no path for
    tegra194).  From integers written in decimal with spaces between them
    the loop reads those integers. *)
Theorem available_freqs_sorted (s : system) (cpu_id : Z) :
  euid s = 0 →
  (∀ family path,
     fst (Signal.get_soc_family s) = Return family →
     fst (Signal.GPU_AVAILABLE_FREQS family s) = Return path →
     ∃ freqs, Signal.get_gpu_available_freqs s = (Return freqs, s) ∧
       Sorted Z.le freqs ∧ freqs ≡ₚ parse_longs (slurp s path)) ∧
  (opens s (cpu_available_frequencies cpu_id) = true →
     ∃ freqs, Signal.get_cpu_available_freqs cpu_id s = (Return freqs, s) ∧
       Sorted Z.le freqs ∧
       freqs ≡ₚ parse_longs (slurp s (cpu_available_frequencies cpu_id))) ∧
  (∀ family path,
     fst (BestEffort.get_soc_family s) = Return family →
     BestEffort.GPU_AVAILABLE_FREQS family = Some path →
     ∃ freqs, BestEffort.get_gpu_available_freqs s = (Return freqs, s) ∧
       Sorted Z.le freqs ∧ freqs ≡ₚ parse_longs (slurp s path)) ∧
  (opens s (cpu_available_frequencies cpu_id) = true →
     ∃ freqs s', BestEffort.get_cpu_available_freqs cpu_id s = (Return freqs, s') ∧
       Sorted Z.le freqs ∧
       freqs ≡ₚ parse_longs (slurp s (cpu_available_frequencies cpu_id))) ∧
  (∀ l, Forall is_long l → parse_longs (render l) = l).
Proof.
  intros Hroot. split; [|split; [|split; [|split; [|apply parse_longs_render]]]].
  - intros family path Hfam Hpath.
    exists (sort (parse_longs (slurp s path))).
    split; [|split; [apply sort_Sorted | apply sort_Permutation]].
    unfold Signal.get_gpu_available_freqs.
    rewrite (bind_Return _ _ _ _ _ (root_true s Hroot)). simpl.
    rewrite (bind_Return _ _ _ _ _ (family_eval_signal s family Hfam)).
    assert (Signal.GPU_AVAILABLE_FREQS family s = (Return path, s)) as Hp.
    { unfold Signal.GPU_AVAILABLE_FREQS, ret, throw in *.
      repeat case_match; simplify_eq/=; done. }
    rewrite (bind_Return _ _ _ _ _ Hp). reflexivity.
  - intros Hex. exists (sort (parse_longs (slurp s (cpu_available_frequencies cpu_id)))).
    split; [|split; [apply sort_Sorted | apply sort_Permutation]].
    unfold Signal.get_cpu_available_freqs.
    rewrite (bind_Return _ _ _ _ _ (root_true s Hroot)). simpl.
    unfold bind, file_exists. fold (cpu_available_frequencies cpu_id).
    rewrite Hex. reflexivity.
  - intros family path Hfam Hpath.
    exists (sort (parse_longs (slurp s path))).
    split; [|split; [apply sort_Sorted | apply sort_Permutation]].
    unfold BestEffort.get_gpu_available_freqs.
    rewrite (bind_Return _ _ _ _ _ (root_true s Hroot)). simpl.
    rewrite (bind_Return _ _ _ _ _ (family_eval_best_effort s family Hfam)).
    rewrite Hpath. reflexivity.
  - intros Hex.
    unfold BestEffort.get_cpu_available_freqs.
    rewrite (bind_Return _ _ _ _ _ (root_true s Hroot)). simpl.
    unfold bind, file_exists. fold (cpu_available_frequencies cpu_id).
    rewrite Hex. simpl.
    destruct (parse_longs (slurp s (cpu_available_frequencies cpu_id))) as [|x l] eqn:Hp.
    + simpl. do 2 eexists. split; [reflexivity|]. split; [constructor | done].
    + simpl. do 2 eexists. split; [reflexivity|].
      split; [apply sort_Sorted | apply sort_Permutation].
Qed.

Lemma available_freqs_sorted_witness :
  (∃ freqs, Signal.get_gpu_available_freqs xavier = (Return freqs, xavier) ∧
     Sorted Z.le freqs ∧ freqs ≡ₚ parse_longs "100 900 500") ∧
  (∃ freqs, Signal.get_cpu_available_freqs 0 xavier = (Return freqs, xavier) ∧
     Sorted Z.le freqs ∧ freqs ≡ₚ parse_longs "2265600 115200 1190400").
Proof.
  destruct (available_freqs_sorted xavier 0 eq_refl) as (Hgpu & Hcpu & _).
  split.
  - apply (Hgpu "tegra194"
      "/sys/devices/17000000.gv11b/devfreq/17000000.gv11b/available_frequencies");
      reflexivity.
  - apply Hcpu. reflexivity.
Defined.

Example scenario_A :
  fst (Signal.get_soc_family xavier) = Return "tegra194" ∧
  fst (Signal.get_gpu_available_freqs xavier) = Return [100; 500; 900].
Proof. split; vm_compute; reflexivity. Qed.

(** * Directory listing *)

Section list_subdirs_facts.

Lemma readdir_loop_elem (entries : list (string * node)) (name : string) :
  name ∈ readdir_loop entries ↔
  ∃ n, (name, n) ∈ entries ∧ name ≠ "." ∧ name ≠ ".." ∧ fstatat n = Some KDir.
Proof.
  induction entries as [|[d n] rest IH]; simpl.
  - split; [intros H | intros (n & H & _)]; inversion H.
  - destruct (bool_decide (d = ".")) eqn:Hdot;
      [apply bool_decide_eq_true in Hdot | apply bool_decide_eq_false in Hdot].
    { simpl. rewrite IH. split; intros (m & Hin & H1 & H2 & H3).
      - exists m. rewrite elem_of_cons. eauto.
      - exists m. apply elem_of_cons in Hin as [Heq | Hin]; [congruence | eauto]. }
    destruct (bool_decide (d = "..")) eqn:Hdd;
      [apply bool_decide_eq_true in Hdd | apply bool_decide_eq_false in Hdd].
    { simpl. rewrite IH. split; intros (m & Hin & H1 & H2 & H3).
      - exists m. rewrite elem_of_cons. eauto.
      - exists m. apply elem_of_cons in Hin as [Heq | Hin]; [congruence | eauto]. }
    simpl. destruct (fstatat n) as [[| |]|] eqn:Hst; simpl;
      rewrite ?elem_of_cons, IH; split.
    all: try (intros [-> | (m & Hin & H1 & H2 & H3)];
              [exists n; rewrite elem_of_cons; eauto
              | exists m; rewrite elem_of_cons; eauto]).
    all: try (intros (m & Hin & H1 & H2 & H3); exists m; rewrite elem_of_cons; eauto).
    all: intros (m & Hin & H1 & H2 & H3);
         apply elem_of_cons in Hin as [Heq | Hin];
         [ injection Heq as -> ->; first [by left | congruence]
         | try right; eauto ].
Qed.

End list_subdirs_facts.

Lemma fstatat_directory (n : node) :
  fstatat n = Some KDir ↔ n = Plain KDir ∨ n = Link (Some KDir).
Proof.
  destruct n as [k|[k|]]; simpl; split;
    intros H; try destruct H as [H|H]; try discriminate; try injection H as ->;
    auto.
Qed.

(** C8 (as amended).  [list_subdirs path] is empty when [path] cannot be
    opened as a directory; otherwise it holds exactly the entries of [path]
    other than [.] and [..] for which [fstatat], which follows symbolic
    links, reports a directory: the child directories and the symbolic links
    that resolve to a directory.  Plain files, dangling links and links to
    anything but a directory are left out.  The call changes nothing. *)
Theorem list_subdirs_follows_links (s : system) (path : string) :
  (dirs s !! path = None → list_subdirs path s = (Return [], s)) ∧
  (∀ entries, dirs s !! path = Some entries →
     ∃ names, list_subdirs path s = (Return names, s) ∧
       ∀ name, name ∈ names ↔
         ∃ n, (name, n) ∈ entries ∧ name ≠ "." ∧ name ≠ ".." ∧
              (n = Plain KDir ∨ n = Link (Some KDir))).
Proof.
  unfold list_subdirs. split.
  - intros ->. reflexivity.
  - intros entries ->. eexists. split; [reflexivity|].
    intros name. rewrite readdir_loop_elem.
    by setoid_rewrite fstatat_directory.
Qed.

Lemma list_subdirs_follows_links_witness :
  ∃ names, list_subdirs "/sys/devices/system/cpu/" listing_system = (Return names, listing_system) ∧
    ∀ name, name ∈ names ↔
      ∃ n, (name, n) ∈ cpu_directory ∧ name ≠ "." ∧ name ≠ ".." ∧
           (n = Plain KDir ∨ n = Link (Some KDir)).
Proof.
  apply (proj2 (list_subdirs_follows_links listing_system "/sys/devices/system/cpu/")).
  reflexivity.
Defined.

(** C8, counterexample.  A symbolic link that resolves to a directory is
    listed: in a directory holding the directory [cpu0], the plain file
    [online] and the link [cpu1] to a directory, [list_subdirs] returns
    [cpu0] and [cpu1]. *)
Lemma list_subdirs_lists_symlink :
  fst (list_subdirs "/sys/devices/system/cpu/" listing_system) = Return ["cpu0"; "cpu1"] ∧
  (("cpu1", Link (Some KDir)) ∈ cpu_directory).
Proof. split; [reflexivity|]. unfold cpu_directory. set_solver. Qed.

(** * Board identification *)

Lemma prefix_app (pat str : string) :
  String.prefix pat str = true ↔ ∃ post, str = pat +:+ post.
Proof.
  revert str. induction pat as [|c pat IH]; intros str; simpl.
  - split; [intros _; by exists str | by destruct str].
  - destruct str as [|d str].
    + split; [done | intros [post H]; discriminate H].
    + simpl; destruct (ascii_dec c d) as [->|Hne].
      * rewrite IH. split; intros [post H]; exists post.
        -- by rewrite H.
        -- by injection H.
      * split; [done | intros [post H]; injection H; congruence].
Qed.

(** [find] succeeds exactly on the strings that contain the pattern. *)
Lemma find_substring (str pat : string) :
  is_Some (find str pat) ↔ ∃ pre post, str = pre +:+ pat +:+ post.
Proof.
  induction str as [|c str IH].
  - change (find "" pat) with (if String.prefix pat "" then Some 0%nat else None).
    destruct (String.prefix pat "") eqn:Hp.
    + split; [intros _ | intros _; by eexists].
      apply prefix_app in Hp as [post H]. by exists "", post.
    + split; [intros [? H]; discriminate H|].
      intros (pre & post & H). destruct pre; [|discriminate H].
      assert (String.prefix pat "" = true) as Hp'; [|congruence].
      apply prefix_app. by exists post.
  - change (find (String c str) pat) with
      (if String.prefix pat (String c str) then Some 0%nat else S <$> find str pat).
    destruct (String.prefix pat (String c str)) eqn:Hp.
    + split; [intros _ | intros _; by eexists].
      apply prefix_app in Hp as [post H]. by exists "", post.
    + rewrite fmap_is_Some, IH. split.
      * intros (pre & post & ->). by exists (String c pre), post.
      * intros (pre & post & H). destruct pre as [|d pre].
        -- assert (String.prefix pat (String c str) = true) as Hp'; [|congruence].
           apply prefix_app. by exists post.
        -- injection H as -> ->. by exists pre, post.
Qed.

Lemma get_machine_reads_signal s : snd (Signal.get_machine s) = s.
Proof.
  unfold Signal.get_machine, bind, file_exists, read_file, ret, throw.
  repeat (case_match; simplify_eq/=); done.
Qed.

Lemma get_machine_reads_best_effort s : snd (BestEffort.get_machine s) = s.
Proof.
  unfold BestEffort.get_machine, bind, file_exists, read_file, ret.
  repeat (case_match; simplify_eq/=); done.
Qed.

Lemma machine_eval_signal s machine :
  fst (Signal.get_machine s) = Return machine →
  Signal.get_machine s = (Return machine, s).
Proof.
  intros H. pose proof (get_machine_reads_signal s) as Hs.
  destruct (Signal.get_machine s); simpl in *; congruence.
Qed.

Lemma machine_eval_best_effort s machine :
  fst (BestEffort.get_machine s) = Return machine →
  BestEffort.get_machine s = (Return machine, s).
Proof.
  intros H. pose proof (get_machine_reads_best_effort s) as Hs.
  destruct (BestEffort.get_machine s); simpl in *; congruence.
Qed.

Ltac by_cases_of_family :=
  intros;
  unfold Signal.get_soc_family, BestEffort.get_soc_family,
         bind, file_exists, read_file, ret, throw;
  repeat match goal with
         | H : opens _ _ = _ |- _ => rewrite H
         | H : find _ _ = None |- _ => rewrite H
         end;
  repeat match goal with
         | H : find ?c ?p ≠ None |- _ =>
             rewrite (bool_decide_eq_true_2 (is_Some (find c p)));
             [|by apply not_eq_None_Some]
         end;
  simpl; auto.

Lemma get_soc_family_primary (s : system) :
  opens s "/sys/devices/soc0/family" = true →
  Signal.get_soc_family s = (Return (slurp s "/sys/devices/soc0/family"), s) ∧
  BestEffort.get_soc_family s = (Return (slurp s "/sys/devices/soc0/family"), s).
Proof. split; by_cases_of_family. Qed.

(** C3 (as amended).  Both headers return the content of the primary
    identification file when it exists.  Otherwise, when the device-tree
    compatible string exists, the exception-throwing header returns the
    first of tegra210, tegra186, tegra194 whose pattern the string contains
    and the empty family when it contains none; the boolean header knows the
    first two patterns only.  When neither file exists the boolean header
    returns the empty family, and the exception-throwing header throws
    [SOC family cannot be found.]  Nothing is changed by the call. *)
Theorem get_soc_family_sources (s : system) :
  let primary := "/sys/devices/soc0/family" in
  let secondary := "/proc/device-tree/compatible" in
  let compat_file := slurp s secondary in
  (opens s primary = true →
     Signal.get_soc_family s = (Return (slurp s primary), s) ∧
     BestEffort.get_soc_family s = (Return (slurp s primary), s)) ∧
  (opens s primary = false → opens s secondary = true →
     (find compat_file "nvidia,tegra210" ≠ None →
        Signal.get_soc_family s = (Return "tegra210", s) ∧
        BestEffort.get_soc_family s = (Return "tegra210", s)) ∧
     (find compat_file "nvidia,tegra210" = None →
      find compat_file "nvidia,tegra186" ≠ None →
        Signal.get_soc_family s = (Return "tegra186", s) ∧
        BestEffort.get_soc_family s = (Return "tegra186", s)) ∧
     (find compat_file "nvidia,tegra210" = None →
      find compat_file "nvidia,tegra186" = None →
      find compat_file "nvidia,tegra194" ≠ None →
        Signal.get_soc_family s = (Return "tegra194", s) ∧
        BestEffort.get_soc_family s = (Return "", s)) ∧
     (find compat_file "nvidia,tegra210" = None →
      find compat_file "nvidia,tegra186" = None →
      find compat_file "nvidia,tegra194" = None →
        Signal.get_soc_family s = (Return "", s) ∧
        BestEffort.get_soc_family s = (Return "", s))) ∧
  (opens s primary = false → opens s secondary = false →
     Signal.get_soc_family s =
       (Throw (JetsonClocksException "SOC family cannot be found."), s) ∧
     BestEffort.get_soc_family s = (Return "", s)).
Proof.
  cbv zeta. repeat split; by_cases_of_family.
Qed.

Lemma get_soc_family_sources_witness :
  Signal.get_soc_family xavier = (Return "tegra194", xavier) ∧
  BestEffort.get_soc_family xavier = (Return "", xavier).
Proof.
  destruct (get_soc_family_sources xavier) as (_ & H & _).
  destruct (H eq_refl eq_refl) as (_ & _ & H194 & _).
  apply H194; [reflexivity | reflexivity | discriminate].
Defined.

(** C3, counterexample.  With neither identification file, board discovery
    fails in the exception-throwing header; and the boolean header does not
    recognise a compatible string that names tegra194. *)
Lemma get_soc_family_unknown_board :
  fst (Signal.get_soc_family blank) =
    Throw (JetsonClocksException "SOC family cannot be found.") ∧
  fst (BestEffort.get_soc_family xavier) = Return "".
Proof. split; reflexivity. Qed.

(** * The fan of the Jetson TK1 *)

(** C6.  For a caller running as root on a machine whose model string is
    [jetson-tk1], [set_fan_speed] succeeds for every speed and [get_fan_speed]
    returns 255, and neither call opens, writes or prints anything, whatever
    files the system holds.  This holds in both headers. *)
Theorem tk1_fan_is_always_on (s : system) (speed : Z) :
  euid s = 0 →
  (fst (Signal.get_machine s) = Return "jetson-tk1" →
     Signal.set_fan_speed speed s = (Return tt, s) ∧
     Signal.get_fan_speed s = (Return 255, s)) ∧
  (fst (BestEffort.get_machine s) = Return "jetson-tk1" →
     BestEffort.set_fan_speed speed s = (Return true, s) ∧
     BestEffort.get_fan_speed s = (Return 255, s)).
Proof.
  intros Hroot. split; intros Hm.
  - apply machine_eval_signal in Hm.
    unfold Signal.set_fan_speed, Signal.get_fan_speed.
    rewrite !(bind_Return _ _ _ _ _ (root_true s Hroot)). simpl.
    rewrite !(bind_Return _ _ _ _ _ Hm). done.
  - apply machine_eval_best_effort in Hm.
    unfold BestEffort.set_fan_speed, BestEffort.get_fan_speed.
    rewrite !(bind_Return _ _ _ _ _ (root_true s Hroot)). simpl.
    rewrite !(bind_Return _ _ _ _ _ Hm). done.
Qed.

Lemma tk1_fan_is_always_on_witness :
  (Signal.set_fan_speed 0 tk1 = (Return tt, tk1) ∧
   Signal.get_fan_speed tk1 = (Return 255, tk1)) ∧
  (BestEffort.set_fan_speed 0 tk1 = (Return true, tk1) ∧
   BestEffort.get_fan_speed tk1 = (Return 255, tk1)).
Proof.
  destruct (tk1_fan_is_always_on tk1 0 eq_refl) as [Hs Hb].
  split; [apply Hs | apply Hb]; reflexivity.
Defined.

(** * The EMC range *)

(** C5.  On the families with an iso-cap file (tegra186 and tegra194 in the
    exception-throwing header, tegra186 in the boolean header), when the
    iso-cap, nominal maximum and minimum files hold the integers [cap],
    [fmax] and [lo], the maximum that the range getter reports is read from
    the iso-cap file, hence is [cap], when [0 < cap < fmax], and from the
    nominal maximum file, hence is [fmax], otherwise. *)
Theorem emc_iso_cap_override (s : system) (cap fmax lo : Z) :
  let EMC_ISO_CAP := "/sys/kernel/nvpmodel_emc_cap/emc_iso_cap" in
  let EMC_MIN_FREQ := "/sys/kernel/debug/bpmp/debug/clk/emc/min_rate" in
  let EMC_MAX_FREQ := "/sys/kernel/debug/bpmp/debug/clk/emc/max_rate" in
  let capped := bool_decide (0 < cap ∧ cap < fmax) in
  euid s = 0 →
  stoi (slurp s EMC_ISO_CAP) = Return cap →
  stoi (slurp s EMC_MAX_FREQ) = Return fmax →
  stoi (slurp s EMC_MIN_FREQ) = Return lo →
  (∀ family,
     fst (Signal.get_soc_family s) = Return family →
     family = "tegra186" ∨ family = "tegra194" →
     Signal.EMC_RANGE_PATHS family s =
       (Return (EMC_MIN_FREQ, if capped then EMC_ISO_CAP else EMC_MAX_FREQ), s) ∧
     Signal.get_emc_available_freqs s =
       (Return [lo; if capped then cap else fmax], s)) ∧
  (fst (BestEffort.get_soc_family s) = Return "tegra186" →
     BestEffort.get_emc_available_freq_range s =
       (Return (lo, if capped then cap else fmax), s)).
Proof.
  intros ISO MIN MAX capped Hroot Hcap Hfmax Hlo.
  assert (bool_decide (cap > 0) && bool_decide (cap < fmax) = capped) as Hc.
  { subst capped. repeat case_bool_decide; simpl; try reflexivity; lia. }
  split.
  - intros family Hfam Hsup.
    assert (Signal.EMC_RANGE_PATHS family s =
            (Return (MIN, if capped then ISO else MAX), s)) as Hpaths.
    { unfold Signal.EMC_RANGE_PATHS.
      assert (bool_decide (family = "tegra186") || bool_decide (family = "tegra194") = true) as ->.
      { destruct Hsup as [-> | ->]; reflexivity. }
      unfold bind, read_file, lift. fold ISO MAX MIN.
      rewrite Hcap, Hfmax, Hc. by destruct capped. }
    split; [exact Hpaths|].
    unfold Signal.get_emc_available_freqs.
    rewrite (bind_Return _ _ _ _ _ (root_true s Hroot)). simpl.
    rewrite (bind_Return _ _ _ _ _ (family_eval_signal s family Hfam)).
    rewrite (bind_Return _ _ _ _ _ Hpaths).
    destruct capped; cbv beta iota; unfold bind, read_file, lift, ret;
      fold ISO MAX MIN; rewrite Hlo, ?Hcap, ?Hfmax; reflexivity.
  - intros Hfam.
    unfold BestEffort.get_emc_available_freq_range.
    rewrite (bind_Return _ _ _ _ _ (root_true s Hroot)). simpl.
    rewrite (bind_Return _ _ _ _ _ (family_eval_best_effort s _ Hfam)). simpl.
    unfold bind, read_file, lift, ret. fold ISO MAX MIN.
    rewrite Hcap, Hfmax, Hc.
    destruct capped; rewrite Hlo, ?Hcap, ?Hfmax; reflexivity.
Qed.

Lemma emc_iso_cap_override_witness :
  Signal.get_emc_available_freqs tx2_capped = (Return [40; 300], tx2_capped) ∧
  BestEffort.get_emc_available_freq_range tx2_capped = (Return (40, 300), tx2_capped).
Proof.
  destruct (emc_iso_cap_override tx2_capped 300 900 40 eq_refl eq_refl eq_refl eq_refl)
    as [Hs Hb].
  split.
  - apply (Hs "tegra186"); [reflexivity | by left].
  - apply Hb. reflexivity.
Defined.

(** * Path resolution *)

Ltac other_family H :=
  unfold supported in H;
  repeat (rewrite bool_decide_eq_false_2; [|intros ->; apply H; solve [auto]]);
  simpl.

Section other_families.
Context (s : system) (family : string) (Hother : ¬ supported family).

Lemma GPU_AVAILABLE_FREQS_other :
  Signal.GPU_AVAILABLE_FREQS family s =
  (Throw (JetsonClocksException
     ("cannot read gpu available freqs with unsupported SOC family " +:+ family +:+ ".")), s).
Proof. unfold Signal.GPU_AVAILABLE_FREQS. other_family Hother. reflexivity. Qed.

Lemma GPU_RANGE_PATHS_other :
  Signal.GPU_RANGE_PATHS family s =
  (Throw (JetsonClocksException
     ("cannot gpu frequency range with unsupported SOC family " +:+ family +:+ ".")), s).
Proof. unfold Signal.GPU_RANGE_PATHS. other_family Hother. reflexivity. Qed.

Lemma GPU_FREQ_PATH_other (leaf what : string) :
  Signal.GPU_FREQ_PATH leaf what family s =
  (Throw (JetsonClocksException
     ("cannot get " +:+ what +:+ " with unsupported SOC family " +:+ family +:+ ".")), s).
Proof. unfold Signal.GPU_FREQ_PATH. other_family Hother. reflexivity. Qed.

Lemma EMC_RANGE_PATHS_other :
  Signal.EMC_RANGE_PATHS family s =
  (Throw (JetsonClocksException
     "cannot get emc available frequencies. SOC family unsupported."), s).
Proof. unfold Signal.EMC_RANGE_PATHS. other_family Hother. reflexivity. Qed.

Lemma EMC_SET_PATHS_other :
  Signal.EMC_SET_PATHS family s =
  (Throw (JetsonClocksException
     ("cannot set emc frequency with unsupported soc_family" +:+ family +:+ ".")), s).
Proof. unfold Signal.EMC_SET_PATHS. other_family Hother. reflexivity. Qed.

Lemma EMC_GET_PATH_other :
  family ≠ "tagra194" →
  Signal.EMC_GET_PATH family s =
  (Throw (JetsonClocksException "cannot get emc frequency. SOC family unsupported."), s).
Proof.
  intros Htypo. unfold Signal.EMC_GET_PATH. other_family Hother.
  rewrite (bool_decide_eq_false_2 _ Htypo). other_family Hother. reflexivity.
Qed.
End other_families.

(** Every family-dependent operation of the exception-throwing header
    throws an unsupported-family exception, and changes nothing, when the
    family is none of the three supported ones (and, for the EMC frequency
    getter, is not [tagra194] either).  The two setters throw the exception
    of the getter that they call first. *)
Lemma unsupported_family_signal (s : system) (family : string) (a b : Z) :
  euid s = 0 →
  fst (Signal.get_soc_family s) = Return family →
  ¬ supported family →
  let unsupported_gpu := JetsonClocksException
    ("cannot read gpu available freqs with unsupported SOC family " +:+ family +:+ ".") in
  let unsupported_emc := JetsonClocksException
    "cannot get emc available frequencies. SOC family unsupported." in
  Signal.get_gpu_available_freqs s = (Throw unsupported_gpu, s) ∧
  Signal.set_gpu_freq_range a b s = (Throw unsupported_gpu, s) ∧
  Signal.get_gpu_cur_freq s =
    (Throw (JetsonClocksException
       ("cannot get current gpu frequency with unsupported SOC family " +:+ family +:+ ".")), s) ∧
  Signal.get_gpu_min_freq s =
    (Throw (JetsonClocksException
       ("cannot get gpu min frequency with unsupported SOC family " +:+ family +:+ ".")), s) ∧
  Signal.get_gpu_max_freq s =
    (Throw (JetsonClocksException
       ("cannot get gpu max frequency with unsupported SOC family " +:+ family +:+ ".")), s) ∧
  Signal.get_gpu_current_usage s =
    (Throw (JetsonClocksException "cannot get current GPU usage. SOC family unsupported."), s) ∧
  Signal.get_emc_available_freqs s = (Throw unsupported_emc, s) ∧
  Signal.set_emc_freq a s = (Throw unsupported_emc, s) ∧
  (family ≠ "tagra194" →
   Signal.get_emc_freq s =
     (Throw (JetsonClocksException "cannot get emc frequency. SOC family unsupported."), s)).
Proof.
  intros Hroot Hfam Hun ugpu uemc.
  apply family_eval_signal in Hfam.
  pose proof (GPU_AVAILABLE_FREQS_other s family Hun) as Hgpu.
  pose proof (EMC_RANGE_PATHS_other s family Hun) as Hemc.
  pose proof (EMC_GET_PATH_other s family Hun) as Hget.
  assert (Signal.get_gpu_available_freqs s = (Throw ugpu, s)) as Hg.
  { unfold Signal.get_gpu_available_freqs.
    rewrite (bind_Return _ _ _ _ _ (root_true s Hroot)). simpl.
    rewrite (bind_Return _ _ _ _ _ Hfam).
    by rewrite (bind_Throw _ _ _ _ _ Hgpu). }
  assert (Signal.get_emc_available_freqs s = (Throw uemc, s)) as He.
  { unfold Signal.get_emc_available_freqs.
    rewrite (bind_Return _ _ _ _ _ (root_true s Hroot)). simpl.
    rewrite (bind_Return _ _ _ _ _ Hfam).
    by rewrite (bind_Throw _ _ _ _ _ Hemc). }
  assert (∀ leaf what what_missing denied,
    Signal.get_gpu_freq leaf what what_missing denied s =
    (Throw (JetsonClocksException
       ("cannot get " +:+ what +:+ " with unsupported SOC family " +:+ family +:+ ".")), s))
    as Hfreq.
  { intros leaf what wm denied.
    pose proof (GPU_FREQ_PATH_other s family Hun leaf what) as Hp.
    unfold Signal.get_gpu_freq.
    rewrite (bind_Return _ _ _ _ _ (root_true s Hroot)). simpl.
    rewrite (bind_Return _ _ _ _ _ Hfam).
    by rewrite (bind_Throw _ _ _ _ _ Hp). }
  repeat split.
  - exact Hg.
  - unfold Signal.set_gpu_freq_range.
    rewrite (bind_Return _ _ _ _ _ (root_true s Hroot)). simpl.
    by rewrite (bind_Throw _ _ _ _ _ Hg).
  - apply Hfreq.
  - apply Hfreq.
  - apply Hfreq.
  - unfold Signal.get_gpu_current_usage.
    rewrite (bind_Return _ _ _ _ _ Hfam).
    rewrite bool_decide_eq_false_2; [done|].
    intros ->. apply Hun. unfold supported. auto.
  - exact He.
  - unfold Signal.set_emc_freq.
    rewrite (bind_Return _ _ _ _ _ (root_true s Hroot)). simpl.
    by rewrite (bind_Throw _ _ _ _ _ He).
  - intros Htypo. unfold Signal.get_emc_freq.
    rewrite (bind_Return _ _ _ _ _ (root_true s Hroot)). simpl.
    rewrite (bind_Return _ _ _ _ _ Hfam).
    by rewrite (bind_Throw _ _ _ _ _ (Hget Htypo)).
Qed.

(** C4 (as amended).  In the exception-throwing header the GPU
    available-frequencies getter, the GPU range setter and the EMC setter
    resolve, for each of tegra186, tegra194 and tegra210, the files of that
    family's device node, and throw their unsupported-family exception for
    every other family value.  So does the EMC range getter, except that on
    tegra186 and tegra194 it reads the iso-cap and the nominal-maximum file
    to choose between them: it resolves its files when both hold an
    integer, and otherwise the exception of [std::stoi] propagates.  The
    GPU current, minimum and maximum frequency getters resolve a file for
    tegra194 only: for tegra186 and tegra210 they resolve the empty path,
    and then, called by root where no file of the empty name can be opened,
    throw their does-not-exist exception; for every other family value they
    throw the unsupported-family exception.  The EMC frequency getter
    resolves its file for tegra186 and for tegra210 and throws for every
    value other than the three families and [tagra194].  For a root caller
    and a family that is none of the three, the operations themselves throw
    an exception whose message names the family as unsupported. *)
Theorem path_resolution (s : system) (family leaf what : string) (a b : Z) :
  (* GPU available frequencies *)
  (family = "tegra186" → Signal.GPU_AVAILABLE_FREQS family s =
     (Return "/sys/devices/17000000.gp10b/devfreq/17000000.gp10b/available_frequencies", s)) ∧
  (family = "tegra194" → Signal.GPU_AVAILABLE_FREQS family s =
     (Return "/sys/devices/17000000.gv11b/devfreq/17000000.gv11b/available_frequencies", s)) ∧
  (family = "tegra210" → Signal.GPU_AVAILABLE_FREQS family s =
     (Return "/sys/devices/57000000.gpu/devfreq/57000000.gpu/available_frequencies", s)) ∧
  (¬ supported family → Signal.GPU_AVAILABLE_FREQS family s =
     (Throw (JetsonClocksException
        ("cannot read gpu available freqs with unsupported SOC family " +:+ family +:+ ".")), s)) ∧
  (* GPU range setter *)
  (family = "tegra186" → Signal.GPU_RANGE_PATHS family s =
     (Return ("/sys/devices/17000000.gp10b/devfreq/17000000.gp10b/min_freq",
              "/sys/devices/17000000.gp10b/devfreq/17000000.gp10b/max_freq",
              "/sys/devices/17000000.gp10b/devfreq/17000000.gp10b/device/railgate_enable"), s)) ∧
  (family = "tegra194" → Signal.GPU_RANGE_PATHS family s =
     (Return ("/sys/devices/17000000.gv11b/devfreq/17000000.gv11b/min_freq",
              "/sys/devices/17000000.gv11b/devfreq/17000000.gv11b/max_freq",
              "/sys/devices/17000000.gv11b/devfreq/17000000.gv11b/device/railgate_enable"), s)) ∧
  (family = "tegra210" → Signal.GPU_RANGE_PATHS family s =
     (Return ("/sys/devices/57000000.gpu/devfreq/57000000.gpu/min_freq",
              "/sys/devices/57000000.gpu/devfreq/57000000.gpu/max_freq",
              "/sys/devices/57000000.gpu/devfreq/57000000.gpu/device/railgate_enable"), s)) ∧
  (¬ supported family → Signal.GPU_RANGE_PATHS family s =
     (Throw (JetsonClocksException
        ("cannot gpu frequency range with unsupported SOC family " +:+ family +:+ ".")), s)) ∧
  (* EMC setter *)
  (family = "tegra186" ∨ family = "tegra194" → Signal.EMC_SET_PATHS family s =
     (Return ("/sys/kernel/debug/bpmp/debug/clk/emc/rate",
              "/sys/kernel/debug/bpmp/debug/clk/emc/mrq_rate_locked"), s)) ∧
  (family = "tegra210" → Signal.EMC_SET_PATHS family s =
     (Return ("/sys/kernel/debug/clk/override.emc/clk_update_rate",
              "/sys/kernel/debug/clk/override.emc/clk_state"), s)) ∧
  (¬ supported family → Signal.EMC_SET_PATHS family s =
     (Throw (JetsonClocksException
        ("cannot set emc frequency with unsupported soc_family" +:+ family +:+ ".")), s)) ∧
  (* EMC range getter *)
  (family = "tegra186" ∨ family = "tegra194" →
   ∀ cap fmax,
     stoi (slurp s "/sys/kernel/nvpmodel_emc_cap/emc_iso_cap") = Return cap →
     stoi (slurp s "/sys/kernel/debug/bpmp/debug/clk/emc/max_rate") = Return fmax →
     ∃ EMC_MAX_FREQ, Signal.EMC_RANGE_PATHS family s =
       (Return ("/sys/kernel/debug/bpmp/debug/clk/emc/min_rate", EMC_MAX_FREQ), s) ∧
       (EMC_MAX_FREQ = "/sys/kernel/nvpmodel_emc_cap/emc_iso_cap" ∨
        EMC_MAX_FREQ = "/sys/kernel/debug/bpmp/debug/clk/emc/max_rate")) ∧
  (family = "tegra186" ∨ family = "tegra194" →
   ∀ e,
     stoi (slurp s "/sys/kernel/nvpmodel_emc_cap/emc_iso_cap") = Throw e ∨
     ((∃ cap, stoi (slurp s "/sys/kernel/nvpmodel_emc_cap/emc_iso_cap") = Return cap) ∧
      stoi (slurp s "/sys/kernel/debug/bpmp/debug/clk/emc/max_rate") = Throw e) →
     Signal.EMC_RANGE_PATHS family s = (Throw e, s)) ∧
  (family = "tegra210" → Signal.EMC_RANGE_PATHS family s =
     (Return ("/sys/kernel/debug/tegra_bwmgr/emc_min_rate",
              "/sys/kernel/debug/tegra_bwmgr/emc_max_rate"), s)) ∧
  (¬ supported family → Signal.EMC_RANGE_PATHS family s =
     (Throw (JetsonClocksException
        "cannot get emc available frequencies. SOC family unsupported."), s)) ∧
  (* GPU current, minimum and maximum frequency getters *)
  (family = "tegra194" → Signal.GPU_FREQ_PATH leaf what family s =
     (Return ("/sys/devices/17000000.gv11b/devfreq/17000000.gv11b/" +:+ leaf), s)) ∧
  (family = "tegra186" ∨ family = "tegra210" →
     Signal.GPU_FREQ_PATH leaf what family s = (Return "", s)) ∧
  (¬ supported family → Signal.GPU_FREQ_PATH leaf what family s =
     (Throw (JetsonClocksException
        ("cannot get " +:+ what +:+ " with unsupported SOC family " +:+ family +:+ ".")), s)) ∧
  (family = "tegra186" ∨ family = "tegra210" →
   euid s = 0 → fst (Signal.get_soc_family s) = Return family → opens s "" = false →
     Signal.get_gpu_cur_freq s =
       thrown s "cannot get current gpu freq. because  does not exist." ∧
     Signal.get_gpu_min_freq s =
       thrown s "cannot get min gpu freq. because  does not exist." ∧
     Signal.get_gpu_max_freq s =
       thrown s "cannot get max gpu freq. because  does not exist.") ∧
  (* EMC frequency getter *)
  (family = "tegra186" → Signal.EMC_GET_PATH family s =
     (Return "/sys/kernel/debug/bpmp/debug/clk/emc/rate", s)) ∧
  (family = "tegra210" → Signal.EMC_GET_PATH family s =
     (Return "/sys/kernel/debug/clk/override.emc/clk_update_rate", s)) ∧
  (¬ supported family → family ≠ "tagra194" → Signal.EMC_GET_PATH family s =
     (Throw (JetsonClocksException "cannot get emc frequency. SOC family unsupported."), s)) ∧
  (* the operations, on a family that is none of the three *)
  (euid s = 0 → fst (Signal.get_soc_family s) = Return family → ¬ supported family →
     ∃ unsupported_gpu unsupported_emc unsupported_cur unsupported_min unsupported_max,
       Signal.get_gpu_available_freqs s = (Throw (JetsonClocksException unsupported_gpu), s) ∧
       Signal.set_gpu_freq_range a b s = (Throw (JetsonClocksException unsupported_gpu), s) ∧
       Signal.get_emc_available_freqs s = (Throw (JetsonClocksException unsupported_emc), s) ∧
       Signal.set_emc_freq a s = (Throw (JetsonClocksException unsupported_emc), s) ∧
       Signal.get_gpu_cur_freq s = (Throw (JetsonClocksException unsupported_cur), s) ∧
       Signal.get_gpu_min_freq s = (Throw (JetsonClocksException unsupported_min), s) ∧
       Signal.get_gpu_max_freq s = (Throw (JetsonClocksException unsupported_max), s) ∧
       Forall (λ message, is_Some (find message "unsupported"))
         [unsupported_gpu; unsupported_emc; unsupported_cur; unsupported_min; unsupported_max]).
Proof.
  unfold Signal.GPU_AVAILABLE_FREQS, Signal.GPU_RANGE_PATHS, Signal.EMC_SET_PATHS,
         Signal.GPU_FREQ_PATH, Signal.EMC_GET_PATH.
  repeat match goal with |- _ ∧ _ => split end;
    try (intros ->; reflexivity);
    try (intros [-> | ->]; reflexivity);
    try (intros H; other_family H; reflexivity).
  - intros Hfam cap fmax Hcap Hfmax. unfold Signal.EMC_RANGE_PATHS.
    assert (bool_decide (family = "tegra186") || bool_decide (family = "tegra194") = true) as ->.
    { destruct Hfam as [-> | ->]; reflexivity. }
    unfold bind, read_file, lift. rewrite Hcap, Hfmax.
    destruct (bool_decide (cap > 0) && bool_decide (cap < fmax));
      eexists; (split; [reflexivity|]); auto.
  - intros Hfam e Hthrow. unfold Signal.EMC_RANGE_PATHS.
    assert (bool_decide (family = "tegra186") || bool_decide (family = "tegra194") = true) as ->.
    { destruct Hfam as [-> | ->]; reflexivity. }
    unfold bind, read_file, lift.
    destruct Hthrow as [-> | [[cap ->] ->]]; reflexivity.
  - intros H. by apply EMC_RANGE_PATHS_other.
  - intros Hfam Hroot Hf Hempty.
    assert (∀ leaf what what_missing denied,
      Signal.get_gpu_freq leaf what what_missing denied s =
      thrown s ("cannot get " +:+ what_missing +:+ " because " +:+ "" +:+ " does not exist."))
      as Hfreq.
    { intros leaf' what' what_missing denied. unfold Signal.get_gpu_freq.
      rewrite (bind_Return _ _ _ _ _ (root_true s Hroot)). simpl.
      rewrite (bind_Return _ _ _ _ _ (family_eval_signal s family Hf)).
      assert (Signal.GPU_FREQ_PATH leaf' what' family s = (Return "", s)) as Hpath.
      { destruct Hfam as [-> | ->]; reflexivity. }
      rewrite (bind_Return _ _ _ _ _ Hpath).
      unfold bind, file_exists. by rewrite Hempty. }
    unfold Signal.get_gpu_cur_freq, Signal.get_gpu_min_freq, Signal.get_gpu_max_freq.
    rewrite !Hfreq. done.
  - intros H Htypo. by apply (EMC_GET_PATH_other s family).
  - intros Hroot Hfam Hun.
    destruct (unsupported_family_signal s family a b Hroot Hfam Hun)
      as (H1 & H2 & H3 & H4 & H5 & _ & H6 & H7 & _).
    do 5 eexists. repeat (split; [eassumption|]).
    repeat constructor; apply find_substring.
    + by exists "cannot read gpu available freqs with ", (" SOC family " +:+ family +:+ ".").
    + by exists "cannot get emc available frequencies. SOC family ", "."%string.
    + by exists "cannot get current gpu frequency with ", (" SOC family " +:+ family +:+ ".").
    + by exists "cannot get gpu min frequency with ", (" SOC family " +:+ family +:+ ".").
    + by exists "cannot get gpu max frequency with ", (" SOC family " +:+ family +:+ ".").
Qed.

Lemma path_resolution_witness :
  Signal.GPU_AVAILABLE_FREQS "tegra194" xavier =
    (Return "/sys/devices/17000000.gv11b/devfreq/17000000.gv11b/available_frequencies",
     xavier) ∧
  Signal.GPU_FREQ_PATH "min_freq" "gpu min frequency" "tegra210" nano = (Return "", nano) ∧
  Signal.get_gpu_cur_freq tx2_capped =
    thrown tx2_capped "cannot get current gpu freq. because  does not exist." ∧
  ∃ unsupported_gpu unsupported_emc unsupported_cur unsupported_min unsupported_max,
    Signal.get_gpu_available_freqs nano = (Throw (JetsonClocksException unsupported_gpu), nano) ∧
    Signal.set_gpu_freq_range 0 0 nano = (Throw (JetsonClocksException unsupported_gpu), nano) ∧
    Signal.get_emc_available_freqs nano = (Throw (JetsonClocksException unsupported_emc), nano) ∧
    Signal.set_emc_freq 0 nano = (Throw (JetsonClocksException unsupported_emc), nano) ∧
    Signal.get_gpu_cur_freq nano = (Throw (JetsonClocksException unsupported_cur), nano) ∧
    Signal.get_gpu_min_freq nano = (Throw (JetsonClocksException unsupported_min), nano) ∧
    Signal.get_gpu_max_freq nano = (Throw (JetsonClocksException unsupported_max), nano) ∧
    Forall (λ message, is_Some (find message "unsupported"))
      [unsupported_gpu; unsupported_emc; unsupported_cur; unsupported_min; unsupported_max].
Proof.
  split; [|split; [|split]].
  - by apply (path_resolution xavier "tegra194" "" "" 0 0).
  - apply (path_resolution nano "tegra210" "min_freq" "gpu min frequency" 0 0). by right.
  - apply (path_resolution tx2_capped "tegra186" "" "" 0 0).
    + by left.
    + vm_compute. reflexivity.
    + vm_compute. reflexivity.
    + vm_compute. reflexivity.
  - apply (path_resolution nano ("tegra210" +:+ endl) "" "" 0 0).
    + vm_compute. reflexivity.
    + vm_compute. reflexivity.
    + intros [H | [H | H]]; discriminate H.
Defined.

(** C4, counterexample.  On a tegra186 board the path that
    [get_gpu_cur_freq] resolves is empty, so the getter fails for want of a
    file; and on a tegra194 board [get_emc_freq] takes its unsupported-family
    branch. *)
Lemma gpu_cur_freq_path_unresolved :
  fst (Signal.get_soc_family tx2_capped) = Return "tegra186" ∧
  fst (Signal.GPU_FREQ_PATH "cur_freq" "current gpu frequency" "tegra186" tx2_capped) =
    Return "" ∧
  fst (Signal.get_gpu_cur_freq tx2_capped) =
    Throw (JetsonClocksException "cannot get current gpu freq. because  does not exist.") ∧
  fst (Signal.get_soc_family xavier) = Return "tegra194" ∧
  fst (Signal.get_emc_freq xavier) =
    Throw (JetsonClocksException "cannot get emc frequency. SOC family unsupported.").
Proof. repeat split; vm_compute; reflexivity. Qed.

(** * A primary identification file that ends with a newline *)

Lemma ends_with_newline_app (body : string) :
  ends_with_newline (body +:+ endl) = true.
Proof.
  induction body as [|c body IH]; [reflexivity|].
  change (String c body +:+ endl) with (String c (body +:+ endl)).
  simpl. destruct (body +:+ endl) eqn:E; [|exact IH].
  destruct body; discriminate E.
Qed.

Lemma newline_is_no_family (body : string) :
  ¬ supported (body +:+ endl) ∧ body +:+ endl ≠ "tagra194".
Proof.
  pose proof (ends_with_newline_app body) as H.
  split; [intros [E | [E | E]] | intros E]; rewrite E in H; discriminate H.
Qed.

Lemma get_soc_family_printed (s : system) (text family : string) :
  BestEffort.get_soc_family s = (Return family, s) →
  BestEffort.get_soc_family (printed s text) = (Return family, printed s text).
Proof.
  intros H.
  assert (fst (BestEffort.get_soc_family (printed s text)) =
          fst (BestEffort.get_soc_family s)) as Hfst.
  { unfold BestEffort.get_soc_family, bind, file_exists, read_file, ret.
    repeat (simpl;
            change (opens (printed s text)) with (opens s);
            change (slurp (printed s text)) with (slurp s);
            case_match); done. }
  rewrite H in Hfst. by apply family_eval_best_effort.
Qed.

Lemma print_each_nil_or_prints {A} (f : A → string) (v : list A) (s : system) :
  ∃ s', BestEffort.print_each f v s = (Return tt, s') ∧
        euid s' = euid s ∧ files s' = files s ∧ dirs s' = dirs s ∧
        ∃ out, trace s' = (trace s ++ out)%list ∧ writes out = [].
Proof.
  revert s. induction v as [|x v IH]; intros s; simpl.
  - exists s. repeat split; try done. exists []. by rewrite app_nil_r.
  - unfold bind, print, emit. simpl.
    destruct (IH (System (euid s) (files s) (dirs s) (trace s ++ [Print (f x)])))
      as (s' & -> & ? & ? & ? & out & Ht & Hw).
    exists s'. repeat split; try done. exists (Print (f x) :: out).
    simpl in Ht. rewrite Ht, <- app_assoc. split; [done|]. exact Hw.
Qed.

(** In the boolean header, on a family that is neither tegra186 nor
    tegra210, the three family-dependent getters print the unsupported-SOC
    error and return their empty value; the two setters return [false]
    without a write, after the getter that they call printed that error. *)
Lemma unsupported_family_best_effort (s : system) (family : string) (a b : Z) :
  euid s = 0 →
  fst (BestEffort.get_soc_family s) = Return family →
  family ≠ "tegra186" → family ≠ "tegra210" →
  let unsupported := "Error: unsupported SOC " +:+ family +:+ endl in
  BestEffort.get_gpu_available_freqs s = (Return [], printed s unsupported) ∧
  BestEffort.get_emc_available_freq_range s = (Return (0, 0), printed s unsupported) ∧
  BestEffort.get_emc_freq s = (Return 0, printed s unsupported) ∧
  (∃ s' out, BestEffort.set_gpu_freq_range a b s = (Return false, s') ∧
     files s' = files s ∧
     trace s' = (trace s ++ Print unsupported :: out)%list ∧ writes out = []) ∧
  (∃ s' out, BestEffort.set_emc_freq a s = (Return false, s') ∧
     files s' = files s ∧
     trace s' = (trace s ++ Print unsupported :: out)%list ∧ writes out = []).
Proof.
  intros Hroot Hfam H186 H210 unsupported.
  apply family_eval_best_effort in Hfam.
  assert (BestEffort.get_gpu_available_freqs s = (Return [], printed s unsupported)) as Hg.
  { unfold BestEffort.get_gpu_available_freqs.
    rewrite (bind_Return _ _ _ _ _ (root_true s Hroot)). simpl.
    rewrite (bind_Return _ _ _ _ _ Hfam).
    unfold BestEffort.GPU_AVAILABLE_FREQS.
    rewrite !bool_decide_eq_false_2 by done. reflexivity. }
  assert (BestEffort.get_emc_available_freq_range s = (Return (0, 0), printed s unsupported))
    as He.
  { unfold BestEffort.get_emc_available_freq_range.
    rewrite (bind_Return _ _ _ _ _ (root_true s Hroot)). simpl.
    rewrite (bind_Return _ _ _ _ _ Hfam).
    rewrite !bool_decide_eq_false_2 by done. reflexivity. }
  assert (BestEffort.EMC_PATHS family = None) as Hnone.
  { unfold BestEffort.EMC_PATHS. by rewrite !bool_decide_eq_false_2 by done. }
  repeat split.
  - exact Hg.
  - exact He.
  - unfold BestEffort.get_emc_freq.
    rewrite (bind_Return _ _ _ _ _ (root_true s Hroot)). simpl.
    rewrite (bind_Return _ _ _ _ _ Hfam). rewrite Hnone. reflexivity.
  - unfold BestEffort.set_gpu_freq_range.
    rewrite (bind_Return _ _ _ _ _ (root_true s Hroot)). simpl.
    rewrite (bind_Return _ _ _ _ _ Hg).
    do 2 eexists. split; [reflexivity|]. simpl.
    split; [done|]. rewrite <- app_assoc. split; [reflexivity | done].
  - unfold BestEffort.set_emc_freq.
    rewrite (bind_Return _ _ _ _ _ (root_true s Hroot)). simpl.
    rewrite (bind_Return _ _ _ _ _ He). cbv beta iota.
    destruct (bool_decide (a < 0) || bool_decide (a > 0)).
    + do 2 eexists. split; [reflexivity|]. simpl.
      split; [done|]. rewrite <- app_assoc. split; [reflexivity | done].
    + rewrite (bind_Return _ _ _ _ _ (get_soc_family_printed s unsupported family Hfam)).
      rewrite Hnone.
      do 2 eexists. split; [reflexivity|]. simpl.
      split; [done|]. rewrite <- app_assoc. split; [reflexivity | done].
Qed.

(** * The effect of [write_file] *)

Lemma write_file_cases (name str : string) (s : system) :
  (opens s name && opens_w s name = false ∧ write_file name str s = (Return false, s)) ∨
  (opens s name && opens_w s name = true ∧ write_file name str s = (Return true, wrote s name str)).
Proof.
  unfold write_file, file_writable, file_exists, fopen_w, bind, ret, ofstream_put, wrote.
  destruct (opens s name); simpl; [|by left].
  destruct (opens_w s name); simpl; [right | by left].
  split; [done|]. by rewrite write_truncated, <- app_assoc.
Qed.

Lemma write_file_frame (name str : string) (s : system) :
  ∃ ok s', write_file name str s = (Return ok, s') ∧ euid s' = euid s ∧
    ∀ other, other ≠ name → opens s' other = opens s other ∧ slurp s' other = slurp s other.
Proof.
  destruct (write_file_cases name str s) as [[_ ->] | [_ ->]].
  - by exists false, s.
  - exists true, (wrote s name str). repeat split; try done.
    + unfold opens, wrote. simpl. by rewrite lookup_alter_ne.
    + unfold slurp, wrote. simpl. by rewrite lookup_alter_ne.
Qed.

(** With a family other than tegra186 the prelude of the per-CPU setters
    writes the QoS file only. *)
Lemma disable_throttling_other_family (s : system) (family : string) :
  fst (Signal.get_soc_family s) = Return family →
  family ≠ "tegra186" →
  Signal.disable_throttling s =
    (Return tt, snd (write_file "/sys/module/qos/parameters/enable" "0" s)).
Proof.
  intros Hfam Hne. unfold Signal.disable_throttling.
  destruct (write_file_frame "/sys/module/qos/parameters/enable" "0" s)
    as (ok & s' & Hw & _ & Hframe).
  rewrite (bind_Return _ _ _ _ _ Hw), Hw. simpl.
  assert (Signal.get_soc_family s' = (Return family, s')) as Hfam'.
  { apply family_eval_signal. rewrite <- Hfam.
    unfold Signal.get_soc_family, bind, file_exists, read_file, ret, throw.
    destruct (Hframe "/sys/devices/soc0/family") as [Ho1 Hs1]; [done|].
    destruct (Hframe "/proc/device-tree/compatible") as [Ho2 Hs2]; [done|].
    repeat (simpl; rewrite ?Ho1, ?Ho2, ?Hs1, ?Hs2; case_match);
      simpl; rewrite ?Hs1, ?Hs2; done. }
  rewrite (bind_Return _ _ _ _ _ Hfam').
  by rewrite bool_decide_eq_false_2.
Qed.

(** * Operations called without root *)

(** Every operation of the exception-throwing header that tests
    [running_as_root] does so first: without root it throws its
    root-permissions exception and leaves the system as it was, trace
    included. *)
Lemma root_required_signal (s : system) (speed a b cpu_id : Z) (governor : string) :
  euid s ≠ 0 →
  Signal.set_fan_speed speed s =
    thrown s "fan speed can not be set without root permissions." ∧
  Signal.get_fan_speed s =
    thrown s "fan speed cannot be read without root permissions." ∧
  Signal.get_gpu_available_freqs s =
    thrown s "cannot read gpu available freqs without root permissions." ∧
  Signal.set_gpu_freq_range a b s =
    thrown s "cannot set gpu freq range without root permissions." ∧
  Signal.get_gpu_cur_freq s =
    thrown s "cannot get gpu current freq. without root permissions." ∧
  Signal.get_gpu_min_freq s =
    thrown s "cannot get gpu min freq. without root permissions." ∧
  Signal.get_gpu_max_freq s =
    thrown s "cannot get gpu max freq. without root permissions." ∧
  Signal.get_emc_available_freqs s =
    thrown s "cannot read EMC available freqs without root permissions." ∧
  Signal.get_emc_freq s =
    thrown s "cannot read EMC freq without root permissions." ∧
  Signal.set_emc_freq a s =
    thrown s "cannot set EMC freq without root permissions." ∧
  Signal.get_cpu_ids s =
    thrown s "cannot look up CPU ids without root permissions." ∧
  Signal.get_cpu_available_freqs cpu_id s =
    thrown s "cannot look up CPU available frequencies without root permissions." ∧
  Signal.get_cpu_available_governors cpu_id s =
    thrown s "cannot look up CPU available governors without root permissions." ∧
  Signal.get_cpu_governor cpu_id s =
    thrown s "cannot get cpu governor without root permissions." ∧
  Signal.get_cpu_min_freq cpu_id s =
    thrown s "cannot get cpu min. freq. without root permissions." ∧
  Signal.get_cpu_max_freq cpu_id s =
    thrown s "cannot get cpu max. freq. without root permissions." ∧
  Signal.get_cpu_cur_freq cpu_id s =
    thrown s "cannot get cpu current freq. without root permissions." ∧
  Signal.set_cpu_min_freq cpu_id a s =
    thrown s "cannot set CPU min. freq. without root permissions." ∧
  Signal.set_cpu_max_freq cpu_id a s =
    thrown s "cannot set CPU max. freq. without root permissions." ∧
  Signal.set_cpu_governor cpu_id governor s =
    thrown s "cannot set CPU governor without root permissions.".
Proof.
  intros Hguest. unfold thrown.
  pose proof (root_false s Hguest) as Hr.
  repeat match goal with |- _ ∧ _ => split end;
    unfold Signal.set_fan_speed, Signal.get_fan_speed, Signal.get_gpu_available_freqs,
      Signal.set_gpu_freq_range, Signal.get_gpu_cur_freq, Signal.get_gpu_min_freq,
      Signal.get_gpu_max_freq, Signal.get_gpu_freq, Signal.get_emc_available_freqs,
      Signal.get_emc_freq, Signal.set_emc_freq, Signal.get_cpu_ids,
      Signal.get_cpu_available_freqs, Signal.get_cpu_available_governors,
      Signal.get_cpu_governor, Signal.get_cpu_min_freq, Signal.get_cpu_max_freq,
      Signal.get_cpu_cur_freq, Signal.get_cpu_freq, Signal.set_cpu_min_freq,
      Signal.set_cpu_max_freq, Signal.set_cpu_governor;
    rewrite (bind_Return _ _ _ _ _ Hr); reflexivity.
Qed.

(** The same test in the boolean header: without root every operation that
    tests [running_as_root] prints its error, returns its failure value
    ([false], 0, an empty vector or string) and does nothing else. *)
Lemma root_required_best_effort (s : system) (speed a b cpu_id : Z) (governor : string) :
  euid s ≠ 0 →
  let denied (what : string) := printed s ("Error: Cannot " +:+ what +:+ " without running as root." +:+ endl) in
  BestEffort.set_fan_speed speed s = (Return false, denied "change fan speed") ∧
  BestEffort.get_fan_speed s = (Return 0, denied "read fan speed") ∧
  BestEffort.get_gpu_available_freqs s = (Return [], denied "look up gpu available freqs") ∧
  BestEffort.set_gpu_freq_range a b s = (Return false, denied "set GPU freq range") ∧
  BestEffort.get_emc_available_freq_range s = (Return (0, 0), denied "look up EMC freqs") ∧
  BestEffort.get_emc_freq s = (Return 0, denied "read EMC freq") ∧
  BestEffort.set_emc_freq a s = (Return false, denied "change EMC freq") ∧
  BestEffort.get_cpu_ids s = (Return [], denied "look up CPU ids") ∧
  BestEffort.get_cpu_available_freqs cpu_id s =
    (Return [], denied "get CPU available frequencies") ∧
  BestEffort.get_cpu_available_governors cpu_id s =
    (Return [], denied "get CPU available governors") ∧
  BestEffort.get_cpu_governor cpu_id s = (Return "", denied "get CPU governor") ∧
  BestEffort.get_cpu_min_freq cpu_id s = (Return 0, denied "get CPU min. freq.") ∧
  BestEffort.get_cpu_max_freq cpu_id s = (Return 0, denied "get CPU max. freq.") ∧
  BestEffort.get_cpu_cur_freq cpu_id s = (Return 0, denied "get CPU cur. freq.") ∧
  BestEffort.set_cpu_min_freq cpu_id a s = (Return false, denied "set CPU min. freq.") ∧
  BestEffort.set_cpu_max_freq cpu_id a s = (Return false, denied "set CPU max. freq.") ∧
  BestEffort.set_cpu_governor cpu_id governor s = (Return false, denied "set CPU max. freq.").
Proof.
  intros Hguest denied. subst denied. cbv beta.
  pose proof (root_false s Hguest) as Hr.
  repeat match goal with |- _ ∧ _ => split end;
    unfold BestEffort.set_fan_speed, BestEffort.get_fan_speed,
      BestEffort.get_gpu_available_freqs, BestEffort.set_gpu_freq_range,
      BestEffort.get_emc_available_freq_range, BestEffort.get_emc_freq,
      BestEffort.set_emc_freq, BestEffort.get_cpu_ids,
      BestEffort.get_cpu_available_freqs, BestEffort.get_cpu_available_governors,
      BestEffort.get_cpu_governor, BestEffort.get_cpu_min_freq,
      BestEffort.get_cpu_max_freq, BestEffort.get_cpu_cur_freq, BestEffort.get_cpu_freq,
      BestEffort.set_cpu_min_freq, BestEffort.set_cpu_max_freq,
      BestEffort.set_cpu_governor;
    rewrite (bind_Return _ _ _ _ _ Hr); reflexivity.
Qed.

(** C1, at the failing input.  [get_gpu_current_usage] never asks whether the
    caller is root: for an ordinary user on a tegra210 board it reads the
    GPU load file and returns its value, while [get_gpu_cur_freq], next to
    it, throws for want of root permissions. *)
Theorem get_gpu_current_usage_ignores_privilege :
  euid nano_guest ≠ 0 ∧
  Signal.get_gpu_current_usage nano_guest = (Return 42, nano_guest) ∧
  Signal.get_gpu_cur_freq nano_guest =
    (Throw (JetsonClocksException "cannot get gpu current freq. without root permissions."),
     nano_guest).
Proof. split; [done|]. split; reflexivity. Qed.

(** * The setters of the boolean header *)

Lemma file_writable_cases (name : string) (s : system) :
  (opens s name && opens_w s name = false ∧ file_writable name s = (Return false, s)) ∨
  (opens s name && opens_w s name = true ∧ file_writable name s = (Return true, opened s name)).
Proof.
  unfold file_writable, file_exists, fopen_w, bind, ret, opened.
  destruct (opens s name); simpl; [|by left].
  destruct (opens_w s name); simpl; [by right | by left].
Qed.

Lemma file_writable_probe (name : string) (s : system) :
  file_writable name s = (Return (can_write s name), probe s name).
Proof.
  unfold probe, can_write.
  destruct (file_writable_cases name s) as [[-> ->] | [-> ->]]; reflexivity.
Qed.

Lemma emc_writes_returns (update override : string) (freq : Z) (s : system) :
  ∃ success s', BestEffort.emc_writes update override freq s = (Return success, s').
Proof.
  unfold BestEffort.emc_writes.
  destruct (write_file_frame update (to_string freq) s) as (w1 & s1 & H1 & _).
  rewrite (bind_Return _ _ _ _ _ H1).
  destruct (write_file_frame override "1" s1) as (w2 & s2 & H2 & _).
  rewrite (bind_Return _ _ _ _ _ H2). by eexists _, _.
Qed.

Lemma cpu_writes_returns (path value : string) (s : system) :
  ∃ success s', BestEffort.cpu_writes path value s = (Return success, s').
Proof.
  unfold BestEffort.cpu_writes.
  destruct (write_file_frame "/sys/module/qos/parameters/enable" "0" s)
    as (w1 & s1 & H1 & _).
  rewrite (bind_Return _ _ _ _ _ H1).
  destruct (get_soc_family_returns_best_effort s1) as [family Hf].
  rewrite (bind_Return _ _ _ _ _ Hf).
  destruct (bool_decide (family = "tegra186")).
  - destruct (write_file_frame "/sys/kernel/debug/tegra_cpufreq/M_CLUSTER/cc3/enable" "0" s1)
      as (w2 & s2 & H2 & _).
    destruct (write_file_frame "/sys/kernel/debug/tegra_cpufreq/B_CLUSTER/cc3/enable" "0" s2)
      as (w3 & s3 & H3 & _).
    destruct (write_file_frame path value s3) as (w4 & s4 & H4 & _).
    unfold bind at 1. rewrite (bind_Return _ _ _ _ _ H2), (bind_Return _ _ _ _ _ H3).
    unfold ret at 1. rewrite (bind_Return _ _ _ _ _ H4). by eexists _, _.
  - destruct (write_file_frame path value s1) as (w4 & s4 & H4 & _).
    unfold bind at 1, ret at 1. rewrite (bind_Return _ _ _ _ _ H4). by eexists _, _.
Qed.

(** The frequencies getter of the boolean header, for root. *)
Lemma get_cpu_available_freqs_best_effort (s : system) (cpu_id : Z) :
  euid s = 0 →
  let path := cpu_available_frequencies cpu_id in
  BestEffort.get_cpu_available_freqs cpu_id s =
    if opens s path then
      match parse_longs (slurp s path) with
      | [] => (Return [],
               printed s ("Error: cpu" +:+ to_string cpu_id +:+
                          " available frequencies not found." +:+ endl))
      | speeds => (Return (sort speeds), s)
      end
    else (Return [],
          printed s ("Error: Cannot get cpu" +:+ to_string cpu_id +:+
                     " available frequencies because " +:+ path +:+ " does not exist.")).
Proof.
  intros Hroot path. unfold BestEffort.get_cpu_available_freqs.
  rewrite (bind_Return _ _ _ _ _ (root_true s Hroot)). simpl.
  unfold bind, file_exists. fold (cpu_available_frequencies cpu_id). fold path.
  destruct (opens s path); [|reflexivity]. simpl.
  by destruct (parse_longs (slurp s path)).
Qed.

Lemma get_cpu_available_governors_best_effort (s : system) (cpu_id : Z) :
  euid s = 0 →
  let path := cpu_available_governors cpu_id in
  BestEffort.get_cpu_available_governors cpu_id s =
    if opens s path then (Return (String.words (strip_newline (slurp s path))), s)
    else (Return [],
          printed s ("Error: Cannot get cpu" +:+ to_string cpu_id +:+
                     " available governors because " +:+ path +:+ " does not exist.")).
Proof.
  intros Hroot path. unfold BestEffort.get_cpu_available_governors.
  rewrite (bind_Return _ _ _ _ _ (root_true s Hroot)). simpl.
  unfold bind, file_exists. fold (cpu_available_governors cpu_id). fold path.
  by destruct (opens s path).
Qed.

(** A value found in what the frequencies getter returns is found again
    after the target file was opened for writing. *)
Lemma available_freq_after_open (s : system) (cpu_id value : Z) (name : string)
    (avail : list Z) :
  euid s = 0 →
  cpu_available_frequencies cpu_id ≠ name →
  fst (BestEffort.get_cpu_available_freqs cpu_id s) = Return avail →
  value ∈ avail →
  BestEffort.get_cpu_available_freqs cpu_id (opened s name) = (Return avail, opened s name) ∧
  avail ≠ [].
Proof.
  intros Hroot Hname Havail Hin.
  rewrite (get_cpu_available_freqs_best_effort s cpu_id Hroot) in Havail.
  rewrite (get_cpu_available_freqs_best_effort (opened s name) cpu_id Hroot).
  destruct (opens_opened s name (cpu_available_frequencies cpu_id)) as [-> _].
  rewrite slurp_opened_other by done.
  destruct (opens s (cpu_available_frequencies cpu_id)).
  - destruct (parse_longs (slurp s (cpu_available_frequencies cpu_id))) eqn:Hp;
      simpl in Havail; simplify_eq; [by apply elem_of_nil in Hin|].
    split; [done|]. intros E. rewrite E in Hin. by apply elem_of_nil in Hin.
  - simpl in Havail. simplify_eq. by apply elem_of_nil in Hin.
Qed.

Lemma nonempty_length {A} (l : list A) : l ≠ [] → bool_decide (List.length l = 0%nat) = false.
Proof. intros H. apply bool_decide_eq_false_2. by destruct l. Qed.

Lemma found_true {A} `{EqDecision A} (x : A) (l : list A) : x ∈ l → found x l = true.
Proof. intros H. by apply bool_decide_eq_true_2. Qed.

Lemma found_false {A} `{EqDecision A} (x : A) (l : list A) : x ∉ l → found x l = false.
Proof. intros H. by apply bool_decide_eq_false_2. Qed.

(** C9 (as amended).  In the boolean header [set_emc_freq], [set_cpu_min_freq],
    [set_cpu_max_freq] and [set_cpu_governor] return [true] whenever every
    check that precedes their writes passes: the caller is root; the EMC
    family is tegra186 or tegra210; the per-CPU target file can be opened
    for writing (for the governor: exists); the value is in the range or set
    that the getter returns.  The flag [success] that the writes accumulate
    is computed and dropped: the result is [true] whatever its value, so
    also when writes fail. *)
Theorem setters_discard_write_failures (s : system) (cpu_id value : Z) (governor : string) :
  euid s = 0 →
  (∀ family lo hi,
     fst (BestEffort.get_soc_family s) = Return family →
     family = "tegra186" ∨ family = "tegra210" →
     fst (BestEffort.get_emc_available_freq_range s) = Return (lo, hi) →
     lo ≤ value ≤ hi →
     ∃ update override success s',
       BestEffort.EMC_PATHS family = Some (update, override) ∧
       BestEffort.emc_writes update override value s = (Return success, s') ∧
       BestEffort.set_emc_freq value s = (Return true, s')) ∧
  (∀ avail,
     opens s (cpu_min_freq_path cpu_id) && opens_w s (cpu_min_freq_path cpu_id) = true →
     fst (BestEffort.get_cpu_available_freqs cpu_id s) = Return avail →
     value ∈ avail →
     ∃ success s',
       BestEffort.cpu_writes (cpu_min_freq_path cpu_id) (to_string value)
         (opened s (cpu_min_freq_path cpu_id)) = (Return success, s') ∧
       BestEffort.set_cpu_min_freq cpu_id value s = (Return true, s')) ∧
  (∀ avail,
     opens s (cpu_max_freq_path cpu_id) && opens_w s (cpu_max_freq_path cpu_id) = true →
     fst (BestEffort.get_cpu_available_freqs cpu_id s) = Return avail →
     value ∈ avail →
     ∃ success s',
       BestEffort.cpu_writes (cpu_max_freq_path cpu_id) (to_string value)
         (opened s (cpu_max_freq_path cpu_id)) = (Return success, s') ∧
       BestEffort.set_cpu_max_freq cpu_id value s = (Return true, s')) ∧
  (∀ avail,
     opens s (cpu_governor_path cpu_id) = true →
     fst (BestEffort.get_cpu_available_governors cpu_id s) = Return avail →
     governor ∈ avail →
     ∃ success s',
       BestEffort.cpu_writes (cpu_governor_path cpu_id) governor s = (Return success, s') ∧
       BestEffort.set_cpu_governor cpu_id governor s = (Return true, s')).
Proof.
  intros Hroot. repeat split.
  - intros family lo hi Hfam Hsup Hrange Hin.
    apply family_eval_best_effort in Hfam.
    assert (∃ update override, BestEffort.EMC_PATHS family = Some (update, override))
      as (update & override & Hpaths).
    { destruct Hsup as [-> | ->]; by eexists _, _. }
    assert (BestEffort.get_emc_available_freq_range s = (Return (lo, hi), s)) as Hr.
    { revert Hrange. unfold BestEffort.get_emc_available_freq_range.
      rewrite (bind_Return _ _ _ _ _ (root_true s Hroot)). simpl.
      rewrite (bind_Return _ _ _ _ _ Hfam).
      unfold bind, read_file, lift, ret.
      destruct Hsup as [-> | ->]; simpl;
        repeat (case_match; simplify_eq/=); try done; congruence. }
    destruct (emc_writes_returns update override value s) as (success & s' & Hw).
    exists update, override, success, s'. split; [done|]. split; [done|].
    unfold BestEffort.set_emc_freq.
    rewrite (bind_Return _ _ _ _ _ (root_true s Hroot)). simpl.
    rewrite (bind_Return _ _ _ _ _ Hr). cbv beta iota.
    rewrite !bool_decide_eq_false_2 by lia. simpl.
    rewrite (bind_Return _ _ _ _ _ Hfam), Hpaths.
    by rewrite (bind_Return _ _ _ _ _ Hw).
  - intros avail Htarget Havail Hin.
    destruct (file_writable_cases (cpu_min_freq_path cpu_id) s) as [[E _] | [_ Hw]];
      [congruence|].
    destruct (available_freq_after_open s cpu_id value (cpu_min_freq_path cpu_id) avail
                Hroot (proj1 (available_frequencies_is_no_target cpu_id)) Havail Hin)
      as [Hget Hne].
    destruct (cpu_writes_returns (cpu_min_freq_path cpu_id) (to_string value)
                (opened s (cpu_min_freq_path cpu_id))) as (success & s' & Hcw).
    exists success, s'. split; [done|].
    unfold BestEffort.set_cpu_min_freq.
    rewrite (bind_Return _ _ _ _ _ (root_true s Hroot)). simpl.
    fold (cpu_min_freq_path cpu_id).
    rewrite (bind_Return _ _ _ _ _ Hw). simpl.
    rewrite (bind_Return _ _ _ _ _ Hget).
    rewrite (nonempty_length _ Hne), (found_true _ _ Hin). simpl.
    by rewrite (bind_Return _ _ _ _ _ Hcw).
  - intros avail Htarget Havail Hin.
    destruct (file_writable_cases (cpu_max_freq_path cpu_id) s) as [[E _] | [_ Hw]];
      [congruence|].
    destruct (available_freq_after_open s cpu_id value (cpu_max_freq_path cpu_id) avail
                Hroot (proj2 (available_frequencies_is_no_target cpu_id)) Havail Hin)
      as [Hget Hne].
    destruct (cpu_writes_returns (cpu_max_freq_path cpu_id) (to_string value)
                (opened s (cpu_max_freq_path cpu_id))) as (success & s' & Hcw).
    exists success, s'. split; [done|].
    unfold BestEffort.set_cpu_max_freq.
    rewrite (bind_Return _ _ _ _ _ (root_true s Hroot)). simpl.
    fold (cpu_max_freq_path cpu_id).
    rewrite (bind_Return _ _ _ _ _ Hw). simpl.
    rewrite (bind_Return _ _ _ _ _ Hget).
    rewrite (nonempty_length _ Hne), (found_true _ _ Hin). simpl.
    by rewrite (bind_Return _ _ _ _ _ Hcw).
  - intros avail Htarget Havail Hin.
    assert (BestEffort.get_cpu_available_governors cpu_id s = (Return avail, s) ∧ avail ≠ [])
      as [Hget Hne].
    { rewrite (get_cpu_available_governors_best_effort s cpu_id Hroot) in Havail |- *.
      destruct (opens s (cpu_available_governors cpu_id)); simpl in Havail; simplify_eq.
      - split; [done|]. intros E. rewrite E in Hin. by apply elem_of_nil in Hin.
      - by apply elem_of_nil in Hin. }
    destruct (cpu_writes_returns (cpu_governor_path cpu_id) governor s)
      as (success & s' & Hcw).
    exists success, s'. split; [done|].
    unfold BestEffort.set_cpu_governor.
    rewrite (bind_Return _ _ _ _ _ (root_true s Hroot)). simpl.
    fold (cpu_governor_path cpu_id).
    unfold bind at 1, file_exists at 1. rewrite Htarget. simpl.
    rewrite (bind_Return _ _ _ _ _ Hget).
    rewrite (nonempty_length _ Hne), (found_true _ _ Hin). simpl.
    by rewrite (bind_Return _ _ _ _ _ Hcw).
Qed.

(** On the board of scenario B no control file accepts a write: both
    writes of [set_emc_freq] fail, the flag is [false], the result [true].
    On the TX2 the QoS and cluster-idle files are missing: those writes
    fail, the flag is [false], and [set_cpu_min_freq] returns [true]. *)
Lemma setters_discard_write_failures_witness :
  (BestEffort.emc_writes "/sys/kernel/debug/bpmp/debug/clk/emc/rate"
     "/sys/kernel/debug/bpmp/debug/clk/emc/mrq_rate_locked" 100 tx2_capped =
     (Return false, tx2_capped) ∧
   BestEffort.set_emc_freq 100 tx2_capped = (Return true, tx2_capped)) ∧
  (∃ s', BestEffort.cpu_writes (cpu_min_freq_path 0) (to_string 345600)
           (opened tx2 (cpu_min_freq_path 0)) = (Return false, s') ∧
         BestEffort.set_cpu_min_freq 0 345600 tx2 = (Return true, s')).
Proof.
  split.
  - destruct (setters_discard_write_failures tx2_capped 0 100 "" eq_refl) as (H & _).
    destruct (H "tegra186" 40 300) as (update & override & success & s' & Hp & Hw & Hs).
    + vm_compute. reflexivity.
    + by left.
    + vm_compute. reflexivity.
    + lia.
    + vm_compute in Hp. injection Hp as <- <-.
      assert (BestEffort.emc_writes "/sys/kernel/debug/bpmp/debug/clk/emc/rate"
                "/sys/kernel/debug/bpmp/debug/clk/emc/mrq_rate_locked" 100 tx2_capped =
              (Return false, tx2_capped)) as E by (vm_compute; reflexivity).
      rewrite E in Hw. injection Hw as <- <-. split; [exact E | exact Hs].
  - destruct (setters_discard_write_failures tx2 0 345600 "" eq_refl) as (_ & H & _).
    destruct (H [345600; 2035200]) as (success & s' & Hw & Hs).
    + vm_compute. reflexivity.
    + vm_compute. reflexivity.
    + apply elem_of_cons. by left.
    + assert (fst (BestEffort.cpu_writes (cpu_min_freq_path 0) (to_string 345600)
                     (opened tx2 (cpu_min_freq_path 0))) = Return false) as E
        by (vm_compute; reflexivity).
      rewrite Hw in E. simpl in E. injection E as ->.
      exists s'. split; [exact Hw | exact Hs].
Defined.

(** C9, counterexample.  With no identification file the EMC range is
    (0, 0); for a root caller the request 0 passes the privilege check and
    the range check, yet [set_emc_freq] returns [false] from its
    unsupported-SOC branch. *)
Lemma set_emc_freq_unsupported_returns_false :
  euid blank = 0 ∧
  fst (BestEffort.get_emc_available_freq_range blank) = Return (0, 0) ∧
  0 ≤ 0 ≤ 0 ∧
  fst (BestEffort.set_emc_freq 0 blank) = Return false.
Proof. repeat split; done. Qed.

(** * Rejected requests *)

Lemma writes_app (t1 t2 : list event) : writes (t1 ++ t2) = (writes t1 ++ writes t2)%list.
Proof. unfold writes. apply filter_app. Qed.

Lemma quiet_refl (s : system) : quiet s s.
Proof. by unfold quiet. Qed.

Lemma quiet_trans (s1 s2 s3 : system) : quiet s1 s2 → quiet s2 s3 → quiet s1 s3.
Proof. unfold quiet. intros (-> & -> & -> & ->) (-> & -> & -> & ->). done. Qed.

Lemma quiet_printed (s : system) (text : string) : quiet s (printed s text).
Proof.
  unfold quiet, printed. simpl. repeat split.
  rewrite writes_app. simpl. by rewrite app_nil_r.
Qed.


Lemma probed_root (r : request) (s : system) :
  euid s = 0 →
  probed r s =
    match r with
    | CpuMinFreq cpu_id _ => probe s (cpu_min_freq_path cpu_id)
    | CpuMaxFreq cpu_id _ => probe s (cpu_max_freq_path cpu_id)
    | GpuFreqRange _ _ | EmcFreq _ | CpuGovernor _ _ => s
    end.
Proof. intros Hroot. unfold probed. by rewrite bool_decide_eq_true_2. Qed.


Lemma print_quiet (s : system) (text : string) :
  print text s = (Return tt, printed s text).
Proof. reflexivity. Qed.

Lemma print_each_quiet {A} (f : A → string) (v : list A) (s : system) :
  ∃ s', BestEffort.print_each f v s = (Return tt, s') ∧ quiet s s'.
Proof.
  revert s. induction v as [|x v IH]; intros s; simpl.
  - exists s. split; [done | apply quiet_refl].
  - rewrite (bind_Return _ _ _ _ _ (print_quiet s (f x))).
    destruct (IH (printed s (f x))) as (s' & -> & Hq).
    exists s'. split; [done|]. eapply quiet_trans; [apply quiet_printed | done].
Qed.

(** ** The getters of the exception-throwing header read only *)


Lemma EMC_RANGE_PATHS_reads (family : string) (s : system) :
  snd (Signal.EMC_RANGE_PATHS family s) = s.
Proof.
  unfold Signal.EMC_RANGE_PATHS, bind, read_file, lift, ret, throw.
  repeat (case_match; simplify_eq/=); done.
Qed.

Lemma get_emc_available_freqs_reads (s : system) :
  snd (Signal.get_emc_available_freqs s) = s.
Proof.
  unfold Signal.get_emc_available_freqs, running_as_root.
  unfold bind at 1. destruct (bool_decide (euid s = 0)); simpl; [|done].
  pose proof (get_soc_family_reads_signal s) as Hf.
  unfold bind at 1. destruct (Signal.get_soc_family s) as [[family|e] s1];
    simpl in Hf; subst s1; [|done].
  pose proof (EMC_RANGE_PATHS_reads family s) as Hp.
  unfold bind at 1. destruct (Signal.EMC_RANGE_PATHS family s) as [[[lo hi]|e] s1];
    simpl in Hp; subst s1; [|done].
  unfold bind, read_file, lift, ret.
  repeat (case_match; simplify_eq/=); done.
Qed.


(** The per-CPU getters of the exception-throwing header, for root. *)
Lemma get_cpu_available_freqs_signal (s : system) (cpu_id : Z) :
  euid s = 0 →
  let path := cpu_available_frequencies cpu_id in
  Signal.get_cpu_available_freqs cpu_id s =
    if opens s path then (Return (sort (parse_longs (slurp s path))), s)
    else thrown s ("cannot get cpu available frequencies because " +:+ path +:+
                   " does not exist.").
Proof.
  intros Hroot path. unfold Signal.get_cpu_available_freqs.
  rewrite (bind_Return _ _ _ _ _ (root_true s Hroot)). simpl.
  unfold bind, file_exists. fold (cpu_available_frequencies cpu_id). fold path.
  by destruct (opens s path).
Qed.

Lemma get_cpu_available_governors_signal (s : system) (cpu_id : Z) :
  euid s = 0 →
  let path := cpu_available_governors cpu_id in
  Signal.get_cpu_available_governors cpu_id s =
    if opens s path then (Return (String.words (strip_newline (slurp s path))), s)
    else thrown s ("cannot look up CPU available governors because " +:+ path +:+
                   " does not exist.").
Proof.
  intros Hroot path. unfold Signal.get_cpu_available_governors.
  rewrite (bind_Return _ _ _ _ _ (root_true s Hroot)). simpl.
  unfold bind, file_exists. fold (cpu_available_governors cpu_id). fold path.
  by destruct (opens s path).
Qed.



(** ** The getters of the boolean header open and print at most *)

Lemma get_gpu_available_freqs_quiet (s : system) :
  ∃ avail s', BestEffort.get_gpu_available_freqs s = (Return avail, s') ∧ quiet s s'.
Proof.
  unfold BestEffort.get_gpu_available_freqs, running_as_root.
  unfold bind at 1. destruct (bool_decide (euid s = 0)); simpl.
  - destruct (get_soc_family_returns_best_effort s) as [family Hf].
    rewrite (bind_Return _ _ _ _ _ Hf).
    destruct (BestEffort.GPU_AVAILABLE_FREQS family).
    + eexists _, s. split; [reflexivity | apply quiet_refl].
    + eexists _, _. split; [reflexivity | apply quiet_printed].
  - eexists _, _. split; [reflexivity | apply quiet_printed].
Qed.

Lemma get_emc_available_freq_range_quiet (s : system) :
  ∃ o s', BestEffort.get_emc_available_freq_range s = (o, s') ∧ quiet s s'.
Proof.
  unfold BestEffort.get_emc_available_freq_range, running_as_root.
  unfold bind at 1. destruct (bool_decide (euid s = 0)); simpl.
  - destruct (get_soc_family_returns_best_effort s) as [family Hf].
    rewrite (bind_Return _ _ _ _ _ Hf).
    unfold bind, read_file, lift, ret, print, emit.
    repeat (case_match; simplify_eq/=);
      first [ by eexists _, s; split; [reflexivity | apply quiet_refl]
            | eexists _, _; split; [reflexivity | apply quiet_printed] ].
  - eexists _, _. split; [reflexivity | apply quiet_printed].
Qed.

Lemma get_cpu_available_freqs_quiet (s : system) (cpu_id : Z) :
  ∃ avail s', BestEffort.get_cpu_available_freqs cpu_id s = (Return avail, s') ∧ quiet s s'.
Proof.
  destruct (decide (euid s = 0)) as [Hroot | Hguest].
  - rewrite (get_cpu_available_freqs_best_effort s cpu_id Hroot).
    repeat case_match;
      first [ by eexists _, s; split; [reflexivity | apply quiet_refl]
            | eexists _, _; split; [reflexivity | apply quiet_printed] ].
  - destruct (root_required_best_effort s 0 0 0 cpu_id "" Hguest)
      as (_ & _ & _ & _ & _ & _ & _ & _ & -> & _).
    eexists _, _. split; [reflexivity | apply quiet_printed].
Qed.

Lemma get_cpu_available_governors_quiet (s : system) (cpu_id : Z) :
  ∃ avail s', BestEffort.get_cpu_available_governors cpu_id s = (Return avail, s') ∧
              quiet s s'.
Proof.
  destruct (decide (euid s = 0)) as [Hroot | Hguest].
  - rewrite (get_cpu_available_governors_best_effort s cpu_id Hroot).
    case_match;
      first [ by eexists _, s; split; [reflexivity | apply quiet_refl]
            | eexists _, _; split; [reflexivity | apply quiet_printed] ].
  - destruct (root_required_best_effort s 0 0 0 cpu_id "" Hguest)
      as (_ & _ & _ & _ & _ & _ & _ & _ & _ & -> & _).
    eexists _, _. split; [reflexivity | apply quiet_printed].
Qed.

(** What the frequencies getter returns does not depend on the trace, nor on
    a file other than the one it reads. *)
Lemma get_cpu_available_freqs_opened (s : system) (cpu_id : Z) (name : string) :
  cpu_available_frequencies cpu_id ≠ name →
  fst (BestEffort.get_cpu_available_freqs cpu_id (opened s name)) =
  fst (BestEffort.get_cpu_available_freqs cpu_id s).
Proof.
  intros Hname.
  destruct (decide (euid s = 0)) as [Hroot | Hguest].
  - rewrite (get_cpu_available_freqs_best_effort s cpu_id Hroot).
    rewrite (get_cpu_available_freqs_best_effort (opened s name) cpu_id Hroot).
    destruct (opens_opened s name (cpu_available_frequencies cpu_id)) as [-> _].
    rewrite slurp_opened_other by done.
    by repeat case_match.
  - destruct (root_required_best_effort s 0 0 0 cpu_id "" Hguest)
      as (_ & _ & _ & _ & _ & _ & _ & _ & -> & _).
    assert (euid (opened s name) ≠ 0) as Hguest' by done.
    destruct (root_required_best_effort (opened s name) 0 0 0 cpu_id "" Hguest')
      as (_ & _ & _ & _ & _ & _ & _ & _ & -> & _).
    done.
Qed.

Ltac quiet_chain :=
  match goal with
  | |- quiet ?s ?s => apply quiet_refl
  | H : quiet ?s ?s' |- quiet ?s ?s' => exact H
  | |- quiet ?s (printed ?s' ?t) =>
      apply (quiet_trans s s'); [quiet_chain | apply quiet_printed]
  | H : quiet ?s1 ?s' |- quiet ?s ?s' =>
      apply (quiet_trans s s1); [quiet_chain | exact H]
  end.

Ltac finish_quiet :=
  repeat match goal with
         | |- context [bind (print ?t) _ ?s] =>
             rewrite (bind_Return _ _ _ _ _ (print_quiet s t))
         | |- context [bind (BestEffort.print_each ?f ?v) _ ?s] =>
             let s' := fresh "s" in
             let Hp := fresh "Hp" in
             let Hq := fresh "Hq" in
             destruct (print_each_quiet f v s) as (s' & Hp & Hq);
             rewrite (bind_Return _ _ _ _ _ Hp)
         end;
  eexists; split; [reflexivity | quiet_chain].

(** The boolean setters reject an unavailable value without a write. *)
Lemma best_effort_rejects (r : request) (s : system) :
  best_effort_unavailable r s →
  ∃ s', best_effort_set r s = (Return false, s') ∧ quiet (probed r s) s'.
Proof.
  destruct (decide (euid s = 0)) as [Hroot | Hguest].
  2:{ intros _. unfold probed. rewrite bool_decide_eq_false_2 by done.
      destruct r; simpl;
        [ destruct (root_required_best_effort s 0 min_freq max_freq 0 "" Hguest)
            as (_ & _ & _ & -> & _)
        | destruct (root_required_best_effort s 0 freq 0 0 "" Hguest)
            as (_ & _ & _ & _ & _ & _ & -> & _)
        | destruct (root_required_best_effort s 0 min_freq 0 cpu_id "" Hguest)
            as (_ & _ & _ & _ & _ & _ & _ & _ & _ & _ & _ & _ & _ & _ & -> & _)
        | destruct (root_required_best_effort s 0 max_freq 0 cpu_id "" Hguest)
            as (_ & _ & _ & _ & _ & _ & _ & _ & _ & _ & _ & _ & _ & _ & _ & -> & _)
        | destruct (root_required_best_effort s 0 0 0 cpu_id governor Hguest)
            as (_ & _ & _ & _ & _ & _ & _ & _ & _ & _ & _ & _ & _ & _ & _ & _ & ->) ];
        eexists; (split; [reflexivity | apply quiet_printed]). }
  pose proof (root_true s Hroot) as Hr.
  rewrite (probed_root r s Hroot).
  destruct r as [a b | freq | cpu_id freq | cpu_id freq | cpu_id governor]; simpl.
  - intros (avail & Havail & Hnot).
    destruct (get_gpu_available_freqs_quiet s) as (avail' & s1 & Hget & Hq).
    rewrite Hget in Havail. simpl in Havail. simplify_eq.
    unfold BestEffort.set_gpu_freq_range.
    rewrite (bind_Return _ _ _ _ _ Hr). simpl.
    rewrite (bind_Return _ _ _ _ _ Hget).
    destruct (decide (a ∈ avail)) as [Ha | Ha].
    + destruct Hnot as [? | Hb]; [done|].
      rewrite (found_true _ _ Ha), (found_false _ _ Hb). simpl. finish_quiet.
    + rewrite (found_false _ _ Ha). simpl. finish_quiet.
  - intros (lo & hi & Havail & Hnot).
    destruct (get_emc_available_freq_range_quiet s) as (o & s1 & Hget & Hq).
    rewrite Hget in Havail. simpl in Havail. subst o.
    unfold BestEffort.set_emc_freq.
    rewrite (bind_Return _ _ _ _ _ Hr). simpl.
    rewrite (bind_Return _ _ _ _ _ Hget). cbv beta iota.
    assert (bool_decide (freq < lo) || bool_decide (freq > hi) = true) as ->.
    { destruct Hnot; repeat case_bool_decide; simpl; try done; lia. }
    finish_quiet.
  - intros (avail & Havail & Hnot).
    unfold BestEffort.set_cpu_min_freq.
    rewrite (bind_Return _ _ _ _ _ Hr). simpl.
    fold (cpu_min_freq_path cpu_id).
    rewrite (bind_Return _ _ _ _ _ (file_writable_probe (cpu_min_freq_path cpu_id) s)).
    unfold probe. fold (can_write s (cpu_min_freq_path cpu_id)).
    destruct (can_write s (cpu_min_freq_path cpu_id)); simpl; [|finish_quiet].
    destruct (get_cpu_available_freqs_quiet (opened s (cpu_min_freq_path cpu_id)) cpu_id)
      as (avail' & s1 & Hget & Hq).
    pose proof (get_cpu_available_freqs_opened s cpu_id (cpu_min_freq_path cpu_id)
                  (proj1 (available_frequencies_is_no_target cpu_id))) as Hsame.
    rewrite Hget, Havail in Hsame. simpl in Hsame. simplify_eq.
    rewrite (bind_Return _ _ _ _ _ Hget).
    destruct (bool_decide (List.length avail = 0%nat)); [finish_quiet|].
    rewrite (found_false _ _ Hnot). simpl. finish_quiet.
  - intros (avail & Havail & Hnot).
    unfold BestEffort.set_cpu_max_freq.
    rewrite (bind_Return _ _ _ _ _ Hr). simpl.
    fold (cpu_max_freq_path cpu_id).
    rewrite (bind_Return _ _ _ _ _ (file_writable_probe (cpu_max_freq_path cpu_id) s)).
    unfold probe. fold (can_write s (cpu_max_freq_path cpu_id)).
    destruct (can_write s (cpu_max_freq_path cpu_id)); simpl; [|finish_quiet].
    destruct (get_cpu_available_freqs_quiet (opened s (cpu_max_freq_path cpu_id)) cpu_id)
      as (avail' & s1 & Hget & Hq).
    pose proof (get_cpu_available_freqs_opened s cpu_id (cpu_max_freq_path cpu_id)
                  (proj2 (available_frequencies_is_no_target cpu_id))) as Hsame.
    rewrite Hget, Havail in Hsame. simpl in Hsame. simplify_eq.
    rewrite (bind_Return _ _ _ _ _ Hget).
    destruct (bool_decide (List.length avail = 0%nat)); [finish_quiet|].
    rewrite (found_false _ _ Hnot). simpl. finish_quiet.
  - intros (avail & Havail & Hnot).
    unfold BestEffort.set_cpu_governor.
    rewrite (bind_Return _ _ _ _ _ Hr). simpl.
    fold (cpu_governor_path cpu_id).
    unfold bind at 1, file_exists at 1.
    destruct (opens s (cpu_governor_path cpu_id)); simpl; [|finish_quiet].
    destruct (get_cpu_available_governors_quiet s cpu_id) as (avail' & s1 & Hget & Hq).
    rewrite Hget in Havail. simpl in Havail. simplify_eq.
    rewrite (bind_Return _ _ _ _ _ Hget).
    destruct (bool_decide (List.length avail = 0%nat)); [finish_quiet|].
    rewrite (found_false _ _ Hnot). simpl. finish_quiet.
Qed.




(** Membership in a list that is computed from a concrete file: the file is
    looked up, the extraction loop run by need (its [let] would otherwise be
    evaluated at every character), and the element found in the result. *)
Ltac listed :=
  let E := fresh "E" in
  match goal with
  | |- _ ∈ parse_longs ?text =>
      let literal := eval vm_compute in text in
      assert (text = literal) as E by (vm_compute; reflexivity);
      rewrite E; clear E;
      let parsed := eval lazy in (parse_longs literal) in
      assert (parse_longs literal = parsed) as E by (lazy; reflexivity);
      rewrite E; clear E;
      repeat constructor
  | |- _ ∈ ?l =>
      let l' := eval vm_compute in l in
      assert (l = l') as E by (vm_compute; reflexivity);
      rewrite E; clear E;
      repeat constructor
  end.

(** * Further properties: the file primitives *)

Lemma write_file_attempt (name str : string) (s : system) :
  write_file name str s = (Return (can_write s name), attempt s name str).
Proof.
  unfold attempt, can_write.
  destruct (write_file_cases name str s) as [[-> ->] | [-> ->]]; reflexivity.
Qed.

Lemma opens_attempt (s : system) (name str any : string) :
  opens (attempt s name str) any = opens s any ∧
  opens_w (attempt s name str) any = opens_w s any.
Proof.
  unfold attempt. destruct (can_write s name); [|done].
  unfold opens, opens_w, wrote. simpl.
  destruct (decide (name = any)) as [-> | Hne].
  - rewrite lookup_alter_eq. by destruct (files s !! any).
  - by rewrite lookup_alter_ne.
Qed.

Lemma slurp_attempt_other (s : system) (name str other : string) :
  other ≠ name → slurp (attempt s name str) other = slurp s other.
Proof.
  intros Hne. unfold attempt. destruct (can_write s name); [|done].
  unfold slurp, wrote. simpl. by rewrite lookup_alter_ne.
Qed.

Lemma slurp_attempt_same (s : system) (name str : string) :
  can_write s name = true → slurp (attempt s name str) name = str.
Proof.
  intros Hw. unfold attempt. rewrite Hw.
  unfold can_write, opens in Hw. unfold slurp, wrote. simpl.
  rewrite lookup_alter_eq.
  destruct (files s !! name) as [f|]; simpl in *; [|done].
  by destruct (readable f).
Qed.

Lemma euid_attempt (s : system) (name str : string) :
  euid (attempt s name str) = euid s.
Proof. unfold attempt. by destruct (can_write s name). Qed.

Lemma writes_attempt (s : system) (name str : string) :
  writes (trace (attempt s name str)) =
  (writes (trace s) ++ if can_write s name then [Write name str] else [])%list.
Proof.
  unfold attempt. destruct (can_write s name); simpl.
  - by rewrite writes_app.
  - by rewrite app_nil_r.
Qed.

(** X1.  [write_file] succeeds exactly when the file can be opened for
    reading and for writing.  Then the file reads back as the string
    written and the trace gains that one write; otherwise nothing changes
    at all.  In both cases every other file reads as before, and which
    files can be opened, for reading or for writing, is unchanged. *)
Theorem write_file_outcome (name str : string) (s : system) :
  ∃ s', write_file name str s = (Return (can_write s name), s') ∧
    euid s' = euid s ∧
    (∀ any, opens s' any = opens s any ∧ opens_w s' any = opens_w s any) ∧
    (∀ other, other ≠ name → slurp s' other = slurp s other) ∧
    (can_write s name = true →
       slurp s' name = str ∧
       writes (trace s') = (writes (trace s) ++ [Write name str])%list) ∧
    (can_write s name = false → s' = s).
Proof.
  exists (attempt s name str). split; [apply write_file_attempt|].
  split; [apply euid_attempt|]. split; [intros; apply opens_attempt|].
  split; [intros; by apply slurp_attempt_other|]. split.
  - intros Hw. split; [by apply slurp_attempt_same|].
    by rewrite writes_attempt, Hw.
  - intros Hw. unfold attempt. by rewrite Hw.
Qed.

Lemma write_file_outcome_witness :
  ∃ s', write_file "/sys/kernel/debug/tegra_fan/target_pwm" "255" tk1 = (Return true, s') ∧
    slurp s' "/sys/kernel/debug/tegra_fan/target_pwm" = "255" ∧
    slurp s' "/proc/device-tree/model" = "jetson-tk1" ∧
    writes (trace s') = [Write "/sys/kernel/debug/tegra_fan/target_pwm" "255"].
Proof.
  destruct (write_file_outcome "/sys/kernel/debug/tegra_fan/target_pwm" "255" tk1)
    as (s' & Hw & _ & _ & Hother & Hsame & _).
  exists s'. split; [exact Hw|].
  destruct (Hsame eq_refl) as [Hread Htrace].
  split; [exact Hread|]. split; [|exact Htrace].
  rewrite Hother; [reflexivity | discriminate].
Defined.

(** * Further properties: governor names *)

Lemma append_cons (c : ascii) (s t : string) : String c s +:+ t = String c (s +:+ t).
Proof. reflexivity. Qed.

Lemma chars_app (s t : string) : chars (s +:+ t) = (chars s ++ chars t)%list.
Proof.
  induction s as [|c s IH]; [reflexivity|].
  rewrite append_cons. unfold chars in *. simpl. by rewrite IH.
Qed.

Lemma strip_newline_chars (input : string) :
  chars (strip_newline input) = filter (λ c, ¬ is_newline c) (chars input).
Proof.
  unfold chars, is_newline. induction input as [|c rest IH]; [reflexivity|].
  simpl. rewrite filter_cons. case_bool_decide; case_decide; try done; simpl.
  by rewrite IH.
Qed.

Lemma chars_inj (s t : string) : chars s = chars t → s = t.
Proof.
  unfold chars. intros H.
  rewrite <- (string_of_list_ascii_of_string s), <- (string_of_list_ascii_of_string t).
  by rewrite H.
Qed.

Lemma strip_newline_app (a b : string) :
  strip_newline (a +:+ b) = strip_newline a +:+ strip_newline b.
Proof.
  apply chars_inj. by rewrite chars_app, !strip_newline_chars, chars_app, filter_app.
Qed.

Lemma strip_newline_clean (str : string) :
  Forall (λ c, ¬ is_newline c) (chars str) → strip_newline str = str.
Proof.
  intros H. apply chars_inj. rewrite strip_newline_chars.
  induction H as [|c l Hc Hl IH]; [done|].
  by rewrite filter_cons_True, IH.
Qed.

(** X2.  [strip_newline] deletes every newline character of its input, not
    only a trailing one, and nothing else: what is left are the other
    characters in their order.  So the two sides of a newline are joined
    without a separator, and a string without newlines is returned as it
    is. *)
Theorem strip_newline_deletes_newlines (input : string) :
  chars (strip_newline input) = filter (λ c, ¬ is_newline c) (chars input) ∧
  Forall (λ c, ¬ is_newline c) (chars (strip_newline input)) ∧
  (∀ a b, input = a +:+ endl +:+ b →
     strip_newline input = strip_newline a +:+ strip_newline b) ∧
  (Forall (λ c, ¬ is_newline c) (chars input) → strip_newline input = input).
Proof.
  split; [apply strip_newline_chars|]. split.
  - rewrite strip_newline_chars. apply Forall_forall. intros c Hc.
    by apply list_elem_of_filter in Hc as [? _].
  - split; [|apply strip_newline_clean].
    intros a b ->. by rewrite !strip_newline_app.
Qed.

Lemma strip_newline_deletes_newlines_witness :
  strip_newline ("interactive" +:+ endl +:+ "powersave") =
    strip_newline "interactive" +:+ strip_newline "powersave" ∧
  strip_newline "performance" = "performance".
Proof.
  destruct (strip_newline_deletes_newlines ("interactive" +:+ endl +:+ "powersave"))
    as (_ & _ & Hjoin & _).
  destruct (strip_newline_deletes_newlines "performance") as (_ & _ & _ & Hclean).
  split.
  - by apply Hjoin.
  - apply Hclean. repeat constructor; unfold is_newline; discriminate.
Defined.

(** ** Splitting at white space *)

Lemma rev_app_app (w acc t : string) :
  String.rev_app (String.rev_app w acc) t = String.rev_app acc (w +:+ t).
Proof.
  revert acc t. induction w as [|c w IH]; intros acc t; [reflexivity|].
  simpl. rewrite IH. reflexivity.
Qed.

Lemma rev_rev_app (w : string) : String.rev (String.rev_app w "") = w.
Proof. unfold String.rev. rewrite rev_app_app. simpl. apply append_empty. Qed.

Lemma words_go_letters (w acc rest : string) :
  Forall (λ c, Ascii.is_space c = false) (chars w) →
  String.words_go (Some acc) (w +:+ rest) =
  String.words_go (Some (String.rev_app w acc)) rest.
Proof.
  revert acc. induction w as [|c w IH]; intros acc Hw; [reflexivity|].
  unfold chars in Hw. simpl in Hw. apply Forall_cons in Hw as [Hc Hw].
  rewrite append_cons. simpl. rewrite Hc. simpl. by apply IH.
Qed.

Lemma words_go_word (w rest : string) :
  is_word w →
  String.words_go None (w +:+ rest) =
  String.words_go (Some (String.rev_app w "")) rest.
Proof.
  intros [Hne Hw]. destruct w as [|c w]; [done|].
  unfold chars in Hw. simpl in Hw. apply Forall_cons in Hw as [Hc Hw].
  rewrite append_cons. simpl. rewrite Hc. simpl.
  by apply words_go_letters.
Qed.

Lemma words_one (w : string) : is_word w → String.words w = [w].
Proof.
  intros Hw. unfold String.words.
  rewrite <- (append_empty w) at 1. rewrite words_go_word by done.
  simpl. by rewrite rev_rev_app.
Qed.

Lemma words_two (v w : string) :
  is_word v → is_word w → String.words (v +:+ " " +:+ w) = [v; w].
Proof.
  intros Hv Hw. unfold String.words.
  rewrite words_go_word by done.
  change (" " +:+ w) with (String " " w). simpl.
  rewrite rev_rev_app. f_equal. by apply words_one.
Qed.

Lemma word_clean (w : string) :
  is_word w → Forall (λ c, ¬ is_newline c) (chars w).
Proof.
  intros [_ Hw]. eapply Forall_impl; [exact Hw|].
  intros c Hc. unfold is_newline. intros ->. discriminate Hc.
Qed.

Lemma word_app (v w : string) : is_word v → is_word w → is_word (v +:+ w).
Proof.
  intros [Hne Hv] [_ Hw]. split.
  - destruct v; [done | discriminate].
  - rewrite chars_app. by apply Forall_app.
Qed.

Lemma strip_newline_endl : strip_newline endl = "".
Proof. reflexivity. Qed.

(** X3.  The governors getter deletes the newlines of the file before it
    splits at white space (both headers).  Two names on one line,
    separated by a space, come back as two governors; two names on a line
    each come back as one governor, their concatenation. *)
Theorem governors_are_split_at_spaces_only (s : system) (cpu_id : Z) (v w : string) :
  euid s = 0 →
  opens s (cpu_available_governors cpu_id) = true →
  is_word v → is_word w →
  (slurp s (cpu_available_governors cpu_id) = v +:+ " " +:+ w +:+ endl →
     Signal.get_cpu_available_governors cpu_id s = (Return [v; w], s) ∧
     BestEffort.get_cpu_available_governors cpu_id s = (Return [v; w], s)) ∧
  (slurp s (cpu_available_governors cpu_id) = v +:+ endl +:+ w +:+ endl →
     Signal.get_cpu_available_governors cpu_id s = (Return [v +:+ w], s) ∧
     BestEffort.get_cpu_available_governors cpu_id s = (Return [v +:+ w], s)).
Proof.
  intros Hroot Hopen Hv Hw.
  rewrite (get_cpu_available_governors_signal s cpu_id Hroot).
  rewrite (get_cpu_available_governors_best_effort s cpu_id Hroot).
  rewrite Hopen.
  pose proof (strip_newline_clean v (word_clean v Hv)) as Ev.
  pose proof (strip_newline_clean w (word_clean w Hw)) as Ew.
  split; intros ->; rewrite !strip_newline_app, Ev, Ew, strip_newline_endl.
  - change (strip_newline " ") with " ". rewrite append_empty, words_two by done. done.
  - rewrite append_empty, words_one by (by apply word_app). done.
Qed.

Lemma governors_are_split_at_spaces_only_witness :
  Signal.get_cpu_available_governors 0 governed = (Return ["schedutilperformance"], governed) ∧
  BestEffort.get_cpu_available_governors 0 governed =
    (Return ["schedutilperformance"], governed).
Proof.
  destruct (governors_are_split_at_spaces_only governed 0 "schedutil" "performance")
    as [_ H].
  - reflexivity.
  - reflexivity.
  - split; [discriminate | repeat constructor].
  - split; [discriminate | repeat constructor].
  - apply H. reflexivity.
Defined.

(** * Further properties: directories and CPU identifiers *)

Lemma readdir_loop_sublist (entries : list (string * node)) :
  readdir_loop entries `sublist_of` (fst <$> entries).
Proof.
  induction entries as [|[d n] rest IH]; simpl; [constructor|].
  destruct (bool_decide (d = ".") || bool_decide (d = ".."));
    [by apply sublist_cons|].
  destruct (fstatat n) as [[| |]|]; simpl;
    first [by apply sublist_skip | by apply sublist_cons].
Qed.

(** X4.  The names that [list_subdirs] returns are in the order in which
    [readdir] delivers the entries, one name for each entry kept: they form
    a sublist of the entry names.  The call changes nothing. *)
Theorem list_subdirs_keeps_order (s : system) (path : string)
    (entries : list (string * node)) :
  dirs s !! path = Some entries →
  ∃ names, list_subdirs path s = (Return names, s) ∧
           names `sublist_of` (fst <$> entries).
Proof.
  intros H. unfold list_subdirs. rewrite H.
  eexists. split; [reflexivity | apply readdir_loop_sublist].
Qed.

Lemma list_subdirs_keeps_order_witness :
  ∃ names, list_subdirs "/sys/devices/system/cpu/" listing_system =
             (Return names, listing_system) ∧
           names `sublist_of` (fst <$> cpu_directory).
Proof.
  apply (list_subdirs_keeps_order listing_system "/sys/devices/system/cpu/").
  reflexivity.
Defined.










(** * Further properties: operations called without root *)

Lemma returning_Throw {A} (inject : A → value) (c : M A) (s : system) (message : string) :
  c s = thrown s message → returning inject c s = thrown s message.
Proof. intros H. unfold returning. by rewrite (bind_Throw _ _ _ _ _ H). Qed.

Lemma returning_Return {A} (inject : A → value) (c : M A) (s s' : system) (a : A) :
  c s = (Return a, s') → returning inject c s = (Return (inject a), s').
Proof. intros H. unfold returning. by rewrite (bind_Return _ _ _ _ _ H). Qed.

(** X6.  In the exception-throwing header each of the twenty operations
    that test [running_as_root] does so before anything else: called by a
    user other than root it throws a [JetsonClocksException] whose message
    names the missing root permissions, and the system is exactly as
    before, trace included. *)
Theorem signal_operations_need_root (o : operation) (s : system) :
  euid s ≠ 0 →
  ∃ message, signal_call o s = thrown s message ∧
             is_Some (find message "root permissions").
Proof.
  intros Hguest.
  destruct o as [speed| | |a b| | | | | |freq| |cpu_id|cpu_id|cpu_id|cpu_id|cpu_id|cpu_id
                |cpu_id freq|cpu_id freq|cpu_id governor].
  all: match goal with
       | |- context [SetFanSpeed ?v] =>
           pose proof (root_required_signal s v 0 0 0 "" Hguest) as H
       | |- context [SetGpuFreqRange ?a ?b] =>
           pose proof (root_required_signal s 0 a b 0 "" Hguest) as H
       | |- context [SetEmcFreq ?a] =>
           pose proof (root_required_signal s 0 a 0 0 "" Hguest) as H
       | |- context [SetCpuMinFreq ?c ?a] =>
           pose proof (root_required_signal s 0 a 0 c "" Hguest) as H
       | |- context [SetCpuMaxFreq ?c ?a] =>
           pose proof (root_required_signal s 0 a 0 c "" Hguest) as H
       | |- context [SetCpuGovernor ?c ?g] =>
           pose proof (root_required_signal s 0 0 0 c g Hguest) as H
       | |- context [signal_call (?op ?c)] =>
           pose proof (root_required_signal s 0 0 0 c "" Hguest) as H
       | |- _ => pose proof (root_required_signal s 0 0 0 0 "" Hguest) as H
       end.
  all: destruct H as (H1 & H2 & H3 & H4 & H5 & H6 & H7 & H8 & H9 & H10 & H11 & H12 &
                      H13 & H14 & H15 & H16 & H17 & H18 & H19 & H20).
  all: simpl; eexists; split;
    [ apply returning_Throw; eassumption | by vm_compute; eexists ].
Qed.

Lemma signal_operations_need_root_witness :
  ∃ message, signal_call (SetCpuGovernor 0 "performance") nano_guest =
               thrown nano_guest message ∧
             is_Some (find message "root permissions").
Proof. apply signal_operations_need_root. discriminate. Defined.

(** X7.  In the boolean header each of the seventeen operations that test
    [running_as_root] does so before anything else: called by a user other
    than root it prints one line that ends in [without running as root.],
    returns its empty value ([false], 0, (0, 0), an empty vector or string)
    and does nothing else. *)
Theorem best_effort_operations_need_root (o : operation) (c : M value) (s : system) :
  best_effort_call o = Some c →
  euid s ≠ 0 →
  ∃ v text, c s = (Return v, printed s text) ∧ is_empty_value v ∧
            is_Some (find text ("without running as root." +:+ endl)).
Proof.
  intros Hc Hguest.
  destruct o as [speed| | |a b| | | | | |freq| |cpu_id|cpu_id|cpu_id|cpu_id|cpu_id|cpu_id
                |cpu_id freq|cpu_id freq|cpu_id governor];
    simpl in Hc; simplify_eq.
  all: match goal with
       | |- context [BestEffort.set_fan_speed ?v] =>
           pose proof (root_required_best_effort s v 0 0 0 "" Hguest) as H
       | |- context [BestEffort.set_gpu_freq_range ?a ?b] =>
           pose proof (root_required_best_effort s 0 a b 0 "" Hguest) as H
       | |- context [BestEffort.set_emc_freq ?a] =>
           pose proof (root_required_best_effort s 0 a 0 0 "" Hguest) as H
       | |- context [BestEffort.set_cpu_min_freq ?c ?a] =>
           pose proof (root_required_best_effort s 0 a 0 c "" Hguest) as H
       | |- context [BestEffort.set_cpu_max_freq ?c ?a] =>
           pose proof (root_required_best_effort s 0 a 0 c "" Hguest) as H
       | |- context [BestEffort.set_cpu_governor ?c ?g] =>
           pose proof (root_required_best_effort s 0 0 0 c g Hguest) as H
       | |- context [returning _ (?op ?c)] =>
           pose proof (root_required_best_effort s 0 0 0 c "" Hguest) as H
       | |- _ => pose proof (root_required_best_effort s 0 0 0 0 "" Hguest) as H
       end.
  all: destruct H as (H1 & H2 & H3 & H4 & H5 & H6 & H7 & H8 & H9 & H10 & H11 & H12 &
                      H13 & H14 & H15 & H16 & H17).
  all: eexists _, _; split; [apply returning_Return; eassumption|];
    split; [by simpl | by vm_compute; eexists].
Qed.

Lemma best_effort_operations_need_root_witness :
  ∃ v text,
    returning VInt BestEffort.get_fan_speed nano_guest = (Return v, printed nano_guest text) ∧
    is_empty_value v ∧
    is_Some (find text ("without running as root." +:+ endl)).
Proof.
  apply (best_effort_operations_need_root GetFanSpeed); [reflexivity | discriminate].
Defined.

(** * Further properties: the machine name *)

(** X8.  [get_machine] consults [/sys/devices/soc0/machine] only when the
    family file exists, and the device-tree model only when the family file
    does not: with a family file and no machine file the machine name is
    empty whatever the device tree says.  With neither the family file nor
    the model the exception-throwing header throws [machine type cannot be
    found.] and the boolean header returns the empty name.  The content of
    the file is returned verbatim and nothing is changed by the call. *)
Theorem get_machine_sources (s : system) :
  let family := "/sys/devices/soc0/family" in
  let machine := "/sys/devices/soc0/machine" in
  let model := "/proc/device-tree/model" in
  (opens s family = true → opens s machine = true →
     Signal.get_machine s = (Return (slurp s machine), s) ∧
     BestEffort.get_machine s = (Return (slurp s machine), s)) ∧
  (opens s family = true → opens s machine = false →
     Signal.get_machine s = (Return "", s) ∧
     BestEffort.get_machine s = (Return "", s)) ∧
  (opens s family = false → opens s model = true →
     Signal.get_machine s = (Return (slurp s model), s) ∧
     BestEffort.get_machine s = (Return (slurp s model), s)) ∧
  (opens s family = false → opens s model = false →
     Signal.get_machine s = thrown s "machine type cannot be found." ∧
     BestEffort.get_machine s = (Return "", s)).
Proof.
  cbv zeta.
  repeat split; intros;
    unfold Signal.get_machine, BestEffort.get_machine, bind, file_exists, read_file,
           ret, throw, thrown;
    repeat match goal with H : opens _ _ = _ |- _ => rewrite H end;
    reflexivity.
Qed.

Lemma get_machine_sources_witness :
  Signal.get_machine named_in_device_tree = (Return "", named_in_device_tree) ∧
  BestEffort.get_machine named_in_device_tree = (Return "", named_in_device_tree).
Proof.
  destruct (get_machine_sources named_in_device_tree) as (_ & H & _).
  apply H; reflexivity.
Defined.

(** * Further properties: [stoi] reads back what [to_string] writes *)

Lemma digits_pretty_N_go (x : N) :
  (0 < x)%N →
  ∀ value s, default 0 value = 0 →
    digits value (pretty_N_go x s) = digits (Some (Z.of_N x)) s.
Proof.
  induction (N.lt_wf_0 x) as [x _ IH]. intros Hpos value s Hzero.
  rewrite pretty_N_go_step by done.
  destruct (small_digit (x `mod` 10)) as (Hd & _); [by apply N.mod_lt|].
  destruct (decide (x `div` 10 = 0)%N) as [Hsmall | Hbig].
  - rewrite Hsmall, pretty_N_go_0. simpl. rewrite Hd, Hzero.
    apply N.div_small_iff in Hsmall; [|done].
    rewrite N.mod_small by done. reflexivity.
  - assert (0 < x `div` 10)%N as Hq by (by apply N.neq_0_lt_0).
    rewrite (IH (x `div` 10)%N); [| by apply N.div_lt | done | done].
    simpl. rewrite Hd. do 2 f_equal.
    pose proof (N.div_mod x 10 ltac:(done)) as E.
    apply (f_equal Z.of_N) in E. rewrite N2Z.inj_add, N2Z.inj_mul in E.
    simpl in E. lia.
Qed.

Lemma digits_stop (v : Z) (rest : string) :
  no_digit_ahead rest → digits (Some v) rest = Some v.
Proof. destruct rest as [|c rest]; simpl; [done|]. by intros ->. Qed.

Lemma strtol_digit_head (d : N) (rest : string) :
  (d < 10)%N →
  strtol (String (pretty_N_char d) rest) = digits None (String (pretty_N_char d) rest).
Proof.
  intros Hd.
  assert (d = 0 ∨ d = 1 ∨ d = 2 ∨ d = 3 ∨ d = 4 ∨ d = 5 ∨ d = 6 ∨ d = 7 ∨ d = 8 ∨ d = 9)%N
    as Hcases by lia.
  repeat destruct Hcases as [-> | Hcases]; try subst d; reflexivity.
Qed.

Lemma strtol_to_string (z : Z) (rest : string) :
  no_digit_ahead rest → strtol (to_string z +:+ rest) = Some z.
Proof.
  intros Hrest. unfold to_string, pretty, pretty_Z.
  destruct z as [|p|p].
  - change (strtol ("0" +:+ rest)) with (digits (Some 0) rest). by apply digits_stop.
  - unfold pretty, pretty_positive, pretty, pretty_N.
    destruct (decide (N.pos p = 0%N)) as [E|_]; [discriminate E|].
    rewrite pretty_N_go_app. change ("" +:+ rest) with rest.
    destruct (pretty_N_go_head (N.pos p) eq_refl rest) as (d & tail & Hd & Hhead).
    transitivity (digits None (pretty_N_go (N.pos p) rest)).
    + rewrite Hhead. by apply strtol_digit_head.
    + rewrite digits_pretty_N_go by done. by apply digits_stop.
  - unfold pretty, pretty_positive, pretty, pretty_N.
    destruct (decide (N.pos p = 0%N)) as [E|_]; [discriminate E|].
    change (("-" +:+ pretty_N_go (N.pos p) "") +:+ rest) with
      (String "-" (pretty_N_go (N.pos p) "" +:+ rest)).
    rewrite pretty_N_go_app. change ("" +:+ rest) with rest.
    change (strtol (String "-" (pretty_N_go (N.pos p) rest))) with
      (Z.opp <$> digits None (pretty_N_go (N.pos p) rest)).
    rewrite digits_pretty_N_go by done. by rewrite digits_stop.
Qed.

Lemma stoi_to_string (z : Z) (rest : string) :
  is_int z → no_digit_ahead rest → stoi (to_string z +:+ rest) = Return z.
Proof.
  intros Hz Hrest. unfold stoi. rewrite strtol_to_string by done.
  by rewrite bool_decide_eq_true_2.
Qed.

Lemma stoi_to_string_alone (z : Z) : is_int z → stoi (to_string z) = Return z.
Proof.
  intros Hz. rewrite <- (append_empty (to_string z)). by apply stoi_to_string.
Qed.

(** * Further properties: the fan *)

Lemma can_write_opened (s : system) (name any : string) :
  can_write (opened s name) any = can_write s any.
Proof. unfold can_write. by destruct (opens_opened s name any) as [-> ->]. Qed.

Lemma get_machine_best_effort_of_signal (s : system) (machine : string) :
  fst (Signal.get_machine s) = Return machine →
  BestEffort.get_machine s = (Return machine, s).
Proof.
  unfold Signal.get_machine, BestEffort.get_machine, bind, file_exists, read_file, ret, throw.
  repeat (case_match; simplify_eq/=); try done; by intros [= ->].
Qed.

(** [get_machine] depends on the three identification files only. *)
Lemma get_machine_agree (s s' : system) :
  (∀ name, opens s' name = opens s name) →
  slurp s' "/sys/devices/soc0/machine" = slurp s "/sys/devices/soc0/machine" →
  slurp s' "/proc/device-tree/model" = slurp s "/proc/device-tree/model" →
  fst (Signal.get_machine s') = fst (Signal.get_machine s).
Proof.
  intros Hopens Hmachine Hmodel.
  unfold Signal.get_machine, bind, file_exists, read_file, ret, throw.
  simpl. rewrite !Hopens.
  destruct (opens s "/sys/devices/soc0/family"); simpl.
  - rewrite Hopens. destruct (opens s "/sys/devices/soc0/machine"); simpl; [|done].
    by rewrite Hmachine.
  - rewrite Hopens. destruct (opens s "/proc/device-tree/model"); simpl; [|done].
    by rewrite Hmodel.
Qed.

Lemma fan_path_eval (s : system) :
  Signal.fan_path s =
    if can_write s tegra_fan then (Return tegra_fan, opened s tegra_fan)
    else if can_write s pwm_fan then (Return pwm_fan, opened s pwm_fan)
    else thrown s "fan speed file not found.".
Proof.
  unfold Signal.fan_path.
  change "/sys/kernel/debug/tegra_fan/target_pwm" with tegra_fan.
  change "/sys/devices/pwm-fan/target_pwm" with pwm_fan.
  unfold bind. rewrite file_writable_probe. unfold probe.
  destruct (can_write s tegra_fan); [reflexivity|].
  rewrite file_writable_probe. unfold probe.
  by destruct (can_write s pwm_fan).
Qed.

Lemma wrote_attempt (s : system) (name str : string) :
  can_write s name = true → attempt s name str = wrote s name str.
Proof. intros H. unfold attempt. by rewrite H. Qed.

Lemma set_fan_speed_signal_eval (s : system) (speed : Z) (machine : string) :
  euid s = 0 →
  fst (Signal.get_machine s) = Return machine → machine ≠ "jetson-tk1" →
  Signal.set_fan_speed speed s =
    if can_write s tegra_fan
    then (Return tt, wrote (opened s tegra_fan) tegra_fan (to_string speed))
    else if can_write s pwm_fan
    then (Return tt, wrote (opened s pwm_fan) pwm_fan (to_string speed))
    else thrown s "fan speed file not found.".
Proof.
  intros Hroot Hm Htk.
  unfold Signal.set_fan_speed.
  rewrite (bind_Return _ _ _ _ _ (root_true s Hroot)). simpl.
  rewrite (bind_Return _ _ _ _ _ (machine_eval_signal s machine Hm)).
  rewrite bool_decide_eq_false_2 by done.
  unfold bind at 1. rewrite fan_path_eval.
  destruct (can_write s tegra_fan) eqn:H1.
  - unfold bind.
    rewrite write_file_attempt, wrote_attempt by (by rewrite can_write_opened).
    reflexivity.
  - destruct (can_write s pwm_fan) eqn:H2; [|reflexivity].
    unfold bind.
    rewrite write_file_attempt, wrote_attempt by (by rewrite can_write_opened).
    reflexivity.
Qed.

Lemma set_fan_speed_best_effort_eval (s : system) (speed : Z) (machine : string) :
  euid s = 0 →
  fst (BestEffort.get_machine s) = Return machine → machine ≠ "jetson-tk1" →
  BestEffort.set_fan_speed speed s =
    if can_write s tegra_fan
    then (Return true, wrote (opened s tegra_fan) tegra_fan (to_string speed))
    else (Return false, printed s ("Can't access Fan!" +:+ endl)).
Proof.
  intros Hroot Hm Htk.
  unfold BestEffort.set_fan_speed.
  rewrite (bind_Return _ _ _ _ _ (root_true s Hroot)). simpl.
  rewrite (bind_Return _ _ _ _ _ (machine_eval_best_effort s machine Hm)).
  rewrite bool_decide_eq_false_2 by done.
  change "/sys/kernel/debug/tegra_fan/target_pwm" with tegra_fan.
  unfold bind at 1. rewrite file_writable_probe. unfold probe.
  destruct (can_write s tegra_fan) eqn:H1; simpl.
  - rewrite write_file_attempt, wrote_attempt by (by rewrite can_write_opened).
    by rewrite can_write_opened, H1.
  - reflexivity.
Qed.

(** X9.  On a machine other than the TK1, [set_fan_speed] of the
    exception-throwing header writes the speed in decimal to the first of
    [/sys/kernel/debug/tegra_fan/target_pwm] and
    [/sys/devices/pwm-fan/target_pwm] that [file_writable] accepts, and to
    that file only; with neither it throws [fan speed file not found.] and
    changes nothing.  The boolean header knows the first file only: when it
    is not writable it prints [Can't access Fan!] and returns [false], also
    where the second file would accept the write.  The probe by
    [file_writable] opens the chosen file for writing once more than the
    write itself does. *)
Theorem set_fan_speed_file_choice (s : system) (speed : Z) (machine : string) :
  euid s = 0 →
  fst (Signal.get_machine s) = Return machine →
  machine ≠ "jetson-tk1" →
  (can_write s tegra_fan = true →
     Signal.set_fan_speed speed s =
       (Return tt, wrote (opened s tegra_fan) tegra_fan (to_string speed)) ∧
     BestEffort.set_fan_speed speed s =
       (Return true, wrote (opened s tegra_fan) tegra_fan (to_string speed))) ∧
  (can_write s tegra_fan = false → can_write s pwm_fan = true →
     Signal.set_fan_speed speed s =
       (Return tt, wrote (opened s pwm_fan) pwm_fan (to_string speed)) ∧
     BestEffort.set_fan_speed speed s =
       (Return false, printed s ("Can't access Fan!" +:+ endl))) ∧
  (can_write s tegra_fan = false → can_write s pwm_fan = false →
     Signal.set_fan_speed speed s = thrown s "fan speed file not found." ∧
     BestEffort.set_fan_speed speed s =
       (Return false, printed s ("Can't access Fan!" +:+ endl))).
Proof.
  intros Hroot Hm Htk.
  pose proof (get_machine_best_effort_of_signal s machine Hm) as Hb.
  apply (f_equal fst) in Hb. simpl in Hb.
  rewrite (set_fan_speed_signal_eval s speed machine Hroot Hm Htk).
  rewrite (set_fan_speed_best_effort_eval s speed machine Hroot Hb Htk).
  repeat split; intros;
    repeat match goal with H : can_write _ _ = _ |- _ => rewrite H end; reflexivity.
Qed.

Lemma set_fan_speed_file_choice_witness :
  Signal.set_fan_speed 128 two_fans =
    (Return tt, wrote (opened two_fans pwm_fan) pwm_fan "128") ∧
  BestEffort.set_fan_speed 128 two_fans =
    (Return false, printed two_fans ("Can't access Fan!" +:+ endl)).
Proof.
  destruct (set_fan_speed_file_choice two_fans 128 ("jetson-nano" +:+ endl))
    as (_ & H & _); [vm_compute; reflexivity | vm_compute; reflexivity | discriminate |].
  apply H; vm_compute; reflexivity.
Defined.

Lemma get_fan_speed_signal_eval (s : system) (machine : string) :
  euid s = 0 →
  fst (Signal.get_machine s) = Return machine → machine ≠ "jetson-tk1" →
  Signal.get_fan_speed s =
    if can_write s tegra_fan then (Throw invalid_argument, opened s tegra_fan)
    else if can_write s pwm_fan then (Throw invalid_argument, opened s pwm_fan)
    else thrown s "fan speed file not found.".
Proof.
  intros Hroot Hm Htk.
  unfold Signal.get_fan_speed.
  rewrite (bind_Return _ _ _ _ _ (root_true s Hroot)). simpl.
  rewrite (bind_Return _ _ _ _ _ (machine_eval_signal s machine Hm)).
  rewrite bool_decide_eq_false_2 by done.
  unfold bind at 1. rewrite fan_path_eval.
  destruct (can_write s tegra_fan) eqn:H1.
  - unfold bind, read_file, lift. by rewrite slurp_opened_same.
  - destruct (can_write s pwm_fan) eqn:H2; [|reflexivity].
    unfold bind, read_file, lift. by rewrite slurp_opened_same.
Qed.

Lemma get_fan_speed_best_effort_eval (s : system) (machine : string) :
  euid s = 0 →
  fst (BestEffort.get_machine s) = Return machine → machine ≠ "jetson-tk1" →
  BestEffort.get_fan_speed s =
    if opens s tegra_fan
    then (do v <- lift (stoi (slurp s tegra_fan)); ret (to_uchar v)) s
    else (Return 0, printed s ("Can't access Fan!" +:+ endl)).
Proof.
  intros Hroot Hm Htk.
  unfold BestEffort.get_fan_speed.
  rewrite (bind_Return _ _ _ _ _ (root_true s Hroot)). simpl.
  rewrite (bind_Return _ _ _ _ _ (machine_eval_best_effort s machine Hm)).
  rewrite bool_decide_eq_false_2 by done.
  change "/sys/kernel/debug/tegra_fan/target_pwm" with tegra_fan.
  unfold bind at 1, file_exists.
  by destruct (opens s tegra_fan) eqn:H1.
Qed.

Lemma read_speed (s : system) (text : string) (v : Z) (rest : string) :
  is_int v → no_digit_ahead rest → text = to_string v +:+ rest →
  (do v <- lift (stoi text); ret (to_uchar v)) s = (Return (v `mod` 256), s).
Proof.
  intros Hv Hrest ->. unfold bind, lift, ret, to_uchar.
  by rewrite stoi_to_string.
Qed.

(** X10.  On a machine other than the TK1, [get_fan_speed] of the boolean
    header reads the decimal number at the head of
    [/sys/kernel/debug/tegra_fan/target_pwm] and returns it modulo 256 (the
    conversion of [int] to [unsigned char]): a file that holds 300 reads as
    44; it opens nothing for writing, and returns 0 after printing [Can't
    access Fan!] when the file cannot be opened for reading.  The
    exception-throwing header never returns a speed: it looks for the first
    of the two fan files that [file_writable] accepts, whose [fopen(path,
    "w")] truncates the file it opens, and then reads that file, so
    [std::stoi] throws [std::invalid_argument] and the fan file is left
    empty; when neither file can be opened for writing it throws [fan speed
    file not found.] and changes nothing. *)
Theorem get_fan_speed_reads_modulo_256 (s : system) (machine : string) (v : Z)
    (rest : string) :
  euid s = 0 →
  fst (Signal.get_machine s) = Return machine →
  machine ≠ "jetson-tk1" →
  is_int v →
  no_digit_ahead rest →
  (can_write s tegra_fan = true →
     Signal.get_fan_speed s = (Throw invalid_argument, opened s tegra_fan) ∧
     slurp (opened s tegra_fan) tegra_fan = "") ∧
  (can_write s tegra_fan = false → can_write s pwm_fan = true →
     Signal.get_fan_speed s = (Throw invalid_argument, opened s pwm_fan) ∧
     slurp (opened s pwm_fan) pwm_fan = "") ∧
  (can_write s tegra_fan = false → can_write s pwm_fan = false →
     Signal.get_fan_speed s = thrown s "fan speed file not found.") ∧
  (opens s tegra_fan = true → slurp s tegra_fan = to_string v +:+ rest →
     BestEffort.get_fan_speed s = (Return (v `mod` 256), s)) ∧
  (opens s tegra_fan = false →
     BestEffort.get_fan_speed s = (Return 0, printed s ("Can't access Fan!" +:+ endl))).
Proof.
  intros Hroot Hm Htk Hv Hrest.
  pose proof (get_machine_best_effort_of_signal s machine Hm) as Hb.
  apply (f_equal fst) in Hb. simpl in Hb.
  rewrite (get_fan_speed_signal_eval s machine Hroot Hm Htk).
  rewrite (get_fan_speed_best_effort_eval s machine Hroot Hb Htk).
  split; [|split; [|split; [|split]]].
  - intros ->. split; [reflexivity | apply slurp_opened_same].
  - intros -> ->. split; [reflexivity | apply slurp_opened_same].
  - by intros -> ->.
  - intros -> Hread. by eapply read_speed.
  - by intros ->.
Qed.

Lemma get_fan_speed_reads_modulo_256_witness :
  Signal.get_fan_speed two_fans = (Throw invalid_argument, opened two_fans pwm_fan) ∧
  slurp (opened two_fans pwm_fan) pwm_fan = "" ∧
  BestEffort.get_fan_speed two_fans = (Return 44, two_fans).
Proof.
  destruct (get_fan_speed_reads_modulo_256 two_fans ("jetson-nano" +:+ endl) 300 endl)
    as (_ & Hs & _ & Hb & _);
    [ vm_compute; reflexivity | vm_compute; reflexivity | discriminate | by vm_compute
    | vm_compute; reflexivity |].
  destruct Hs as [Hs Hempty]; [vm_compute; reflexivity | vm_compute; reflexivity|].
  split; [exact Hs|]. split; [exact Hempty|].
  apply Hb; vm_compute; reflexivity.
Defined.

(** The state after the fan file [path] was probed and written. *)
Lemma fan_written (s : system) (path str machine : string) :
  path = tegra_fan ∨ path = pwm_fan →
  can_write s path = true →
  euid s = 0 →
  fst (Signal.get_machine s) = Return machine →
  let s' := wrote (opened s path) path str in
  euid s' = 0 ∧ fst (Signal.get_machine s') = Return machine ∧
  (∀ any, can_write s' any = can_write s any) ∧ (∀ any, opens s' any = opens s any) ∧
  slurp s' path = str.
Proof.
  intros Hpath Hw Hroot Hm s'.
  assert (can_write (opened s path) path = true) as Hw' by (by rewrite can_write_opened).
  assert (s' = attempt (opened s path) path str) as Hs'.
  { unfold s'. by rewrite wrote_attempt. }
  assert (∀ any, opens s' any = opens s any) as Hopens.
  { intros any. rewrite Hs'.
    destruct (opens_attempt (opened s path) path str any) as [-> _].
    by destruct (opens_opened s path any) as [-> _]. }
  split; [done|]. split; [|split; [|split]].
  - rewrite <- Hm. apply get_machine_agree; [done | |].
    + rewrite Hs', slurp_attempt_other, slurp_opened_other; [done | |];
        destruct Hpath as [-> | ->]; discriminate.
    + rewrite Hs', slurp_attempt_other, slurp_opened_other; [done | |];
        destruct Hpath as [-> | ->]; discriminate.
  - intros any. unfold can_write. rewrite Hopens. f_equal.
    rewrite Hs'. destruct (opens_attempt (opened s path) path str any) as [_ ->].
    by destruct (opens_opened s path any) as [_ ->].
  - done.
  - rewrite Hs'. by apply slurp_attempt_same.
Qed.

Lemma read_own_speed (s : system) (speed : Z) :
  0 ≤ speed ≤ 255 →
  (do v <- lift (stoi (to_string speed)); ret (to_uchar v)) s = (Return speed, s).
Proof.
  intros Hspeed.
  rewrite (read_speed s (to_string speed) speed "");
    [by rewrite Z.mod_small by lia | unfold is_int, INT_MIN, INT_MAX; lia | done
    | by rewrite append_empty].
Qed.

(** X11.  On a machine other than the TK1, [get_fan_speed] after
    [set_fan_speed] returns the speed that was set, for every speed of the
    [unsigned char] parameter, in the boolean header, whose getter only
    reads.  In the exception-throwing header the speed that was set cannot
    be read back: [set_fan_speed] writes it to the first fan file that can
    be opened for writing, and [get_fan_speed] then truncates that file in
    its own writability test, throws [std::invalid_argument] and leaves the
    file empty. *)
Theorem fan_speed_round_trip (s : system) (speed : Z) (machine : string) :
  euid s = 0 →
  fst (Signal.get_machine s) = Return machine →
  machine ≠ "jetson-tk1" →
  0 ≤ speed ≤ 255 →
  (can_write s tegra_fan = true →
     ∃ s' s'', Signal.set_fan_speed speed s = (Return tt, s') ∧
               slurp s' tegra_fan = to_string speed ∧
               Signal.get_fan_speed s' = (Throw invalid_argument, s'') ∧
               slurp s'' tegra_fan = "") ∧
  (can_write s tegra_fan = false → can_write s pwm_fan = true →
     ∃ s' s'', Signal.set_fan_speed speed s = (Return tt, s') ∧
               slurp s' pwm_fan = to_string speed ∧
               Signal.get_fan_speed s' = (Throw invalid_argument, s'') ∧
               slurp s'' pwm_fan = "") ∧
  (can_write s tegra_fan = true →
     ∃ s', BestEffort.set_fan_speed speed s = (Return true, s') ∧
           BestEffort.get_fan_speed s' = (Return speed, s')).
Proof.
  intros Hroot Hm Htk Hspeed.
  split; [|split].
  - intros H1.
    rewrite (set_fan_speed_signal_eval s speed machine Hroot Hm Htk), H1.
    destruct (fan_written s tegra_fan (to_string speed) machine) as (Hr & Hm' & Hc & _ & Hread);
      [by left | done | done | done |].
    eexists _, _. split; [reflexivity|]. split; [exact Hread|].
    rewrite (get_fan_speed_signal_eval _ machine Hr Hm' Htk), Hc, H1.
    split; [reflexivity | apply slurp_opened_same].
  - intros H1 H2.
    rewrite (set_fan_speed_signal_eval s speed machine Hroot Hm Htk), H1, H2.
    destruct (fan_written s pwm_fan (to_string speed) machine) as (Hr & Hm' & Hc & _ & Hread);
      [by right | done | done | done |].
    eexists _, _. split; [reflexivity|]. split; [exact Hread|].
    rewrite (get_fan_speed_signal_eval _ machine Hr Hm' Htk), !Hc, H1, H2.
    split; [reflexivity | apply slurp_opened_same].
  - intros H1.
    pose proof (get_machine_best_effort_of_signal s machine Hm) as Hb.
    apply (f_equal fst) in Hb. simpl in Hb.
    rewrite (set_fan_speed_best_effort_eval s speed machine Hroot Hb Htk), H1.
    destruct (fan_written s tegra_fan (to_string speed) machine) as (Hr & Hm' & _ & Ho & Hread);
      [by left | done | done | done |].
    eexists. split; [reflexivity|].
    pose proof (get_machine_best_effort_of_signal _ machine Hm') as Hb'.
    apply (f_equal fst) in Hb'. simpl in Hb'.
    rewrite (get_fan_speed_best_effort_eval _ machine Hr Hb' Htk), Ho, Hread.
    assert (opens s tegra_fan = true) as ->.
    { unfold can_write in H1. by apply andb_true_iff in H1 as [? _]. }
    by apply read_own_speed.
Qed.

Lemma fan_speed_round_trip_witness :
  (∃ s' s'', Signal.set_fan_speed 128 two_fans = (Return tt, s') ∧
             slurp s' pwm_fan = "128" ∧
             Signal.get_fan_speed s' = (Throw invalid_argument, s'') ∧
             slurp s'' pwm_fan = "") ∧
  (∃ s', BestEffort.set_fan_speed 128 one_fan = (Return true, s') ∧
         BestEffort.get_fan_speed s' = (Return 128, s')).
Proof.
  split.
  - destruct (fan_speed_round_trip two_fans 128 ("jetson-nano" +:+ endl)) as (_ & H & _);
      [vm_compute; reflexivity | vm_compute; reflexivity | discriminate | lia |].
    apply H; vm_compute; reflexivity.
  - destruct (fan_speed_round_trip one_fan 128 "") as (_ & _ & H);
      [vm_compute; reflexivity | vm_compute; reflexivity | discriminate | lia |].
    apply H; vm_compute; reflexivity.
Defined.

(** * Further properties: the writes of the setters *)

Lemma can_write_attempt (s : system) (name str any : string) :
  can_write (attempt s name str) any = can_write s any.
Proof. unfold can_write. by destruct (opens_attempt s name str any) as [-> ->]. Qed.

Lemma found_sort (x : Z) (l : list Z) : x ∈ l → found x (sort l) = true.
Proof. intros H. apply found_true. by rewrite sort_Permutation. Qed.

(** The family is read from the identification files, which no setter
    writes. *)
Lemma get_soc_family_agree (s s' : system) :
  (∀ name, opens s' name = opens s name) →
  (∀ name, name ∈ identification → slurp s' name = slurp s name) →
  Signal.get_soc_family s' = (fst (Signal.get_soc_family s), s') ∧
  BestEffort.get_soc_family s' = (fst (BestEffort.get_soc_family s), s').
Proof.
  intros Hopens Hslurp.
  assert (slurp s' "/sys/devices/soc0/family" = slurp s "/sys/devices/soc0/family") as H1.
  { apply Hslurp. unfold identification. set_solver. }
  assert (slurp s' "/proc/device-tree/compatible" = slurp s "/proc/device-tree/compatible")
    as H2.
  { apply Hslurp. unfold identification. set_solver. }
  unfold Signal.get_soc_family, BestEffort.get_soc_family, bind, file_exists, read_file,
         ret, throw.
  simpl. rewrite !Hopens.
  destruct (opens s "/sys/devices/soc0/family"); simpl; [by rewrite H1|].
  rewrite !Hopens.
  destruct (opens s "/proc/device-tree/compatible"); simpl; [|done].
  rewrite H2. split; repeat (case_match; simplify_eq/=); done.
Qed.

Lemma get_soc_family_attempt (s : system) (name str : string) :
  name ∉ identification →
  (∀ family, fst (Signal.get_soc_family s) = Return family →
     Signal.get_soc_family (attempt s name str) = (Return family, attempt s name str)) ∧
  (∀ family, fst (BestEffort.get_soc_family s) = Return family →
     BestEffort.get_soc_family (attempt s name str) = (Return family, attempt s name str)).
Proof.
  intros Hname.
  destruct (get_soc_family_agree s (attempt s name str)) as [Hs Hb].
  - intros any. by destruct (opens_attempt s name str any).
  - intros any Hany. apply slurp_attempt_other. by intros ->.
  - split; intros family Hfam; [by rewrite Hs, Hfam | by rewrite Hb, Hfam].
Qed.

Lemma get_gpu_available_freqs_eval (s : system) (family : string) :
  euid s = 0 →
  fst (Signal.get_soc_family s) = Return family →
  supported family →
  Signal.get_gpu_available_freqs s =
    (Return (sort (parse_longs (slurp s (gpu_node family +:+ "/available_frequencies")))), s).
Proof.
  intros Hroot Hfam Hsup. unfold Signal.get_gpu_available_freqs.
  rewrite (bind_Return _ _ _ _ _ (root_true s Hroot)). simpl.
  rewrite (bind_Return _ _ _ _ _ (family_eval_signal s family Hfam)).
  destruct Hsup as [-> | [-> | ->]]; reflexivity.
Qed.

Lemma get_gpu_available_freqs_eval_best_effort (s : system) (family : string) :
  euid s = 0 →
  fst (BestEffort.get_soc_family s) = Return family →
  family = "tegra186" ∨ family = "tegra210" →
  BestEffort.get_gpu_available_freqs s =
    (Return (sort (parse_longs (slurp s (gpu_node family +:+ "/available_frequencies")))), s).
Proof.
  intros Hroot Hfam Hsup. unfold BestEffort.get_gpu_available_freqs.
  rewrite (bind_Return _ _ _ _ _ (root_true s Hroot)). simpl.
  rewrite (bind_Return _ _ _ _ _ (family_eval_best_effort s family Hfam)).
  destruct Hsup as [-> | ->]; reflexivity.
Qed.

(** The accepted request of [set_gpu_freq_range] in each header. *)
Lemma set_gpu_freq_range_signal (s : system) (family : string) (min_freq max_freq : Z) :
  euid s = 0 →
  min_freq ∈ parse_longs (slurp s (gpu_node family +:+ "/available_frequencies")) →
  max_freq ∈ parse_longs (slurp s (gpu_node family +:+ "/available_frequencies")) →
  fst (Signal.get_soc_family s) = Return family →
  supported family →
  Signal.set_gpu_freq_range min_freq max_freq s =
    (Return tt,
     attempt (attempt (attempt s (gpu_node family +:+ "/min_freq") (to_string min_freq))
                      (gpu_node family +:+ "/max_freq") (to_string max_freq))
             (gpu_node family +:+ "/device/railgate_enable") "0").
Proof.
  intros Hroot Hmin Hmax Hfam Hsup. unfold Signal.set_gpu_freq_range.
  rewrite (bind_Return _ _ _ _ _ (root_true s Hroot)). simpl.
  rewrite (bind_Return _ _ _ _ _ (get_gpu_available_freqs_eval s family Hroot Hfam Hsup)).
  rewrite !found_sort by done. simpl.
  rewrite (bind_Return _ _ _ _ _ (family_eval_signal s family Hfam)).
  assert (Signal.GPU_RANGE_PATHS family s =
          (Return (gpu_node family +:+ "/min_freq", gpu_node family +:+ "/max_freq",
                   gpu_node family +:+ "/device/railgate_enable"), s)) as Hpaths.
  { destruct Hsup as [-> | [-> | ->]]; reflexivity. }
  rewrite (bind_Return _ _ _ _ _ Hpaths).
  unfold bind. by rewrite !write_file_attempt.
Qed.

Lemma set_gpu_freq_range_best_effort (s : system) (family : string) (min_freq max_freq : Z) :
  euid s = 0 →
  min_freq ∈ parse_longs (slurp s (gpu_node family +:+ "/available_frequencies")) →
  max_freq ∈ parse_longs (slurp s (gpu_node family +:+ "/available_frequencies")) →
  fst (BestEffort.get_soc_family s) = Return family →
  family = "tegra186" ∨ family = "tegra210" →
  BestEffort.set_gpu_freq_range min_freq max_freq s =
    (Return (can_write s (gpu_node family +:+ "/min_freq") &&
             can_write s (gpu_node family +:+ "/max_freq") &&
             can_write s (gpu_node family +:+ "/device/railgate_enable")),
     attempt (attempt (attempt s (gpu_node family +:+ "/min_freq") (to_string min_freq))
                      (gpu_node family +:+ "/max_freq") (to_string max_freq))
             (gpu_node family +:+ "/device/railgate_enable") "0").
Proof.
  intros Hroot Hmin Hmax Hfam Hsup. unfold BestEffort.set_gpu_freq_range.
  rewrite (bind_Return _ _ _ _ _ (root_true s Hroot)). simpl.
  rewrite (bind_Return _ _ _ _ _
             (get_gpu_available_freqs_eval_best_effort s family Hroot Hfam Hsup)).
  rewrite !found_sort by done. simpl.
  rewrite (bind_Return _ _ _ _ _ (family_eval_best_effort s family Hfam)).
  assert (BestEffort.GPU_RANGE_PATHS family =
          Some (gpu_node family +:+ "/min_freq", gpu_node family +:+ "/max_freq",
                gpu_node family +:+ "/device/railgate_enable")) as ->.
  { destruct Hsup as [-> | ->]; reflexivity. }
  unfold bind. rewrite !write_file_attempt, !can_write_attempt. reflexivity.
Qed.

(** X12.  A GPU range whose two ends are both among the available
    frequencies is accepted whatever their order: [set_gpu_freq_range] does
    not compare the minimum with the maximum.  It then attempts three
    writes, each whether or not the one before it succeeded and with
    nothing undone afterwards: the minimum to [min_freq], the maximum to
    [max_freq], and 0 to [device/railgate_enable] of the family's GPU node.
    The exception-throwing header returns normally whatever the writes did;
    the boolean header, on the two families it knows, returns whether all
    three succeeded. *)
Theorem set_gpu_freq_range_writes (s : system) (family : string) (min_freq max_freq : Z) :
  let available := parse_longs (slurp s (gpu_node family +:+ "/available_frequencies")) in
  let GPU_MIN_FREQ := gpu_node family +:+ "/min_freq" in
  let GPU_MAX_FREQ := gpu_node family +:+ "/max_freq" in
  let GPU_RAIL_GATE := gpu_node family +:+ "/device/railgate_enable" in
  let s1 := attempt s GPU_MIN_FREQ (to_string min_freq) in
  let s2 := attempt s1 GPU_MAX_FREQ (to_string max_freq) in
  let s3 := attempt s2 GPU_RAIL_GATE "0" in
  euid s = 0 →
  min_freq ∈ available →
  max_freq ∈ available →
  (fst (Signal.get_soc_family s) = Return family → supported family →
     Signal.set_gpu_freq_range min_freq max_freq s = (Return tt, s3)) ∧
  (fst (BestEffort.get_soc_family s) = Return family →
   family = "tegra186" ∨ family = "tegra210" →
     BestEffort.set_gpu_freq_range min_freq max_freq s =
       (Return (can_write s GPU_MIN_FREQ && can_write s GPU_MAX_FREQ &&
                can_write s GPU_RAIL_GATE), s3)).
Proof.
  intros available GPU_MIN_FREQ GPU_MAX_FREQ GPU_RAIL_GATE s1 s2 s3 Hroot Hmin Hmax.
  split; intros Hfam Hsup.
  - by apply set_gpu_freq_range_signal.
  - by apply set_gpu_freq_range_best_effort.
Qed.

Lemma set_gpu_freq_range_writes_witness :
  let node := "/sys/devices/57000000.gpu/devfreq/57000000.gpu" in
  let s3 := wrote (wrote nano_gpu (node +:+ "/min_freq") "921600000")
                  (node +:+ "/max_freq") "76800000" in
  Signal.set_gpu_freq_range 921600000 76800000 nano_gpu = (Return tt, s3) ∧
  BestEffort.set_gpu_freq_range 921600000 76800000 nano_gpu = (Return false, s3).
Proof.
  destruct (set_gpu_freq_range_writes nano_gpu "tegra210" 921600000 76800000)
    as [Hs Hb]; [vm_compute; reflexivity | listed | listed |].
  split.
  - rewrite Hs; [vm_compute; reflexivity | vm_compute; reflexivity | unfold supported; auto].
  - rewrite Hb; [vm_compute; reflexivity | vm_compute; reflexivity | auto].
Defined.

Lemma get_emc_available_freq_range_reads (s : system) (family : string) :
  euid s = 0 →
  fst (BestEffort.get_soc_family s) = Return family →
  family = "tegra186" ∨ family = "tegra210" →
  snd (BestEffort.get_emc_available_freq_range s) = s.
Proof.
  intros Hroot Hfam Hsup. unfold BestEffort.get_emc_available_freq_range.
  rewrite (bind_Return _ _ _ _ _ (root_true s Hroot)). simpl.
  rewrite (bind_Return _ _ _ _ _ (family_eval_best_effort s family Hfam)).
  destruct Hsup as [-> | ->]; simpl;
    unfold bind, read_file, lift, ret; repeat (case_match; simplify_eq/=); done.
Qed.

(** The accepted request of [set_emc_freq] in each header. *)
Lemma set_emc_freq_signal (s : system) (family : string) (lo hi freq : Z) :
  euid s = 0 →
  lo ≤ freq ≤ hi →
  fst (Signal.get_soc_family s) = Return family →
  supported family →
  fst (Signal.get_emc_available_freqs s) = Return [lo; hi] →
  Signal.set_emc_freq freq s =
    (Return tt,
     attempt (attempt s (emc_rate family) (to_string freq)) (emc_override family) "1").
Proof.
  intros Hroot Hfreq Hfam Hsup Hrange.
  assert (Signal.get_emc_available_freqs s = (Return [lo; hi], s)) as Hget.
  { pose proof (get_emc_available_freqs_reads s).
    destruct (Signal.get_emc_available_freqs s); simpl in *; congruence. }
  unfold Signal.set_emc_freq.
  rewrite (bind_Return _ _ _ _ _ (root_true s Hroot)). simpl.
  rewrite (bind_Return _ _ _ _ _ Hget).
  change ([lo; hi] !!! 0%nat) with lo.
  change ([lo; hi] !!! (List.length [lo; hi] - 1)%nat) with hi.
  rewrite (bool_decide_eq_false_2 (freq < lo)) by lia.
  rewrite (bool_decide_eq_false_2 (freq > hi)) by lia. simpl.
  rewrite (bind_Return _ _ _ _ _ (family_eval_signal s family Hfam)).
  assert (Signal.EMC_SET_PATHS family s =
          (Return (emc_rate family, emc_override family), s)) as Hpaths.
  { destruct Hsup as [-> | [-> | ->]]; reflexivity. }
  rewrite (bind_Return _ _ _ _ _ Hpaths).
  unfold bind. by rewrite !write_file_attempt.
Qed.

Lemma set_emc_freq_best_effort (s : system) (family : string) (lo hi freq : Z) :
  euid s = 0 →
  lo ≤ freq ≤ hi →
  fst (BestEffort.get_soc_family s) = Return family →
  family = "tegra186" ∨ family = "tegra210" →
  fst (BestEffort.get_emc_available_freq_range s) = Return (lo, hi) →
  BestEffort.set_emc_freq freq s =
    (Return true,
     attempt (attempt s (emc_rate family) (to_string freq)) (emc_override family) "1").
Proof.
  intros Hroot Hfreq Hfam Hsup Hrange.
  assert (BestEffort.get_emc_available_freq_range s = (Return (lo, hi), s)) as Hget.
  { pose proof (get_emc_available_freq_range_reads s family Hroot Hfam Hsup).
    destruct (BestEffort.get_emc_available_freq_range s); simpl in *; congruence. }
  unfold BestEffort.set_emc_freq.
  rewrite (bind_Return _ _ _ _ _ (root_true s Hroot)). simpl.
  rewrite (bind_Return _ _ _ _ _ Hget). cbv beta iota.
  rewrite (bool_decide_eq_false_2 (freq < lo)) by lia.
  rewrite (bool_decide_eq_false_2 (freq > hi)) by lia. simpl.
  rewrite (bind_Return _ _ _ _ _ (family_eval_best_effort s family Hfam)).
  assert (BestEffort.EMC_PATHS family = Some (emc_rate family, emc_override family)) as ->.
  { destruct Hsup as [-> | ->]; reflexivity. }
  unfold BestEffort.emc_writes, bind. by rewrite !write_file_attempt.
Qed.

(** X13.  [set_emc_freq] accepts every frequency between the two ends of
    the range that the EMC range getter returns, ends included, and not
    only frequencies that the hardware lists.  It then attempts two writes,
    the second whether or not the first succeeded: the frequency to the
    rate file of the family and 1 to its override file.  The
    exception-throwing header returns normally and the boolean header
    returns [true], whatever the two writes did. *)
Theorem set_emc_freq_writes (s : system) (family : string) (lo hi freq : Z) :
  let s1 := attempt s (emc_rate family) (to_string freq) in
  let s2 := attempt s1 (emc_override family) "1" in
  euid s = 0 →
  lo ≤ freq ≤ hi →
  (fst (Signal.get_soc_family s) = Return family → supported family →
   fst (Signal.get_emc_available_freqs s) = Return [lo; hi] →
     Signal.set_emc_freq freq s = (Return tt, s2)) ∧
  (fst (BestEffort.get_soc_family s) = Return family →
   family = "tegra186" ∨ family = "tegra210" →
   fst (BestEffort.get_emc_available_freq_range s) = Return (lo, hi) →
     BestEffort.set_emc_freq freq s = (Return true, s2)).
Proof.
  intros s1 s2 Hroot Hfreq. split.
  - intros Hfam Hsup Hrange. by eapply set_emc_freq_signal.
  - intros Hfam Hsup Hrange. by eapply set_emc_freq_best_effort.
Qed.

Lemma set_emc_freq_writes_witness :
  let s2 := wrote tx2_emc "/sys/kernel/debug/bpmp/debug/clk/emc/rate" "100" in
  Signal.set_emc_freq 100 tx2_emc = (Return tt, s2) ∧
  BestEffort.set_emc_freq 100 tx2_emc = (Return true, s2).
Proof.
  destruct (set_emc_freq_writes tx2_emc "tegra186" 40 300 100) as [Hs Hb];
    [vm_compute; reflexivity | lia |].
  split.
  - rewrite Hs; [vm_compute; reflexivity | vm_compute; reflexivity | unfold supported; auto | by vm_compute].
  - rewrite Hb; [vm_compute; reflexivity | vm_compute; reflexivity | auto | by vm_compute].
Defined.

(** * Further properties: the per-CPU setters *)

Lemma unthrottled_frame (family : string) (s : system) :
  euid (unthrottled family s) = euid s ∧
  (∀ any, opens (unthrottled family s) any = opens s any) ∧
  (∀ any, can_write (unthrottled family s) any = can_write s any) ∧
  (∀ other, other ∉ [qos; m_cluster; b_cluster] →
     slurp (unthrottled family s) other = slurp s other).
Proof.
  unfold unthrottled. case_bool_decide.
  - repeat split.
    + by rewrite !euid_attempt.
    + intros any.
      destruct (opens_attempt (attempt (attempt s qos "0") m_cluster "0") b_cluster "0" any)
        as [-> _].
      destruct (opens_attempt (attempt s qos "0") m_cluster "0" any) as [-> _].
      by destruct (opens_attempt s qos "0" any) as [-> _].
    + intros any. by rewrite !can_write_attempt.
    + intros other Hother.
      rewrite !slurp_attempt_other; [done | | |]; intros ->; apply Hother; set_solver.
  - repeat split.
    + by rewrite euid_attempt.
    + intros any. by destruct (opens_attempt s qos "0" any) as [-> _].
    + intros any. by rewrite can_write_attempt.
    + intros other Hother.
      rewrite slurp_attempt_other; [done|]. intros ->. apply Hother. set_solver.
Qed.

Lemma qos_is_no_identification : qos ∉ identification.
Proof.
  unfold identification, qos. intros H.
  repeat (apply elem_of_cons in H as [H | H]; [discriminate H|]).
  by apply elem_of_nil in H.
Qed.

Lemma disable_throttling_eval (s : system) (family : string) :
  fst (Signal.get_soc_family s) = Return family →
  Signal.disable_throttling s = (Return tt, unthrottled family s).
Proof.
  intros Hfam. unfold Signal.disable_throttling, unthrottled.
  change "/sys/module/qos/parameters/enable" with qos.
  rewrite (bind_Return _ _ _ _ _ (write_file_attempt qos "0" s)).
  destruct (get_soc_family_attempt s qos "0") as [Hs _];
    [apply qos_is_no_identification|].
  rewrite (bind_Return _ _ _ _ _ (Hs family Hfam)).
  case_bool_decide; [|reflexivity].
  unfold bind. by rewrite !write_file_attempt.
Qed.

(** Without an identification file the exception-throwing header gives up
    after the QoS write. *)
Lemma disable_throttling_unidentified (s : system) :
  opens s "/sys/devices/soc0/family" = false →
  opens s "/proc/device-tree/compatible" = false →
  Signal.disable_throttling s =
    (Throw (JetsonClocksException "SOC family cannot be found."), attempt s qos "0").
Proof.
  intros H1 H2. unfold Signal.disable_throttling.
  change "/sys/module/qos/parameters/enable" with qos.
  rewrite (bind_Return _ _ _ _ _ (write_file_attempt qos "0" s)).
  destruct (opens_attempt s qos "0" "/sys/devices/soc0/family") as [E1 _].
  destruct (opens_attempt s qos "0" "/proc/device-tree/compatible") as [E2 _].
  rewrite H1 in E1. rewrite H2 in E2.
  unfold Signal.get_soc_family, bind, file_exists, throw.
  simpl. rewrite E1. simpl. by rewrite E2.
Qed.

Lemma cpu_writes_eval (s : system) (family path value : string) :
  fst (BestEffort.get_soc_family s) = Return family →
  ∃ success,
    BestEffort.cpu_writes path value s =
      (Return success, attempt (unthrottled family s) path value).
Proof.
  intros Hfam. unfold BestEffort.cpu_writes, unthrottled.
  change "/sys/module/qos/parameters/enable" with qos.
  rewrite (bind_Return _ _ _ _ _ (write_file_attempt qos "0" s)).
  destruct (get_soc_family_attempt s qos "0") as [_ Hb];
    [apply qos_is_no_identification|].
  rewrite (bind_Return _ _ _ _ _ (Hb family Hfam)).
  case_bool_decide.
  - unfold bind. rewrite !write_file_attempt. unfold ret.
    rewrite write_file_attempt. by eexists.
  - unfold bind, ret. rewrite !write_file_attempt. by eexists.
Qed.

Lemma family_after_open (s : system) (name : string) :
  name ∉ identification →
  fst (Signal.get_soc_family (opened s name)) = fst (Signal.get_soc_family s) ∧
  fst (BestEffort.get_soc_family (opened s name)) = fst (BestEffort.get_soc_family s).
Proof.
  intros Hname.
  destruct (get_soc_family_agree s (opened s name)) as [-> ->]; [| |done].
  - intros any. by destruct (opens_opened s name any) as [-> _].
  - intros any Hany. apply slurp_opened_other. by intros ->.
Qed.

Lemma cpu_path_is_no_identification (cpu_id : Z) (leaf : string) :
  "/sys/devices/system/cpu/cpu" +:+ to_string cpu_id +:+ leaf ∉ identification.
Proof.
  unfold identification. intros H.
  repeat (apply elem_of_cons in H as [H | H]; [simpl in H; discriminate H|]).
  by apply elem_of_nil in H.
Qed.

Lemma cpu_path_is_no_prelude (cpu_id : Z) (leaf : string) :
  "/sys/devices/system/cpu/cpu" +:+ to_string cpu_id +:+ leaf ∉ [qos; m_cluster; b_cluster].
Proof.
  unfold qos, m_cluster, b_cluster. intros H.
  repeat (apply elem_of_cons in H as [H | H]; [simpl in H; discriminate H|]).
  by apply elem_of_nil in H.
Qed.

Lemma available_after_open (s : system) (cpu_id freq : Z) (name : string) :
  euid s = 0 →
  cpu_available_frequencies cpu_id ≠ name →
  opens s (cpu_available_frequencies cpu_id) = true →
  freq ∈ parse_longs (slurp s (cpu_available_frequencies cpu_id)) →
  ∃ available,
    Signal.get_cpu_available_freqs cpu_id (opened s name) =
      (Return available, opened s name) ∧
    BestEffort.get_cpu_available_freqs cpu_id (opened s name) =
      (Return available, opened s name) ∧
    found freq available = true ∧ bool_decide (List.length available = 0%nat) = false.
Proof.
  intros Hroot Hname Hopens Hin.
  exists (sort (parse_longs (slurp s (cpu_available_frequencies cpu_id)))).
  rewrite (get_cpu_available_freqs_signal (opened s name) cpu_id Hroot).
  rewrite (get_cpu_available_freqs_best_effort (opened s name) cpu_id Hroot).
  destruct (opens_opened s name (cpu_available_frequencies cpu_id)) as [-> _].
  rewrite slurp_opened_other by done.
  rewrite Hopens. split; [done|].
  assert (found freq (sort (parse_longs (slurp s (cpu_available_frequencies cpu_id)))) = true)
    as Hfound by (by apply found_sort).
  destruct (parse_longs (slurp s (cpu_available_frequencies cpu_id))) as [|z l] eqn:Hp.
  - by apply elem_of_nil in Hin.
  - split; [done|]. split; [done|]. apply nonempty_length.
    intros E. pose proof (sort_Permutation (z :: l)) as Hperm.
    rewrite E in Hperm. by apply Permutation_nil_cons in Hperm.
Qed.

Lemma wrote_after_unthrottled (s : system) (family path str : string) :
  can_write s path = true →
  attempt (unthrottled family s) path str = wrote (unthrottled family s) path str.
Proof.
  intros Hw. apply wrote_attempt.
  destruct (unthrottled_frame family s) as (_ & _ & -> & _). done.
Qed.

Section frequency_setters.

Variables (s : system) (cpu_id freq : Z) (family leaf : string).

Let path : string := "/sys/devices/system/cpu/cpu" +:+ to_string cpu_id +:+ leaf.

Hypothesis Hroot : euid s = 0.
Hypothesis Hopens : opens s (cpu_available_frequencies cpu_id) = true.
Hypothesis Hin : freq ∈ parse_longs (slurp s (cpu_available_frequencies cpu_id)).
Hypothesis Hwritable : can_write s path = true.
Hypothesis Hleaf : leaf ≠ "/cpufreq/scaling_available_frequencies".

Lemma available_is_no_target : cpu_available_frequencies cpu_id ≠ path.
Proof. intros H. apply cpu_path_inj in H. by apply Hleaf. Qed.

(** What follows the root test in [set_cpu_min_freq] and [set_cpu_max_freq]
    of the exception-throwing header, for the target [path] and any message
    about it. *)
Lemma frequency_setter_signal (unwritable unavailable : string) :
  fst (Signal.get_soc_family s) = Return family →
  (do w <- file_writable path;
   if negb w then throw (JetsonClocksException unwritable)
   else
     do available_freqs <- Signal.get_cpu_available_freqs cpu_id;
     if negb (found freq available_freqs) then throw (JetsonClocksException unavailable)
     else
       Signal.disable_throttling;;
       write_file path (to_string freq);;
       ret tt) s =
  (Return tt, wrote (unthrottled family (opened s path)) path (to_string freq)).
Proof.
  intros Hfam.
  unfold bind at 1. rewrite file_writable_probe. unfold probe. rewrite Hwritable. simpl.
  destruct (available_after_open s cpu_id freq path Hroot available_is_no_target Hopens Hin)
    as (available & Hget & _ & Hfound & _).
  rewrite (bind_Return _ _ _ _ _ Hget), Hfound. simpl.
  assert (fst (Signal.get_soc_family (opened s path)) = Return family) as Hfam'.
  { destruct (family_after_open s path) as [-> _];
      [apply cpu_path_is_no_identification | done]. }
  rewrite (bind_Return _ _ _ _ _ (disable_throttling_eval _ family Hfam')).
  unfold bind. rewrite write_file_attempt.
  by rewrite wrote_after_unthrottled by (by rewrite can_write_opened).
Qed.

Lemma frequency_setter_best_effort (unwritable not_found unavailable : string)
    (options : Z → string) :
  fst (BestEffort.get_soc_family s) = Return family →
  (do w <- file_writable path;
   if negb w then print unwritable;; ret false
   else
     do available_freqs <- BestEffort.get_cpu_available_freqs cpu_id;
     if bool_decide (List.length available_freqs = 0%nat) then
       print not_found;; ret false
     else if negb (found freq available_freqs) then
       print unavailable;;
       BestEffort.print_each options available_freqs;;
       print endl;;
       ret false
     else
       do success <- BestEffort.cpu_writes path (to_string freq);
       ret true) s =
  (Return true, wrote (unthrottled family (opened s path)) path (to_string freq)).
Proof.
  intros Hfam.
  unfold bind at 1. rewrite file_writable_probe. unfold probe. rewrite Hwritable. simpl.
  destruct (available_after_open s cpu_id freq path Hroot available_is_no_target Hopens Hin)
    as (available & _ & Hget & Hfound & Hlen).
  rewrite (bind_Return _ _ _ _ _ Hget), Hlen, Hfound. simpl.
  assert (fst (BestEffort.get_soc_family (opened s path)) = Return family) as Hfam'.
  { destruct (family_after_open s path) as [_ ->];
      [apply cpu_path_is_no_identification | done]. }
  destruct (cpu_writes_eval (opened s path) family path (to_string freq) Hfam')
    as [success Hw].
  rewrite (bind_Return _ _ _ _ _ Hw).
  by rewrite wrote_after_unthrottled by (by rewrite can_write_opened).
Qed.

End frequency_setters.

(** The accepted requests of [set_cpu_min_freq] and [set_cpu_max_freq] in
    each header. *)
Lemma set_cpu_freq_signal (s : system) (cpu_id freq : Z) (family : string) :
  euid s = 0 →
  opens s (cpu_available_frequencies cpu_id) = true →
  freq ∈ parse_longs (slurp s (cpu_available_frequencies cpu_id)) →
  fst (Signal.get_soc_family s) = Return family →
  (can_write s (cpu_min_freq_path cpu_id) = true →
     Signal.set_cpu_min_freq cpu_id freq s =
       (Return tt,
        wrote (unthrottled family (opened s (cpu_min_freq_path cpu_id)))
              (cpu_min_freq_path cpu_id) (to_string freq))) ∧
  (can_write s (cpu_max_freq_path cpu_id) = true →
     Signal.set_cpu_max_freq cpu_id freq s =
       (Return tt,
        wrote (unthrottled family (opened s (cpu_max_freq_path cpu_id)))
              (cpu_max_freq_path cpu_id) (to_string freq))).
Proof.
  intros Hroot Hopens Hin Hfam. split; intros Hw.
  - unfold Signal.set_cpu_min_freq.
    rewrite (bind_Return _ _ _ _ _ (root_true s Hroot)). simpl.
    by apply frequency_setter_signal.
  - unfold Signal.set_cpu_max_freq.
    rewrite (bind_Return _ _ _ _ _ (root_true s Hroot)). simpl.
    by apply frequency_setter_signal.
Qed.

Lemma set_cpu_freq_best_effort (s : system) (cpu_id freq : Z) (family : string) :
  euid s = 0 →
  opens s (cpu_available_frequencies cpu_id) = true →
  freq ∈ parse_longs (slurp s (cpu_available_frequencies cpu_id)) →
  fst (BestEffort.get_soc_family s) = Return family →
  (can_write s (cpu_min_freq_path cpu_id) = true →
     BestEffort.set_cpu_min_freq cpu_id freq s =
       (Return true,
        wrote (unthrottled family (opened s (cpu_min_freq_path cpu_id)))
              (cpu_min_freq_path cpu_id) (to_string freq))) ∧
  (can_write s (cpu_max_freq_path cpu_id) = true →
     BestEffort.set_cpu_max_freq cpu_id freq s =
       (Return true,
        wrote (unthrottled family (opened s (cpu_max_freq_path cpu_id)))
              (cpu_max_freq_path cpu_id) (to_string freq))).
Proof.
  intros Hroot Hopens Hin Hfam. split; intros Hw.
  - unfold BestEffort.set_cpu_min_freq.
    rewrite (bind_Return _ _ _ _ _ (root_true s Hroot)). simpl.
    by apply frequency_setter_best_effort.
  - unfold BestEffort.set_cpu_max_freq.
    rewrite (bind_Return _ _ _ _ _ (root_true s Hroot)). simpl.
    by apply frequency_setter_best_effort.
Qed.

(** X14.  An accepted request of [set_cpu_min_freq] or [set_cpu_max_freq]
    (root caller, writable target, frequency among the available ones) is
    carried out in this order: the target file is opened for writing by the
    writability test; 0 is written to the QoS file; on tegra186, and on no
    other family, 0 is written to the M_CLUSTER and then the B_CLUSTER idle
    file; the frequency is written in decimal to the target.  The writes
    before the last are attempted whether or not earlier ones succeeded,
    and their failure does not stop the setter.  Neither setter compares its
    frequency with the other bound.  The exception-throwing header returns
    normally and the boolean header returns [true]. *)
Theorem set_cpu_freq_writes (s : system) (cpu_id freq : Z) (family : string) :
  let available := parse_longs (slurp s (cpu_available_frequencies cpu_id)) in
  let written path := wrote (unthrottled family (opened s path)) path (to_string freq) in
  euid s = 0 →
  opens s (cpu_available_frequencies cpu_id) = true →
  freq ∈ available →
  (fst (Signal.get_soc_family s) = Return family →
     (can_write s (cpu_min_freq_path cpu_id) = true →
        Signal.set_cpu_min_freq cpu_id freq s =
          (Return tt, written (cpu_min_freq_path cpu_id))) ∧
     (can_write s (cpu_max_freq_path cpu_id) = true →
        Signal.set_cpu_max_freq cpu_id freq s =
          (Return tt, written (cpu_max_freq_path cpu_id)))) ∧
  (fst (BestEffort.get_soc_family s) = Return family →
     (can_write s (cpu_min_freq_path cpu_id) = true →
        BestEffort.set_cpu_min_freq cpu_id freq s =
          (Return true, written (cpu_min_freq_path cpu_id))) ∧
     (can_write s (cpu_max_freq_path cpu_id) = true →
        BestEffort.set_cpu_max_freq cpu_id freq s =
          (Return true, written (cpu_max_freq_path cpu_id)))).
Proof.
  intros available written Hroot Hopens Hin. split; intros Hfam.
  - by apply set_cpu_freq_signal.
  - by apply set_cpu_freq_best_effort.
Qed.

Lemma set_cpu_freq_writes_witness :
  let target := cpu_min_freq_path 0 in
  let s' := wrote (wrote (wrote (opened tx2_cpu target) qos "0") m_cluster "0")
                  target "2035200" in
  Signal.set_cpu_min_freq 0 2035200 tx2_cpu = (Return tt, s') ∧
  BestEffort.set_cpu_min_freq 0 2035200 tx2_cpu = (Return true, s').
Proof.
  destruct (set_cpu_freq_writes tx2_cpu 0 2035200 "tegra186") as [Hs Hb];
    [vm_compute; reflexivity | vm_compute; reflexivity | listed |].
  destruct Hs as [Hmin _]; [vm_compute; reflexivity|].
  destruct Hb as [Hmin' _]; [vm_compute; reflexivity|].
  split.
  - rewrite Hmin; [vm_compute; reflexivity | vm_compute; reflexivity].
  - rewrite Hmin'; [vm_compute; reflexivity | vm_compute; reflexivity].
Defined.

(** The accepted request of [set_cpu_governor] in each header. *)
Lemma set_cpu_governor_signal (s : system) (cpu_id : Z) (governor family : string) :
  euid s = 0 →
  opens s (cpu_governor_path cpu_id) = true →
  opens s (cpu_available_governors cpu_id) = true →
  governor ∈ String.words (strip_newline (slurp s (cpu_available_governors cpu_id))) →
  fst (Signal.get_soc_family s) = Return family →
  Signal.set_cpu_governor cpu_id governor s =
    (Return tt, attempt (unthrottled family s) (cpu_governor_path cpu_id) governor).
Proof.
  intros Hroot Htarget Hopens Hin Hfam.
  unfold Signal.set_cpu_governor.
  rewrite (bind_Return _ _ _ _ _ (root_true s Hroot)). simpl.
  fold (cpu_governor_path cpu_id).
  unfold bind at 1, file_exists. rewrite Htarget. simpl.
  pose proof (get_cpu_available_governors_signal s cpu_id Hroot) as Hget.
  simpl in Hget. rewrite Hopens in Hget.
  rewrite (bind_Return _ _ _ _ _ Hget).
  rewrite (found_true _ _ Hin). simpl.
  rewrite (bind_Return _ _ _ _ _ (disable_throttling_eval _ family Hfam)).
  unfold bind. by rewrite write_file_attempt.
Qed.

Lemma set_cpu_governor_best_effort (s : system) (cpu_id : Z) (governor family : string) :
  euid s = 0 →
  opens s (cpu_governor_path cpu_id) = true →
  opens s (cpu_available_governors cpu_id) = true →
  governor ∈ String.words (strip_newline (slurp s (cpu_available_governors cpu_id))) →
  fst (BestEffort.get_soc_family s) = Return family →
  BestEffort.set_cpu_governor cpu_id governor s =
    (Return true, attempt (unthrottled family s) (cpu_governor_path cpu_id) governor).
Proof.
  intros Hroot Htarget Hopens Hin Hfam.
  unfold BestEffort.set_cpu_governor.
  rewrite (bind_Return _ _ _ _ _ (root_true s Hroot)). simpl.
  fold (cpu_governor_path cpu_id).
  unfold bind at 1, file_exists. rewrite Htarget. simpl.
  pose proof (get_cpu_available_governors_best_effort s cpu_id Hroot) as Hget.
  simpl in Hget. rewrite Hopens in Hget.
  rewrite (bind_Return _ _ _ _ _ Hget).
  rewrite nonempty_length; [|intros E; rewrite E in Hin; by apply elem_of_nil in Hin].
  rewrite (found_true _ _ Hin). simpl.
  destruct (cpu_writes_eval s family (cpu_governor_path cpu_id) governor Hfam)
    as [success Hw].
  by rewrite (bind_Return _ _ _ _ _ Hw).
Qed.

(** X15.  [set_cpu_governor] tests that its target file exists, not that it
    can be written.  An accepted request (root caller, existing target,
    governor among the available ones) writes 0 to the QoS file, on
    tegra186 and on no other family 0 to the M_CLUSTER and then the
    B_CLUSTER idle file, and then attempts to write the governor to the
    target; with a target that cannot be opened for writing that last write
    does nothing, and the setter still returns normally (in the boolean
    header: returns [true]). *)
Theorem set_cpu_governor_writes (s : system) (cpu_id : Z) (governor family : string) :
  let available := String.words (strip_newline (slurp s (cpu_available_governors cpu_id))) in
  let s' := attempt (unthrottled family s) (cpu_governor_path cpu_id) governor in
  euid s = 0 →
  opens s (cpu_governor_path cpu_id) = true →
  opens s (cpu_available_governors cpu_id) = true →
  governor ∈ available →
  (fst (Signal.get_soc_family s) = Return family →
     Signal.set_cpu_governor cpu_id governor s = (Return tt, s')) ∧
  (fst (BestEffort.get_soc_family s) = Return family →
     BestEffort.set_cpu_governor cpu_id governor s = (Return true, s')).
Proof.
  intros available s' Hroot Htarget Hopens Hin. split; intros Hfam.
  - by apply set_cpu_governor_signal.
  - by apply set_cpu_governor_best_effort.
Qed.

Lemma set_cpu_governor_writes_witness :
  let s' := wrote (wrote (wrote tx2_cpu qos "0") m_cluster "0")
                  (cpu_governor_path 0) "performance" in
  Signal.set_cpu_governor 0 "performance" tx2_cpu = (Return tt, s') ∧
  BestEffort.set_cpu_governor 0 "performance" tx2_cpu = (Return true, s').
Proof.
  destruct (set_cpu_governor_writes tx2_cpu 0 "performance" "tegra186") as [Hs Hb];
    [vm_compute; reflexivity | vm_compute; reflexivity | vm_compute; reflexivity | listed |].
  split.
  - rewrite Hs; [vm_compute; reflexivity | vm_compute; reflexivity].
  - rewrite Hb; [vm_compute; reflexivity | vm_compute; reflexivity].
Defined.

Lemma cpu_path_is_not_qos (cpu_id : Z) (leaf : string) :
  "/sys/devices/system/cpu/cpu" +:+ to_string cpu_id +:+ leaf ≠ qos.
Proof. unfold qos. intros H. simpl in H. discriminate H. Qed.

Lemma opened_is_unidentified (s : system) (name : string) :
  opens s "/sys/devices/soc0/family" = false →
  opens s "/proc/device-tree/compatible" = false →
  opens (opened s name) "/sys/devices/soc0/family" = false ∧
  opens (opened s name) "/proc/device-tree/compatible" = false.
Proof.
  intros H1 H2.
  destruct (opens_opened s name "/sys/devices/soc0/family") as [-> _].
  by destruct (opens_opened s name "/proc/device-tree/compatible") as [-> _].
Qed.

(** X16.  The per-CPU setters of the exception-throwing header can fail
    after they have written: on a board with neither identification file an
    accepted request writes 0 to the QoS file and then throws [SOC family
    cannot be found.], because the family is looked up between the QoS
    write and the target write.  The target is not written; that of
    [set_cpu_min_freq] and [set_cpu_max_freq] has been truncated by the
    writability test and is left empty. *)
Theorem cpu_setter_fails_after_qos_write (s : system) (cpu_id freq : Z) (governor : string) :
  let unidentified := Throw (JetsonClocksException "SOC family cannot be found.") in
  euid s = 0 →
  opens s "/sys/devices/soc0/family" = false →
  opens s "/proc/device-tree/compatible" = false →
  (opens s (cpu_available_frequencies cpu_id) = true →
   freq ∈ parse_longs (slurp s (cpu_available_frequencies cpu_id)) →
     (can_write s (cpu_min_freq_path cpu_id) = true →
        Signal.set_cpu_min_freq cpu_id freq s =
          (unidentified, attempt (opened s (cpu_min_freq_path cpu_id)) qos "0") ∧
        slurp (attempt (opened s (cpu_min_freq_path cpu_id)) qos "0")
              (cpu_min_freq_path cpu_id) = "") ∧
     (can_write s (cpu_max_freq_path cpu_id) = true →
        Signal.set_cpu_max_freq cpu_id freq s =
          (unidentified, attempt (opened s (cpu_max_freq_path cpu_id)) qos "0") ∧
        slurp (attempt (opened s (cpu_max_freq_path cpu_id)) qos "0")
              (cpu_max_freq_path cpu_id) = "")) ∧
  (opens s (cpu_governor_path cpu_id) = true →
   opens s (cpu_available_governors cpu_id) = true →
   governor ∈ String.words (strip_newline (slurp s (cpu_available_governors cpu_id))) →
     Signal.set_cpu_governor cpu_id governor s = (unidentified, attempt s qos "0")).
Proof.
  intros unidentified Hroot Hfamily Hcompatible. split; [intros Hopens Hin; split|].
  - intros Hw. split.
    + unfold Signal.set_cpu_min_freq.
      rewrite (bind_Return _ _ _ _ _ (root_true s Hroot)). simpl.
      fold (cpu_min_freq_path cpu_id).
      unfold bind at 1. rewrite file_writable_probe. unfold probe. rewrite Hw. simpl.
      destruct (available_after_open s cpu_id freq (cpu_min_freq_path cpu_id) Hroot
                  (proj1 (available_frequencies_is_no_target cpu_id)) Hopens Hin)
        as (available & Hget & _ & Hfound & _).
      rewrite (bind_Return _ _ _ _ _ Hget), Hfound. simpl.
      destruct (opened_is_unidentified s (cpu_min_freq_path cpu_id) Hfamily Hcompatible)
        as [Hf Hc].
      by rewrite (bind_Throw _ _ _ _ _ (disable_throttling_unidentified _ Hf Hc)).
    + rewrite slurp_attempt_other by apply cpu_path_is_not_qos.
      apply slurp_opened_same.
  - intros Hw. split.
    + unfold Signal.set_cpu_max_freq.
      rewrite (bind_Return _ _ _ _ _ (root_true s Hroot)). simpl.
      fold (cpu_max_freq_path cpu_id).
      unfold bind at 1. rewrite file_writable_probe. unfold probe. rewrite Hw. simpl.
      destruct (available_after_open s cpu_id freq (cpu_max_freq_path cpu_id) Hroot
                  (proj2 (available_frequencies_is_no_target cpu_id)) Hopens Hin)
        as (available & Hget & _ & Hfound & _).
      rewrite (bind_Return _ _ _ _ _ Hget), Hfound. simpl.
      destruct (opened_is_unidentified s (cpu_max_freq_path cpu_id) Hfamily Hcompatible)
        as [Hf Hc].
      by rewrite (bind_Throw _ _ _ _ _ (disable_throttling_unidentified _ Hf Hc)).
    + rewrite slurp_attempt_other by apply cpu_path_is_not_qos.
      apply slurp_opened_same.
  - intros Htarget Hopens Hin. unfold Signal.set_cpu_governor.
    rewrite (bind_Return _ _ _ _ _ (root_true s Hroot)). simpl.
    fold (cpu_governor_path cpu_id).
    unfold bind at 1, file_exists. rewrite Htarget. simpl.
    pose proof (get_cpu_available_governors_signal s cpu_id Hroot) as Hget.
    simpl in Hget. rewrite Hopens in Hget.
    rewrite (bind_Return _ _ _ _ _ Hget), (found_true _ _ Hin). simpl.
    by rewrite (bind_Throw _ _ _ _ _
                  (disable_throttling_unidentified s Hfamily Hcompatible)).
Qed.

Lemma cpu_setter_fails_after_qos_write_witness :
  let s' := wrote (opened unidentified (cpu_min_freq_path 0)) qos "0" in
  Signal.set_cpu_min_freq 0 2035200 unidentified =
    (Throw (JetsonClocksException "SOC family cannot be found."), s') ∧
  slurp s' qos = "0" ∧ slurp s' (cpu_min_freq_path 0) = "".
Proof.
  destruct (cpu_setter_fails_after_qos_write unidentified 0 2035200 "")
    as [H _]; [vm_compute; reflexivity | vm_compute; reflexivity | vm_compute; reflexivity |].
  destruct H as [Hmin _]; [vm_compute; reflexivity | listed |].
  destruct Hmin as [Hmin Hempty]; [vm_compute; reflexivity|].
  split; [|split].
  - rewrite Hmin. vm_compute. reflexivity.
  - vm_compute. reflexivity.
  - vm_compute. reflexivity.
Defined.

(** * The family is compared verbatim *)

(** C10 (as amended).  When the primary identification file exists, both
    headers return its whole content as the family.  A content that ends
    with a newline is none of the family names, so for a caller running as
    root every GPU and EMC operation ends in an unsupported-SOC branch: in
    the exception-throwing header the getters throw their unsupported-family
    exception and the two setters throw that of the getter they call first;
    in the boolean header the getters print the unsupported-SOC error and
    return their empty value, and the setters return [false] after that
    error was printed.  The per-CPU setters have no such branch: they
    compare the family with tegra186 only, so a request that they accept
    (target file checked, value available) succeeds in both headers, with
    the QoS write and the target write but without the cluster-idle writes
    of tegra186. *)
Theorem primary_family_verbatim (s : system) (a b : Z) :
  let primary := "/sys/devices/soc0/family" in
  opens s primary = true →
  Signal.get_soc_family s = (Return (slurp s primary), s) ∧
  BestEffort.get_soc_family s = (Return (slurp s primary), s) ∧
  ∀ body, slurp s primary = body +:+ endl → euid s = 0 →
    let family := body +:+ endl in
    let unsupported_gpu := JetsonClocksException
      ("cannot read gpu available freqs with unsupported SOC family " +:+ family +:+ ".") in
    let unsupported_emc := JetsonClocksException
      "cannot get emc available frequencies. SOC family unsupported." in
    let unsupported := "Error: unsupported SOC " +:+ family +:+ endl in
    family ≠ "tegra186" ∧ family ≠ "tegra210" ∧ family ≠ "tegra194" ∧
    (* the exception-throwing header *)
    Signal.get_gpu_available_freqs s = (Throw unsupported_gpu, s) ∧
    Signal.set_gpu_freq_range a b s = (Throw unsupported_gpu, s) ∧
    Signal.get_gpu_cur_freq s =
      (Throw (JetsonClocksException
         ("cannot get current gpu frequency with unsupported SOC family " +:+ family +:+ ".")), s) ∧
    Signal.get_gpu_min_freq s =
      (Throw (JetsonClocksException
         ("cannot get gpu min frequency with unsupported SOC family " +:+ family +:+ ".")), s) ∧
    Signal.get_gpu_max_freq s =
      (Throw (JetsonClocksException
         ("cannot get gpu max frequency with unsupported SOC family " +:+ family +:+ ".")), s) ∧
    Signal.get_gpu_current_usage s =
      (Throw (JetsonClocksException "cannot get current GPU usage. SOC family unsupported."), s) ∧
    Signal.get_emc_available_freqs s = (Throw unsupported_emc, s) ∧
    Signal.set_emc_freq a s = (Throw unsupported_emc, s) ∧
    Signal.get_emc_freq s =
      (Throw (JetsonClocksException "cannot get emc frequency. SOC family unsupported."), s) ∧
    Signal.disable_throttling s =
      (Return tt, snd (write_file "/sys/module/qos/parameters/enable" "0" s)) ∧
    (* the boolean header *)
    BestEffort.get_gpu_available_freqs s = (Return [], printed s unsupported) ∧
    BestEffort.get_emc_available_freq_range s = (Return (0, 0), printed s unsupported) ∧
    BestEffort.get_emc_freq s = (Return 0, printed s unsupported) ∧
    (∃ s' out, BestEffort.set_gpu_freq_range a b s = (Return false, s') ∧
       files s' = files s ∧
       trace s' = (trace s ++ Print unsupported :: out)%list ∧ writes out = []) ∧
    (∃ s' out, BestEffort.set_emc_freq a s = (Return false, s') ∧
       files s' = files s ∧
       trace s' = (trace s ++ Print unsupported :: out)%list ∧ writes out = []) ∧
    (* the per-CPU setters of both headers *)
    (∀ cpu_id freq,
       opens s (cpu_available_frequencies cpu_id) = true →
       freq ∈ parse_longs (slurp s (cpu_available_frequencies cpu_id)) →
       (can_write s (cpu_min_freq_path cpu_id) = true →
          let s' := wrote (attempt (opened s (cpu_min_freq_path cpu_id)) qos "0")
                          (cpu_min_freq_path cpu_id) (to_string freq) in
          Signal.set_cpu_min_freq cpu_id freq s = (Return tt, s') ∧
          BestEffort.set_cpu_min_freq cpu_id freq s = (Return true, s')) ∧
       (can_write s (cpu_max_freq_path cpu_id) = true →
          let s' := wrote (attempt (opened s (cpu_max_freq_path cpu_id)) qos "0")
                          (cpu_max_freq_path cpu_id) (to_string freq) in
          Signal.set_cpu_max_freq cpu_id freq s = (Return tt, s') ∧
          BestEffort.set_cpu_max_freq cpu_id freq s = (Return true, s'))) ∧
    (∀ cpu_id governor,
       opens s (cpu_governor_path cpu_id) = true →
       opens s (cpu_available_governors cpu_id) = true →
       governor ∈ String.words (strip_newline (slurp s (cpu_available_governors cpu_id))) →
       let s' := attempt (attempt s qos "0") (cpu_governor_path cpu_id) governor in
       Signal.set_cpu_governor cpu_id governor s = (Return tt, s') ∧
       BestEffort.set_cpu_governor cpu_id governor s = (Return true, s')).
Proof.
  intros primary Hopen.
  destruct (get_soc_family_primary s Hopen) as (Hs & Hb).
  fold primary in Hs, Hb.
  split; [exact Hs|]. split; [exact Hb|].
  intros body Hbody Hroot family ugpu uemc unsupported.
  rewrite Hbody in Hs, Hb. fold family in Hs, Hb.
  destruct (newline_is_no_family body) as [Hun Htypo]. fold family in Hun, Htypo.
  assert (family ≠ "tegra186" ∧ family ≠ "tegra210" ∧ family ≠ "tegra194")
    as (H186 & H210 & H194).
  { unfold supported in Hun. repeat split; intros E; apply Hun; auto. }
  assert (fst (Signal.get_soc_family s) = Return family) as Hfs by by rewrite Hs.
  assert (fst (BestEffort.get_soc_family s) = Return family) as Hfb by by rewrite Hb.
  destruct (unsupported_family_signal s family a b Hroot Hfs Hun)
    as (S1 & S2 & S3 & S4 & S5 & S6 & S7 & S8 & S9).
  destruct (unsupported_family_best_effort s family a b Hroot Hfb H186 H210)
    as (B1 & B2 & B3 & B4 & B5).
  pose proof (disable_throttling_other_family s family Hfs H186) as Hd.
  assert (∀ t, unthrottled family t = attempt t qos "0") as Hskip.
  { intros t. unfold unthrottled. by rewrite bool_decide_eq_false_2. }
  repeat (split; [assumption|]).
  split; [by apply S9|].
  repeat (split; [assumption|]).
  split.
  - intros cpu_id freq Hopens Hin.
    destruct (set_cpu_freq_signal s cpu_id freq family Hroot Hopens Hin Hfs) as [Smin Smax].
    destruct (set_cpu_freq_best_effort s cpu_id freq family Hroot Hopens Hin Hfb)
      as [Bmin Bmax].
    rewrite !Hskip in Smin, Smax, Bmin, Bmax.
    split; intros Hw; split; auto.
  - intros cpu_id governor Htarget Hopens Hin.
    rewrite <- Hskip. split.
    + by apply set_cpu_governor_signal.
    + by apply set_cpu_governor_best_effort.
Qed.

Lemma primary_family_verbatim_witness :
  Signal.get_soc_family nano = (Return ("tegra210" +:+ endl), nano) ∧
  Signal.get_gpu_available_freqs nano =
    (Throw (JetsonClocksException
       ("cannot read gpu available freqs with unsupported SOC family " +:+
        ("tegra210" +:+ endl) +:+ ".")), nano) ∧
  BestEffort.get_gpu_available_freqs nano =
    (Return [], printed nano ("Error: unsupported SOC " +:+ ("tegra210" +:+ endl) +:+ endl)).
Proof.
  destruct (primary_family_verbatim nano 0 0) as (Hs & _ & H); [vm_compute; reflexivity|].
  split; [exact Hs|].
  destruct (H "tegra210") as (_ & _ & _ & Hg & H');
    [vm_compute; reflexivity | vm_compute; reflexivity|].
  split; [exact Hg|].
  do 9 apply proj2 in H'. apply H'.
Defined.

(** C10, counterexample.  On a TX2 whose primary identification file reads
    tegra186 followed by a newline, [set_cpu_governor] takes no
    unsupported-SOC branch: it succeeds in both headers, having written the
    QoS file and the governor, and nothing to the cluster-idle file that it
    writes on tegra186. *)
Lemma cpu_setter_has_no_unsupported_branch :
  let s' := wrote (wrote tx2_newline qos "0") (cpu_governor_path 0) "performance" in
  fst (Signal.get_soc_family tx2_newline) = Return ("tegra186" +:+ endl) ∧
  can_write tx2_newline m_cluster = true ∧
  Signal.set_cpu_governor 0 "performance" tx2_newline = (Return tt, s') ∧
  BestEffort.set_cpu_governor 0 "performance" tx2_newline = (Return true, s').
Proof. repeat split; vm_compute; reflexivity. Qed.

(** * Further properties: governor names *)

Lemma rev_app_letters (P : ascii → Prop) (a b : string) :
  Forall P (chars a) → Forall P (chars b) → Forall P (chars (String.rev_app a b)).
Proof.
  revert b. induction a as [|c a IH]; intros b Ha Hb; [done|].
  unfold chars in Ha. simpl in Ha. apply Forall_cons in Ha as [Hc Ha].
  simpl. apply IH; [done|]. unfold chars. simpl. by apply Forall_cons.
Qed.

Lemma rev_app_nonempty (a b : string) : b ≠ "" → String.rev_app a b ≠ "".
Proof.
  revert b. induction a as [|c a IH]; intros b Hb; [done|].
  simpl. by apply IH.
Qed.

Lemma rev_word (acc : string) :
  acc ≠ "" → Forall (λ c, Ascii.is_space c = false) (chars acc) → is_word (String.rev acc).
Proof.
  intros Hne Hacc. split.
  - destruct acc as [|c acc]; [done|]. unfold String.rev. simpl.
    by apply rev_app_nonempty.
  - unfold String.rev. apply rev_app_letters; [done|]. unfold chars. simpl. constructor.
Qed.

Lemma words_go_are_words (s : string) :
  ∀ cur,
    (∀ acc, cur = Some acc → acc ≠ "" ∧ Forall (λ c, Ascii.is_space c = false) (chars acc)) →
    Forall is_word (String.words_go cur s).
Proof.
  induction s as [|a s IH]; intros cur Hcur; simpl.
  - destruct cur as [acc|]; simpl; [|constructor].
    destruct (Hcur acc eq_refl) as [Hne Hacc].
    apply Forall_cons. split; [by apply rev_word | constructor].
  - destruct (Ascii.is_space a) eqn:Ha.
    + apply Forall_app. split.
      * destruct cur as [acc|]; simpl; [|constructor].
        destruct (Hcur acc eq_refl) as [Hne Hacc].
        apply Forall_cons. split; [by apply rev_word | constructor].
      * apply IH. by intros acc [=].
    + apply IH. intros acc [= <-]. destruct cur as [acc|]; simpl.
      * destruct (Hcur acc eq_refl) as [Hne Hacc]. split; [done|].
        unfold chars. simpl. by apply Forall_cons.
      * split; [done|]. unfold chars. simpl. apply Forall_cons. split; [done | constructor].
Qed.

Lemma words_are_words (s : string) : Forall is_word (String.words s).
Proof. apply words_go_are_words. by intros acc [=]. Qed.

(** X17.  Whatever the file of available governors holds, every name that
    [get_cpu_available_governors] returns is non-empty and free of white
    space, in both headers.  So [set_cpu_governor] accepts no empty name and
    no name with a space or a newline in it: whatever the system, such a
    request makes the exception-throwing setter throw a
    [JetsonClocksException] and leave the system as it was, and the boolean
    setter return [false] after having printed at most. *)
Theorem available_governors_are_words (s : system) (cpu_id : Z) (governors : list string)
    (governor : string) :
  (fst (Signal.get_cpu_available_governors cpu_id s) = Return governors ∨
   fst (BestEffort.get_cpu_available_governors cpu_id s) = Return governors →
   Forall is_word governors) ∧
  (¬ is_word governor →
   (∃ message, Signal.set_cpu_governor cpu_id governor s = thrown s message) ∧
   (∃ s', BestEffort.set_cpu_governor cpu_id governor s = (Return false, s') ∧
          quiet s s')).
Proof.
  split.
  - destruct (decide (euid s = 0)) as [Hroot | Hguest].
    + rewrite (get_cpu_available_governors_signal s cpu_id Hroot).
      rewrite (get_cpu_available_governors_best_effort s cpu_id Hroot).
      destruct (opens s (cpu_available_governors cpu_id)); simpl.
      * intros [[= <-] | [= <-]]; apply words_are_words.
      * intros [[=] | [= <-]]. constructor.
    + destruct (root_required_signal s 0 0 0 cpu_id "" Hguest)
        as (_ & _ & _ & _ & _ & _ & _ & _ & _ & _ & _ & _ & -> & _).
      destruct (root_required_best_effort s 0 0 0 cpu_id "" Hguest)
        as (_ & _ & _ & _ & _ & _ & _ & _ & _ & -> & _).
      simpl. intros [[=] | [= <-]]. constructor.
  - intros Hword.
    assert (∀ text, governor ∉ String.words text) as Hnot.
    { intros text Hin. apply Hword.
      pose proof (words_are_words text) as Hwords.
      rewrite Forall_forall in Hwords. by apply Hwords. }
    split.
    + destruct (decide (euid s = 0)) as [Hroot | Hguest].
      * unfold Signal.set_cpu_governor.
        rewrite (bind_Return _ _ _ _ _ (root_true s Hroot)). simpl.
        fold (cpu_governor_path cpu_id).
        unfold bind at 1, file_exists.
        destruct (opens s (cpu_governor_path cpu_id)); simpl; [|by eexists].
        unfold bind at 1.
        rewrite (get_cpu_available_governors_signal s cpu_id Hroot).
        destruct (opens s (cpu_available_governors cpu_id)); [|by eexists].
        rewrite (found_false _ _ (Hnot _)). by eexists.
      * destruct (root_required_signal s 0 0 0 cpu_id governor Hguest)
          as (_ & _ & _ & _ & _ & _ & _ & _ & _ & _ & _ & _ & _ & _ & _ & _ & _ & _ & _ & ->).
        by eexists.
    + destruct (best_effort_rejects (CpuGovernor cpu_id governor) s) as (s' & Hset & Hq).
      * destruct (get_cpu_available_governors_quiet s cpu_id) as (avail & s1 & Hget & _).
        exists avail. rewrite Hget. split; [done|].
        destruct (decide (euid s = 0)) as [Hroot | Hguest].
        -- rewrite (get_cpu_available_governors_best_effort s cpu_id Hroot) in Hget.
           destruct (opens s (cpu_available_governors cpu_id)); simplify_eq;
             [apply Hnot | apply not_elem_of_nil].
        -- destruct (root_required_best_effort s 0 0 0 cpu_id "" Hguest)
             as (_ & _ & _ & _ & _ & _ & _ & _ & _ & Hdenied & _).
           rewrite Hdenied in Hget. simplify_eq. apply not_elem_of_nil.
      * exists s'. split; [exact Hset|].
        unfold probed in Hq. by destruct (bool_decide (euid s = 0)).
Qed.

Lemma available_governors_are_words_witness :
  Forall is_word ["schedutil"; "performance"] ∧
  (∃ message, Signal.set_cpu_governor 0 "" tx2_cpu = thrown tx2_cpu message) ∧
  (∃ s', BestEffort.set_cpu_governor 0 "" tx2_cpu = (Return false, s') ∧ quiet tx2_cpu s').
Proof.
  destruct (available_governors_are_words tx2_cpu 0 ["schedutil"; "performance"] "")
    as [Hwords Hrejected].
  split.
  - apply Hwords. left. vm_compute. reflexivity.
  - apply Hrejected. by intros [Hempty _].
Defined.

(** * Further properties: reading back *)

Lemma after_write (s : system) (path str : string) :
  can_write s path = true →
  euid (wrote s path str) = euid s ∧
  opens (wrote s path str) path = true ∧
  slurp (wrote s path str) path = str.
Proof.
  intros Hw. rewrite <- (wrote_attempt s path str Hw).
  split; [apply euid_attempt|]. split; [|by apply slurp_attempt_same].
  destruct (opens_attempt s path str path) as [-> _].
  unfold can_write in Hw. by apply andb_true_iff in Hw as [? _].
Qed.

Lemma get_cpu_governor_eval (s : system) (cpu_id : Z) :
  euid s = 0 →
  opens s (cpu_governor_path cpu_id) = true →
  Signal.get_cpu_governor cpu_id s =
    (Return (strip_newline (slurp s (cpu_governor_path cpu_id))), s) ∧
  BestEffort.get_cpu_governor cpu_id s =
    (Return (strip_newline (slurp s (cpu_governor_path cpu_id))), s).
Proof.
  intros Hroot Hopens.
  unfold Signal.get_cpu_governor, BestEffort.get_cpu_governor.
  rewrite !(bind_Return _ _ _ _ _ (root_true s Hroot)). simpl.
  fold (cpu_governor_path cpu_id).
  unfold bind, file_exists, read_file, ret. by rewrite Hopens.
Qed.

(** X18.  After an accepted [set_cpu_governor] whose target can be written,
    and with a target that reads back what was written to it,
    [get_cpu_governor] returns the governor that was set, in both
    headers. *)
Theorem cpu_governor_round_trip (s : system) (cpu_id : Z) (governor family : string) :
  euid s = 0 →
  can_write s (cpu_governor_path cpu_id) = true →
  opens s (cpu_available_governors cpu_id) = true →
  governor ∈ String.words (strip_newline (slurp s (cpu_available_governors cpu_id))) →
  (fst (Signal.get_soc_family s) = Return family →
     ∃ s', Signal.set_cpu_governor cpu_id governor s = (Return tt, s') ∧
           Signal.get_cpu_governor cpu_id s' = (Return governor, s')) ∧
  (fst (BestEffort.get_soc_family s) = Return family →
     ∃ s', BestEffort.set_cpu_governor cpu_id governor s = (Return true, s') ∧
           BestEffort.get_cpu_governor cpu_id s' = (Return governor, s')).
Proof.
  intros Hroot Hw Hopens Hin.
  assert (opens s (cpu_governor_path cpu_id) = true) as Htarget.
  { unfold can_write in Hw. by apply andb_true_iff in Hw as [? _]. }
  assert (strip_newline governor = governor) as Hclean.
  { apply strip_newline_clean, word_clean.
    pose proof (words_are_words (strip_newline (slurp s (cpu_available_governors cpu_id))))
      as Hwords.
    rewrite Forall_forall in Hwords. by apply Hwords. }
  destruct (unthrottled_frame family s) as (Heuid & _ & Hcan & _).
  assert (can_write (unthrottled family s) (cpu_governor_path cpu_id) = true) as Hw'
    by (by rewrite Hcan).
  destruct (after_write _ _ governor Hw') as (Hroot' & Hopens' & Hread).
  rewrite Heuid, Hroot in Hroot'.
  destruct (get_cpu_governor_eval _ cpu_id Hroot' Hopens') as [Hgs Hgb].
  rewrite Hread, Hclean in Hgs, Hgb.
  split; intros Hfam; eexists.
  - split; [|done].
    rewrite (set_cpu_governor_signal s cpu_id governor family) by done.
    by rewrite wrote_attempt.
  - split; [|done].
    rewrite (set_cpu_governor_best_effort s cpu_id governor family) by done.
    by rewrite wrote_attempt.
Qed.

Lemma cpu_governor_round_trip_witness :
  ∃ s', Signal.set_cpu_governor 0 "performance" tx2_cpu = (Return tt, s') ∧
        Signal.get_cpu_governor 0 s' = (Return "performance", s').
Proof.
  destruct (cpu_governor_round_trip tx2_cpu 0 "performance" "tegra186") as [H _];
    [vm_compute; reflexivity | vm_compute; reflexivity | vm_compute; reflexivity | listed |].
  apply H. vm_compute; reflexivity.
Defined.

Lemma stoi_empty : stoi "" = Throw invalid_argument.
Proof. reflexivity. Qed.

Lemma stoi_out_of_range (z : Z) (rest : string) :
  ¬ is_int z → no_digit_ahead rest → stoi (to_string z +:+ rest) = Throw out_of_range.
Proof.
  intros Hz Hrest. unfold stoi. rewrite strtol_to_string by done.
  by rewrite bool_decide_eq_false_2.
Qed.

Lemma get_cpu_freq_eval (s : system) (cpu_id : Z) (leaf : string) :
  let path := "/sys/devices/system/cpu/cpu" +:+ to_string cpu_id +:+ leaf in
  euid s = 0 →
  opens s path = true →
  (∀ what denied, Signal.get_cpu_freq leaf what denied cpu_id s = (stoi (slurp s path), s)) ∧
  (∀ which, BestEffort.get_cpu_freq leaf which cpu_id s = (stoi (slurp s path), s)).
Proof.
  intros path Hroot Hopens. split; intros.
  - unfold Signal.get_cpu_freq.
    rewrite (bind_Return _ _ _ _ _ (root_true s Hroot)). simpl. fold path.
    unfold bind, file_exists, read_file, lift. by rewrite Hopens.
  - unfold BestEffort.get_cpu_freq.
    rewrite (bind_Return _ _ _ _ _ (root_true s Hroot)). simpl. fold path.
    unfold bind, file_exists, read_file, lift. by rewrite Hopens.
Qed.

(** The six getters of a per-CPU frequency, by the file they read. *)
Lemma cpu_freq_getters (s : system) (cpu_id : Z) :
  euid s = 0 →
  (opens s (cpu_min_freq_path cpu_id) = true →
     Signal.get_cpu_min_freq cpu_id s = (stoi (slurp s (cpu_min_freq_path cpu_id)), s) ∧
     BestEffort.get_cpu_min_freq cpu_id s = (stoi (slurp s (cpu_min_freq_path cpu_id)), s)) ∧
  (opens s (cpu_max_freq_path cpu_id) = true →
     Signal.get_cpu_max_freq cpu_id s = (stoi (slurp s (cpu_max_freq_path cpu_id)), s) ∧
     BestEffort.get_cpu_max_freq cpu_id s = (stoi (slurp s (cpu_max_freq_path cpu_id)), s)) ∧
  (opens s (cpu_cur_freq_path cpu_id) = true →
     Signal.get_cpu_cur_freq cpu_id s = (stoi (slurp s (cpu_cur_freq_path cpu_id)), s) ∧
     BestEffort.get_cpu_cur_freq cpu_id s = (stoi (slurp s (cpu_cur_freq_path cpu_id)), s)).
Proof.
  intros Hroot. split; [|split]; intros Hopens; split.
  all: first
    [ destruct (get_cpu_freq_eval s cpu_id "/cpufreq/scaling_min_freq" Hroot Hopens)
        as [Hs Hb];
      first [apply Hs | apply Hb]
    | destruct (get_cpu_freq_eval s cpu_id "/cpufreq/scaling_max_freq" Hroot Hopens)
        as [Hs Hb];
      first [apply Hs | apply Hb]
    | destruct (get_cpu_freq_eval s cpu_id "/cpufreq/scaling_cur_freq" Hroot Hopens)
        as [Hs Hb];
      first [apply Hs | apply Hb] ].
Qed.

(** X19.  The getters of a CPU's minimum, maximum and current frequency
    read the decimal number at the head of their file, so a trailing
    newline does no harm.  They convert with [std::stoi] although they
    return [long int]: a number outside the range of [int] makes them throw
    [std::out_of_range], and an empty file [std::invalid_argument].  These
    are not [JetsonClocksException]s, and the boolean header, which reports
    its other errors by printing and returning 0, throws them too. *)
Theorem cpu_freq_getters_use_stoi (s : system) (cpu_id v : Z) (rest : string)
    (getter_signal getter_best_effort : Z → M Z) (path : string) :
  (getter_signal, getter_best_effort, path) ∈
    [ (Signal.get_cpu_min_freq, BestEffort.get_cpu_min_freq, cpu_min_freq_path cpu_id);
      (Signal.get_cpu_max_freq, BestEffort.get_cpu_max_freq, cpu_max_freq_path cpu_id);
      (Signal.get_cpu_cur_freq, BestEffort.get_cpu_cur_freq, cpu_cur_freq_path cpu_id) ] →
  euid s = 0 →
  opens s path = true →
  no_digit_ahead rest →
  (slurp s path = to_string v +:+ rest → is_int v →
     getter_signal cpu_id s = (Return v, s) ∧
     getter_best_effort cpu_id s = (Return v, s)) ∧
  (slurp s path = to_string v +:+ rest → ¬ is_int v →
     getter_signal cpu_id s = (Throw out_of_range, s) ∧
     getter_best_effort cpu_id s = (Throw out_of_range, s)) ∧
  (slurp s path = "" →
     getter_signal cpu_id s = (Throw invalid_argument, s) ∧
     getter_best_effort cpu_id s = (Throw invalid_argument, s)).
Proof.
  intros Hgetter Hroot Hopens Hrest.
  destruct (cpu_freq_getters s cpu_id Hroot) as (Hmin & Hmax & Hcur).
  assert (getter_signal cpu_id s = (stoi (slurp s path), s) ∧
          getter_best_effort cpu_id s = (stoi (slurp s path), s)) as [-> ->].
  { repeat (apply elem_of_cons in Hgetter as [Hgetter | Hgetter];
            [simplify_eq; auto|]).
    by apply elem_of_nil in Hgetter. }
  split; [|split].
  - intros -> Hv. by rewrite stoi_to_string.
  - intros -> Hv. by rewrite stoi_out_of_range.
  - intros ->. by rewrite stoi_empty.
Qed.

Lemma cpu_freq_getters_use_stoi_witness :
  (Signal.get_cpu_cur_freq 0 odd_readings = (Return 1190400, odd_readings) ∧
   BestEffort.get_cpu_cur_freq 0 odd_readings = (Return 1190400, odd_readings)) ∧
  (Signal.get_cpu_max_freq 0 odd_readings = (Throw out_of_range, odd_readings) ∧
   BestEffort.get_cpu_max_freq 0 odd_readings = (Throw out_of_range, odd_readings)) ∧
  (Signal.get_cpu_min_freq 0 odd_readings = (Throw invalid_argument, odd_readings) ∧
   BestEffort.get_cpu_min_freq 0 odd_readings = (Throw invalid_argument, odd_readings)).
Proof.
  split; [|split].
  - destruct (cpu_freq_getters_use_stoi odd_readings 0 1190400 endl
                Signal.get_cpu_cur_freq BestEffort.get_cpu_cur_freq (cpu_cur_freq_path 0))
      as (H & _); [set_solver | vm_compute; reflexivity | vm_compute; reflexivity | vm_compute; reflexivity |].
    apply H; [vm_compute; reflexivity | by vm_compute].
  - destruct (cpu_freq_getters_use_stoi odd_readings 0 4000000000 endl
                Signal.get_cpu_max_freq BestEffort.get_cpu_max_freq (cpu_max_freq_path 0))
      as (_ & H & _); [set_solver | vm_compute; reflexivity | vm_compute; reflexivity | vm_compute; reflexivity |].
    apply H; [vm_compute; reflexivity | unfold is_int, INT_MIN, INT_MAX; lia].
  - destruct (cpu_freq_getters_use_stoi odd_readings 0 0 ""
                Signal.get_cpu_min_freq BestEffort.get_cpu_min_freq (cpu_min_freq_path 0))
      as (_ & _ & H); [set_solver | vm_compute; reflexivity | vm_compute; reflexivity | vm_compute; reflexivity |].
    apply H. vm_compute; reflexivity.
Defined.

Lemma read_own_frequency (s : system) (cpu_id freq : Z) (family path : string) :
  euid s = 0 →
  can_write s path = true →
  is_int freq →
  let s' := wrote (unthrottled family (opened s path)) path (to_string freq) in
  euid s' = 0 ∧ opens s' path = true ∧ stoi (slurp s' path) = Return freq.
Proof.
  intros Hroot Hw Hint s'.
  destruct (unthrottled_frame family (opened s path)) as (Heuid & _ & Hcan & _).
  assert (can_write (unthrottled family (opened s path)) path = true) as Hw'
    by (by rewrite Hcan, can_write_opened).
  destruct (after_write _ _ (to_string freq) Hw') as (Hroot' & Hopens' & Hread).
  subst s'. split; [by rewrite Hroot', Heuid|]. split; [done|].
  rewrite Hread. by apply stoi_to_string_alone.
Qed.

(** X20.  After an accepted [set_cpu_min_freq] or [set_cpu_max_freq], and
    with a target that reads back what was written to it, the getter of the
    same bound returns the frequency that was set, provided it lies in the
    range of [int]; this holds in both headers. *)
Theorem cpu_freq_round_trip (s : system) (cpu_id freq : Z) (family : string) :
  euid s = 0 →
  opens s (cpu_available_frequencies cpu_id) = true →
  freq ∈ parse_longs (slurp s (cpu_available_frequencies cpu_id)) →
  is_int freq →
  (fst (Signal.get_soc_family s) = Return family →
     (can_write s (cpu_min_freq_path cpu_id) = true →
        ∃ s', Signal.set_cpu_min_freq cpu_id freq s = (Return tt, s') ∧
              Signal.get_cpu_min_freq cpu_id s' = (Return freq, s')) ∧
     (can_write s (cpu_max_freq_path cpu_id) = true →
        ∃ s', Signal.set_cpu_max_freq cpu_id freq s = (Return tt, s') ∧
              Signal.get_cpu_max_freq cpu_id s' = (Return freq, s'))) ∧
  (fst (BestEffort.get_soc_family s) = Return family →
     (can_write s (cpu_min_freq_path cpu_id) = true →
        ∃ s', BestEffort.set_cpu_min_freq cpu_id freq s = (Return true, s') ∧
              BestEffort.get_cpu_min_freq cpu_id s' = (Return freq, s')) ∧
     (can_write s (cpu_max_freq_path cpu_id) = true →
        ∃ s', BestEffort.set_cpu_max_freq cpu_id freq s = (Return true, s') ∧
              BestEffort.get_cpu_max_freq cpu_id s' = (Return freq, s'))).
Proof.
  intros Hroot Hopens Hin Hint.
  assert (fst (Signal.get_soc_family s) = Return family →
          _) as Hs by (intros Hfam; exact (set_cpu_freq_signal s cpu_id freq family
                                             Hroot Hopens Hin Hfam)).
  assert (fst (BestEffort.get_soc_family s) = Return family →
          _) as Hb by (intros Hfam; exact (set_cpu_freq_best_effort s cpu_id freq family
                                             Hroot Hopens Hin Hfam)).
  split; intros Hfam; split; intros Hw.
  - destruct (Hs Hfam) as [Hset _]. eexists. split; [by apply Hset|].
    destruct (read_own_frequency s cpu_id freq family _ Hroot Hw Hint) as (Hr & Ho & Hread).
    destruct (cpu_freq_getters _ cpu_id Hr) as (Hmin & _).
    destruct (Hmin Ho) as [-> _]. by rewrite Hread.
  - destruct (Hs Hfam) as [_ Hset]. eexists. split; [by apply Hset|].
    destruct (read_own_frequency s cpu_id freq family _ Hroot Hw Hint) as (Hr & Ho & Hread).
    destruct (cpu_freq_getters _ cpu_id Hr) as (_ & Hmax & _).
    destruct (Hmax Ho) as [-> _]. by rewrite Hread.
  - destruct (Hb Hfam) as [Hset _]. eexists. split; [by apply Hset|].
    destruct (read_own_frequency s cpu_id freq family _ Hroot Hw Hint) as (Hr & Ho & Hread).
    destruct (cpu_freq_getters _ cpu_id Hr) as (Hmin & _).
    destruct (Hmin Ho) as [_ ->]. by rewrite Hread.
  - destruct (Hb Hfam) as [_ Hset]. eexists. split; [by apply Hset|].
    destruct (read_own_frequency s cpu_id freq family _ Hroot Hw Hint) as (Hr & Ho & Hread).
    destruct (cpu_freq_getters _ cpu_id Hr) as (_ & Hmax & _).
    destruct (Hmax Ho) as [_ ->]. by rewrite Hread.
Qed.

Lemma cpu_freq_round_trip_witness :
  ∃ s', BestEffort.set_cpu_min_freq 0 2035200 tx2_cpu = (Return true, s') ∧
        BestEffort.get_cpu_min_freq 0 s' = (Return 2035200, s').
Proof.
  destruct (cpu_freq_round_trip tx2_cpu 0 2035200 "tegra186") as [_ H];
    [vm_compute; reflexivity | vm_compute; reflexivity | listed | by vm_compute |].
  destruct (H eq_refl) as [Hmin _]. apply Hmin. vm_compute; reflexivity.
Defined.

(** * Further properties: reading back the EMC and GPU frequencies *)

Lemma emc_files_are_no_identification (family : string) :
  (emc_rate family ∉ identification) ∧ (emc_override family ∉ identification).
Proof.
  unfold emc_rate, emc_override, identification.
  split; intros H; case_bool_decide;
    repeat (apply elem_of_cons in H as [H | H]; [discriminate H|]);
    by apply elem_of_nil in H.
Qed.

Lemma emc_rate_is_no_override (family : string) : emc_rate family ≠ emc_override family.
Proof. unfold emc_rate, emc_override. by case_bool_decide. Qed.

(** The system after the two writes of [set_emc_freq], the first of which
    succeeded. *)
Lemma emc_written (s : system) (family : string) (freq : Z) :
  euid s = 0 →
  can_write s (emc_rate family) = true →
  let s2 := attempt (attempt s (emc_rate family) (to_string freq)) (emc_override family) "1" in
  euid s2 = 0 ∧
  slurp s2 (emc_rate family) = to_string freq ∧
  (fst (Signal.get_soc_family s) = Return family →
     Signal.get_soc_family s2 = (Return family, s2)) ∧
  (fst (BestEffort.get_soc_family s) = Return family →
     BestEffort.get_soc_family s2 = (Return family, s2)).
Proof.
  intros Hroot Hw s2. subst s2.
  destruct (emc_files_are_no_identification family) as [Hrate Hoverride].
  split; [by rewrite !euid_attempt|]. split.
  - rewrite slurp_attempt_other by apply emc_rate_is_no_override.
    by apply slurp_attempt_same.
  - destruct (get_soc_family_attempt s (emc_rate family) (to_string freq) Hrate) as [Hs Hb].
    destruct (get_soc_family_attempt (attempt s (emc_rate family) (to_string freq))
                (emc_override family) "1" Hoverride) as [Hs' Hb'].
    split; intros Hfam.
    + apply Hs'. by rewrite (Hs family Hfam).
    + apply Hb'. by rewrite (Hb family Hfam).
Qed.

(** X21.  After an accepted [set_emc_freq] whose rate file can be written,
    and with a rate file that reads back what was written to it,
    [get_emc_freq] returns the frequency that was set on tegra186 and
    tegra210, in both headers.  On tegra194 the exception-throwing header
    sets the frequency and then cannot read it: [get_emc_freq] throws
    [cannot get emc frequency. SOC family unsupported.], because its test
    names the family [tagra194]. *)
Theorem emc_freq_round_trip (s : system) (family : string) (lo hi freq : Z) :
  euid s = 0 →
  lo ≤ freq ≤ hi →
  is_int freq →
  can_write s (emc_rate family) = true →
  (fst (Signal.get_soc_family s) = Return family →
   fst (Signal.get_emc_available_freqs s) = Return [lo; hi] →
     (family = "tegra186" ∨ family = "tegra210" →
        ∃ s', Signal.set_emc_freq freq s = (Return tt, s') ∧
              Signal.get_emc_freq s' = (Return freq, s')) ∧
     (family = "tegra194" →
        ∃ s', Signal.set_emc_freq freq s = (Return tt, s') ∧
              Signal.get_emc_freq s' =
                thrown s' "cannot get emc frequency. SOC family unsupported.")) ∧
  (fst (BestEffort.get_soc_family s) = Return family →
   fst (BestEffort.get_emc_available_freq_range s) = Return (lo, hi) →
   family = "tegra186" ∨ family = "tegra210" →
     ∃ s', BestEffort.set_emc_freq freq s = (Return true, s') ∧
           BestEffort.get_emc_freq s' = (Return freq, s')).
Proof.
  intros Hroot Hfreq Hint Hw.
  pose proof (set_emc_freq_signal s family lo hi freq Hroot Hfreq) as Hs.
  pose proof (set_emc_freq_best_effort s family lo hi freq Hroot Hfreq) as Hb.
  destruct (emc_written s family freq Hroot Hw) as (Hroot' & Hread & Hfs & Hfb).
  split.
  - intros Hfam Hrange. split.
    + intros Hsup. eexists. split.
      { apply Hs; [done | | done]. unfold supported. tauto. }
      unfold Signal.get_emc_freq.
      rewrite (bind_Return _ _ _ _ _ (root_true _ Hroot')). simpl.
      rewrite (bind_Return _ _ _ _ _ (Hfs Hfam)).
      assert (∀ t, Signal.EMC_GET_PATH family t = (Return (emc_rate family), t)) as Hpath.
      { intros t. destruct Hsup as [-> | ->]; reflexivity. }
      rewrite (bind_Return _ _ _ _ _ (Hpath _)).
      unfold bind, read_file, lift. rewrite Hread. by rewrite stoi_to_string_alone.
    + intros ->. eexists. split.
      { apply Hs; [done | | done]. unfold supported. tauto. }
      unfold Signal.get_emc_freq.
      rewrite (bind_Return _ _ _ _ _ (root_true _ Hroot')). simpl.
      rewrite (bind_Return _ _ _ _ _ (Hfs Hfam)).
      reflexivity.
  - intros Hfam Hrange Hsup. eexists. split; [by apply Hb|].
    unfold BestEffort.get_emc_freq.
    rewrite (bind_Return _ _ _ _ _ (root_true _ Hroot')). simpl.
    rewrite (bind_Return _ _ _ _ _ (Hfb Hfam)).
    assert (BestEffort.EMC_PATHS family = Some (emc_rate family, emc_override family)) as ->.
    { destruct Hsup as [-> | ->]; reflexivity. }
    unfold bind, read_file, lift. rewrite Hread. by rewrite stoi_to_string_alone.
Qed.

Lemma emc_freq_round_trip_witness :
  (∃ s', Signal.set_emc_freq 100 tx2_emc = (Return tt, s') ∧
         Signal.get_emc_freq s' = (Return 100, s')) ∧
  (∃ s', Signal.set_emc_freq 1600000000 xavier_gpu = (Return tt, s') ∧
         Signal.get_emc_freq s' =
           thrown s' "cannot get emc frequency. SOC family unsupported.").
Proof.
  split.
  - destruct (emc_freq_round_trip tx2_emc "tegra186" 40 300 100) as [H _];
      [vm_compute; reflexivity | lia | by vm_compute | vm_compute; reflexivity |].
    destruct H as [H _]; [vm_compute; reflexivity | by vm_compute |].
    apply H. by left.
  - destruct (emc_freq_round_trip xavier_gpu "tegra194" 204000000 2133000000 1600000000)
      as [H _]; [vm_compute; reflexivity | lia | by vm_compute | vm_compute; reflexivity |].
    destruct H as [_ H]; [vm_compute; reflexivity | by vm_compute |].
    by apply H.
Defined.

Lemma get_gpu_freq_eval (s : system) (leaf what what_missing denied : string) :
  let PATH := "/sys/devices/17000000.gv11b/devfreq/17000000.gv11b/" +:+ leaf in
  euid s = 0 →
  Signal.get_soc_family s = (Return "tegra194", s) →
  opens s PATH = true →
  Signal.get_gpu_freq leaf what what_missing denied s = (stoi (slurp s PATH), s).
Proof.
  intros PATH Hroot Hfam Hopens. unfold Signal.get_gpu_freq.
  rewrite (bind_Return _ _ _ _ _ (root_true s Hroot)). simpl.
  rewrite (bind_Return _ _ _ _ _ Hfam).
  unfold Signal.GPU_FREQ_PATH. simpl. fold PATH.
  unfold bind, ret, file_exists, read_file, lift. by rewrite Hopens.
Qed.

(** X22.  On tegra194, the one family for which the exception-throwing
    header can read the GPU bounds, [get_gpu_min_freq] and
    [get_gpu_max_freq] after an accepted [set_gpu_freq_range] return the two
    frequencies that were set, when both files can be written, read back
    what was written to them, and the frequencies lie in the range of
    [int]. *)
Theorem gpu_freq_range_round_trip (s : system) (min_freq max_freq : Z) :
  let node := "/sys/devices/17000000.gv11b/devfreq/17000000.gv11b" in
  let available := parse_longs (slurp s (node +:+ "/available_frequencies")) in
  euid s = 0 →
  fst (Signal.get_soc_family s) = Return "tegra194" →
  min_freq ∈ available →
  max_freq ∈ available →
  is_int min_freq →
  is_int max_freq →
  can_write s (node +:+ "/min_freq") = true →
  can_write s (node +:+ "/max_freq") = true →
  ∃ s', Signal.set_gpu_freq_range min_freq max_freq s = (Return tt, s') ∧
        Signal.get_gpu_min_freq s' = (Return min_freq, s') ∧
        Signal.get_gpu_max_freq s' = (Return max_freq, s').
Proof.
  intros node available Hroot Hfam Hmin Hmax Himin Himax Hwmin Hwmax.
  eexists. split.
  { apply (set_gpu_freq_range_signal s "tegra194"); [done | done | done | done |].
    unfold supported. tauto. }
  change (gpu_node "tegra194") with node.
  set (MIN := node +:+ "/min_freq") in *.
  set (MAX := node +:+ "/max_freq") in *.
  set (RAIL := node +:+ "/device/railgate_enable").
  set (s1 := attempt s MIN (to_string min_freq)).
  set (s2 := attempt s1 MAX (to_string max_freq)).
  set (s3 := attempt s2 RAIL "0").
  assert (euid s3 = 0) as Hroot3 by (unfold s3, s2, s1; by rewrite !euid_attempt).
  assert (∀ any, opens s3 any = opens s any) as Hopens.
  { intros any. unfold s3, s2, s1.
    destruct (opens_attempt (attempt (attempt s MIN (to_string min_freq)) MAX
                               (to_string max_freq)) RAIL "0" any) as [-> _].
    destruct (opens_attempt (attempt s MIN (to_string min_freq)) MAX
                (to_string max_freq) any) as [-> _].
    by destruct (opens_attempt s MIN (to_string min_freq) any) as [-> _]. }
  assert (Signal.get_soc_family s3 = (Return "tegra194", s3)) as Hfam3.
  { destruct (get_soc_family_agree s s3) as [-> _]; [done | | by rewrite Hfam].
    intros name Hname. unfold s3, s2, s1.
    rewrite !slurp_attempt_other; [done | | |]; intros ->; unfold identification in Hname;
      repeat (apply elem_of_cons in Hname as [Hname | Hname]; [discriminate Hname|]);
      by apply elem_of_nil in Hname. }
  assert (opens s MIN = true ∧ opens s MAX = true) as [Homin Homax].
  { unfold can_write in Hwmin, Hwmax.
    apply andb_true_iff in Hwmin as [? _]. by apply andb_true_iff in Hwmax as [? _]. }
  assert (slurp s3 MIN = to_string min_freq) as Hrmin.
  { unfold s3, s2. rewrite !slurp_attempt_other by discriminate.
    by apply slurp_attempt_same. }
  assert (slurp s3 MAX = to_string max_freq) as Hrmax.
  { unfold s3. rewrite slurp_attempt_other by discriminate.
    apply slurp_attempt_same. unfold s1. by rewrite can_write_attempt. }
  split.
  - unfold Signal.get_gpu_min_freq.
    rewrite get_gpu_freq_eval; [| done | done | by rewrite Hopens].
    change ("/sys/devices/17000000.gv11b/devfreq/17000000.gv11b/" +:+ "min_freq") with MIN.
    by rewrite Hrmin, stoi_to_string_alone.
  - unfold Signal.get_gpu_max_freq.
    rewrite get_gpu_freq_eval; [| done | done | by rewrite Hopens].
    change ("/sys/devices/17000000.gv11b/devfreq/17000000.gv11b/" +:+ "max_freq") with MAX.
    by rewrite Hrmax, stoi_to_string_alone.
Qed.

Lemma gpu_freq_range_round_trip_witness :
  ∃ s', Signal.set_gpu_freq_range 675750000 1377000000 xavier_gpu = (Return tt, s') ∧
        Signal.get_gpu_min_freq s' = (Return 675750000, s') ∧
        Signal.get_gpu_max_freq s' = (Return 1377000000, s').
Proof.
  apply (gpu_freq_range_round_trip xavier_gpu 675750000 1377000000);
    [ vm_compute; reflexivity | vm_compute; reflexivity | listed | listed
    | by vm_compute | by vm_compute | vm_compute; reflexivity | vm_compute; reflexivity ].
Defined.

